(** * Content-risk triage pipeline: the workflow graph, its stages and routing

    A shallow embedding of [src/nodes.py], [src/workflow.py] and
    [src/error_handler.py] (with the decorators of [src/debug_tools.py]).

    Modelling conventions.
    - A Python [str] is the Rocq [string] of its UTF-8 encoding.  Counting
      and cutting by characters ([len], [s[:n]]) and [strip] work on the
      encoded characters, with the white space of [str.isspace]; comparison,
      concatenation and [in] coincide with their byte-wise versions.  [find],
      [rfind] and [slice] keep byte offsets: they are only used together, on
      the ASCII braces.  [lower], [upper] and [title] change the ASCII
      letters and leave every other character as it is.
    - A Python [float] or [int] used as a score or a duration is an exact
      rational [Q]; floating-point rounding is not modelled.
    - [ContentState] is the [TypedDict] of [workflow.py]: a record whose
      fields hold [None] while the key is absent from the dict and values of
      the declared type otherwise; the name of an entity and the rating of a
      fact check, declared [Any], are taken to be strings when present.  The
      JSON of the LLM is read at these types.  A reply that puts values of
      other types under the keys is outside the model, and so are the
      exceptions that [verification_node] and [report_generation_node]
      raise on such values.
    - The collaborators outside the repository (the LLM client, [json.loads],
      the HTTP lookups, the random generator, the clock, the widgets) are
      oracles gathered in a [World]; Streamlit's session state, the oracle
      cursors and the trace of observable effects are the mutable [Machine].
    - The trace records the calls of the collaborators, the pauses and the
      messages of [st.warning], [st.error] and [st.write]; the progress
      placeholders and the wording of the prompts are left out.
    - The graph engine is the library's: it runs a node, writes the keys of
      the dict the node returns that the schema declares (nothing for
      [None]) and follows the edge. *)

From Stdlib Require Import String Ascii List Bool Arith ZArith QArith Qabs Qminmax Lia Lqa.
From Stdlib Require Import DecimalString.
Import ListNotations.
Local Open Scope string_scope.
Local Open Scope nat_scope.

(** ** Python string operations *)

Module PyStr.

Definition nat_of (c : ascii) : nat := nat_of_ascii c.

(** *** Characters

    A character is a lead byte followed by its continuation bytes, the
    bytes [10xxxxxx]. *)
Definition is_continuation (c : ascii) : bool :=
  let n := nat_of c in (128 <=? n) && (n <=? 191).

(** The string goes on inside a character. *)
Definition continues (s : string) : bool :=
  match s with
  | EmptyString => false
  | String d _ => is_continuation d
  end.

(** The characters of a string, each as its bytes. *)
Fixpoint chars (s : string) : list string :=
  match s with
  | EmptyString => []
  | String c r =>
      match chars r with
      | [] => [String c EmptyString]
      | ch :: rest =>
          if continues r then String c ch :: rest
          else String c EmptyString :: ch :: rest
      end
  end.

(** [''.join(characters)] *)
Definition of_chars (l : list string) : string := fold_right String.append EmptyString l.

(** [len(s)] *)
Definition len (s : string) : nat := length (chars s).

(** The payload of a lead byte or of a continuation byte: its [bits] low
    bits. *)
Definition low_bits (bits : N) (c : ascii) : N := (N_of_ascii c mod 2 ^ bits)%N.

(** [ord(ch)] for a well-formed character of one to four bytes. *)
Definition code_point (ch : string) : option N :=
  match ch with
  | String a EmptyString =>
      if (N_of_ascii a <? 128)%N then Some (N_of_ascii a) else None
  | String a (String b EmptyString) =>
      if ((192 <=? N_of_ascii a) && (N_of_ascii a <? 224))%N
      then Some (low_bits 5 a * 64 + low_bits 6 b)%N else None
  | String a (String b (String c EmptyString)) =>
      if ((224 <=? N_of_ascii a) && (N_of_ascii a <? 240))%N
      then Some (low_bits 4 a * 4096 + low_bits 6 b * 64 + low_bits 6 c)%N else None
  | String a (String b (String c (String d EmptyString))) =>
      if ((240 <=? N_of_ascii a) && (N_of_ascii a <? 248))%N
      then Some (low_bits 3 a * 262144 + low_bits 6 b * 4096
                 + low_bits 6 c * 64 + low_bits 6 d)%N
      else None
  | _ => None
  end.

(** The white space of [str.isspace] and [str.strip]: TAB..CR, FS..US, the
    space, U+0085, U+00A0, U+1680, U+2000..U+200A, U+2028, U+2029, U+202F,
    U+205F and U+3000. *)
Definition is_space_code (n : N) : bool :=
  (((9 <=? n) && (n <=? 13)) || ((28 <=? n) && (n <=? 32))
   || (n =? 133) || (n =? 160) || (n =? 5760)
   || ((8192 <=? n) && (n <=? 8202))
   || (n =? 8232) || (n =? 8233) || (n =? 8239) || (n =? 8287) || (n =? 12288))%N.

(** [ch.isspace()] for one character *)
Definition is_space (ch : string) : bool :=
  match code_point ch with
  | Some n => is_space_code n
  | None => false
  end.

(** *** Letter case: the ASCII letters *)

Definition is_upper (c : ascii) : bool :=
  let n := nat_of c in (65 <=? n) && (n <=? 90).

Definition is_lower (c : ascii) : bool :=
  let n := nat_of c in (97 <=? n) && (n <=? 122).

Definition lower_char (c : ascii) : ascii :=
  if is_upper c then ascii_of_nat (nat_of c + 32) else c.

Definition upper_char (c : ascii) : ascii :=
  if is_lower c then ascii_of_nat (nat_of c - 32) else c.

Fixpoint map_chars (f : ascii -> ascii) (s : string) : string :=
  match s with
  | EmptyString => EmptyString
  | String c r => String (f c) (map_chars f r)
  end.

(** [s.lower()] and [s.upper()] *)
Definition lower (s : string) : string := map_chars lower_char s.
Definition upper (s : string) : string := map_chars upper_char s.

(** [s.title()]: a cased character is upper-cased after an uncased one and
    lower-cased after a cased one. *)
Fixpoint title_from (prev_cased : bool) (s : string) : string :=
  match s with
  | EmptyString => EmptyString
  | String c r =>
      let cased := is_upper c || is_lower c in
      String (if cased then (if prev_cased then lower_char c else upper_char c) else c)
             (title_from cased r)
  end.
Definition title (s : string) : string := title_from false s.

(** [s.replace(a, b)] for single characters *)
Definition replace_char (a b : ascii) (s : string) : string :=
  map_chars (fun c => if Ascii.eqb c a then b else c) s.

(** [needle in hay] *)
Fixpoint contains (needle hay : string) : bool :=
  String.prefix needle hay ||
  match hay with
  | EmptyString => false
  | String _ r => contains needle r
  end.

(** The characters left once the leading white space is dropped. *)
Fixpoint drop_spaces (l : list string) : list string :=
  match l with
  | [] => []
  | ch :: rest => if is_space ch then drop_spaces rest else l
  end.

(** [s.lstrip()], [s.rstrip()] and [s.strip()] *)
Definition lstrip (s : string) : string := of_chars (drop_spaces (chars s)).

Definition rstrip (s : string) : string :=
  of_chars (rev (drop_spaces (rev (chars s)))).

Definition strip (s : string) : string :=
  of_chars (rev (drop_spaces (rev (drop_spaces (chars s))))).

(** Truth value of a string: non-empty. *)
Definition truthy (s : string) : bool :=
  match s with EmptyString => false | _ => true end.

(** [s.find(c)] for a single ASCII character: the byte offset of the first
    occurrence, -1 if none. *)
Fixpoint find (c : ascii) (s : string) : Z :=
  match s with
  | EmptyString => (-1)%Z
  | String d r =>
      if Ascii.eqb d c then 0%Z
      else let k := find c r in if (k <? 0)%Z then (-1)%Z else (k + 1)%Z
  end.

(** [s.rfind(c)]: the byte offset of the last occurrence, -1 if none. *)
Fixpoint rfind (c : ascii) (s : string) : Z :=
  match s with
  | EmptyString => (-1)%Z
  | String d r =>
      let k := rfind c r in
      if (0 <=? k)%Z then (k + 1)%Z
      else if Ascii.eqb d c then 0%Z else (-1)%Z
  end.

(** [s[i:j]] for non-negative byte offsets [i], [j] *)
Definition slice (i j : Z) (s : string) : string :=
  String.substring (Z.to_nat i) (Z.to_nat (j - i)) s.

(** [s[:n]]: the first [n] characters *)
Definition take (n : nat) (s : string) : string := of_chars (firstn n (chars s)).

(** [sep.join(parts)] *)
Definition join (sep : string) (parts : list string) : string :=
  String.concat sep parts.

(** [str(n)] for a non-negative integer and [f"{n}"] in general *)
Definition of_Z (z : Z) : string :=
  match z with
  | Zneg p => "-" ++ NilEmpty.string_of_uint (N.to_uint (Npos p))
  | _ => NilEmpty.string_of_uint (N.to_uint (Z.to_N z))
  end.

(** Nearest integer, ties to the even neighbour (the rounding of the
    fixed-point formats). *)
Definition round_half_even (q : Q) : Z :=
  let n := Qnum q in
  let d := Zpos (Qden q) in
  let fl := (n / d)%Z in
  let r2 := (2 * (n mod d))%Z in
  if (r2 <? d)%Z then fl
  else if (d <? r2)%Z then (fl + 1)%Z
  else if Z.even fl then fl else (fl + 1)%Z.

(** [f"{q:.1f}"] *)
Definition format_fixed1 (q : Q) : string :=
  let t := round_half_even (Qabs q * 10)%Q in
  (if Qlt_le_dec q 0%Q then "-" else "")
  ++ of_Z (t / 10) ++ "." ++ of_Z (t mod 10).

(** [f"{q:.1%}"]: the value times 100 in fixed format, then a percent sign. *)
Definition format_percent1 (q : Q) : string :=
  format_fixed1 (q * 100)%Q ++ "%".

End PyStr.

(** ** Exceptions and outcomes *)

Inductive ExnKind :=
| JSONDecodeError | ValueError | KeyError | AttributeError | RuntimeError | OtherError.

(** An instance of [Exception]: its class and [str(e)]. *)
Record Exn := mkExn { exn_kind : ExnKind; exn_msg : string }.

(** Streamlit's script-control signals derive from [BaseException], so no
    [except Exception] handler sees them. *)
Inductive Control := StStop | StRerun.

Inductive Outcome (A : Type) :=
| Ret (a : A)
| Raise (e : Exn)
| Halt (c : Control).
Arguments Ret {A} a.
Arguments Raise {A} e.
Arguments Halt {A} c.

(** ** The State record

    [ContentState] of [workflow.py], with the grouping its comments give. *)

Record Entity := mkEntity {
  ent_name : option string;
  ent_type : option string;
  ent_confidence : option Q }.

Record Article := mkArticle {
  art_title : string; art_description : string; art_url : string;
  art_publishedAt : string }.

Record FactCheck := mkFactCheck {
  fc_text : string; fc_claimant : string; fc_rating : option string;
  fc_url : string }.

(** Input *)
Record InputFields := mkInput {
  text : option string;
  source_url : option string;
  force_human_review : option bool;
  include_external_verification : option bool }.

(** Analysis Results *)
Record AnalysisFields := mkAnalysis {
  content_type : option string;
  language : option string;
  topics : option (list string);
  entities : option (list Entity);
  sentiment : option (list (string * Q));
  summary : option string;
  key_claims : option (list string);
  writing_style : option string }.

(** Verification *)
Record VerificationFields := mkVerification {
  fact_check_results : option (list FactCheck);
  similar_articles : option (list Article);
  verification_score : option Q }.

(** Risk Assessment.  [risk_reason] is the key [risk_assessment_node]
    returns next to the declared ones; it is a key of the node's dict only. *)
Record RiskFields := mkRisk {
  misinformation_flags : option (list string);
  risk_level : option string;
  confidence_score : option Q;
  risk_score : option Q;
  flags_detected : option Z;
  risk_reason : option string }.

(** Human Review *)
Record ReviewFields := mkReview {
  human_approval : option string;
  review_status : option string;
  reviewer_notes : option string }.

(** Final Output *)
Record OutputFields := mkOutput {
  recommendations : option (list string);
  final_report : option string;
  processing_complete : option bool;
  report_timestamp : option string;
  processing_time : option Q }.

Record ContentState := mkState {
  st_input : InputFields;
  st_analysis : AnalysisFields;
  st_verification : VerificationFields;
  st_risk : RiskFields;
  st_review : ReviewFields;
  st_output : OutputFields }.

Definition no_input := mkInput None None None None.
Definition no_analysis := mkAnalysis None None None None None None None None.
Definition no_verification := mkVerification None None None.
Definition no_risk := mkRisk None None None None None None.
Definition no_review := mkReview None None None.
Definition no_output := mkOutput None None None None None.

(** The dict with no key. *)
Definition empty_state : ContentState :=
  mkState no_input no_analysis no_verification no_risk no_review no_output.

(** The partial updates the stages return: a dict holding one group of keys. *)
Definition analysis_update (a : AnalysisFields) : ContentState :=
  mkState no_input a no_verification no_risk no_review no_output.
Definition verification_update (v : VerificationFields) : ContentState :=
  mkState no_input no_analysis v no_risk no_review no_output.
Definition risk_update (r : RiskFields) : ContentState :=
  mkState no_input no_analysis no_verification r no_review no_output.
Definition review_update (r : ReviewFields) : ContentState :=
  mkState no_input no_analysis no_verification no_risk r no_output.
Definition output_update (o : OutputFields) : ContentState :=
  mkState no_input no_analysis no_verification no_risk no_review o.

(** [d.get(key, default)] *)
Definition get {A : Type} (field : option A) (default : A) : A :=
  match field with Some v => v | None => default end.

(** One key of a merge: the update's value when it has the key. *)
Definition or_else {A : Type} (new old : option A) : option A :=
  match new with Some v => Some v | None => old end.

(** Merging a partial update into the running State: the keys of the update
    that [ContentState] declares overwrite, the others are preserved; the
    update's [risk_reason], which the schema does not declare, is not
    written. *)
Definition merge (u s : ContentState) : ContentState :=
  let ui := st_input u in let si := st_input s in
  let ua := st_analysis u in let sa := st_analysis s in
  let uv := st_verification u in let sv := st_verification s in
  let ur := st_risk u in let sr := st_risk s in
  let uh := st_review u in let sh := st_review s in
  let uo := st_output u in let so := st_output s in
  mkState
    (mkInput (or_else (text ui) (text si))
             (or_else (source_url ui) (source_url si))
             (or_else (force_human_review ui) (force_human_review si))
             (or_else (include_external_verification ui)
                      (include_external_verification si)))
    (mkAnalysis (or_else (content_type ua) (content_type sa))
                (or_else (language ua) (language sa))
                (or_else (topics ua) (topics sa))
                (or_else (entities ua) (entities sa))
                (or_else (sentiment ua) (sentiment sa))
                (or_else (summary ua) (summary sa))
                (or_else (key_claims ua) (key_claims sa))
                (or_else (writing_style ua) (writing_style sa)))
    (mkVerification (or_else (fact_check_results uv) (fact_check_results sv))
                    (or_else (similar_articles uv) (similar_articles sv))
                    (or_else (verification_score uv) (verification_score sv)))
    (mkRisk (or_else (misinformation_flags ur) (misinformation_flags sr))
            (or_else (risk_level ur) (risk_level sr))
            (or_else (confidence_score ur) (confidence_score sr))
            (or_else (risk_score ur) (risk_score sr))
            (or_else (flags_detected ur) (flags_detected sr))
            (risk_reason sr))
    (mkReview (or_else (human_approval uh) (human_approval sh))
              (or_else (review_status uh) (review_status sh))
              (or_else (reviewer_notes uh) (reviewer_notes sh)))
    (mkOutput (or_else (recommendations uo) (recommendations so))
              (or_else (final_report uo) (final_report so))
              (or_else (processing_complete uo) (processing_complete so))
              (or_else (report_timestamp uo) (report_timestamp so))
              (or_else (processing_time uo) (processing_time so))).

(** A stage that returns [None] leaves the State as it is. *)
Definition apply_update (u : option ContentState) (s : ContentState) : ContentState :=
  match u with Some u => merge u s | None => s end.

(** ** Collaborators and ambient state *)

(** The two prompts of [nodes.py], by the stage that builds them and the
    [state['text']] spliced in. *)
Inductive Prompt := AnalysisPrompt (txt : string) | RiskPrompt (txt : string).

(** [llm.invoke([message])]: a message with [.content], or an exception. *)
Inductive LlmReply := Content (s : string) | Failure (e : Exn).

(** [json.loads] read at the types the stage expects: a decode error, a JSON
    value that is not usable as the expected object (with the exception its
    first use raises), or the object, its values at the types of the
    State. *)
Inductive Decoded (A : Type) :=
| DecodeFailed (msg : string)
| DecodedOther (e : Exn)
| DecodedObject (a : A).
Arguments DecodeFailed {A} msg.
Arguments DecodedOther {A} e.
Arguments DecodedObject {A} a.

(** The object the risk prompt asks for; a missing key is [None]. *)
Record RiskJson := mkRiskJson {
  rj_risk_level : option string;
  rj_confidence : option Q;
  rj_reason : option string }.

(** The four buttons of the review prompt. *)
Inductive Button := BtnApprove | BtnReject | BtnEdit | BtnSkip.

Record World := mkWorld {
  llm_client : bool;                         (* get_llm_client() is not None *)
  llm_invoke : nat -> Prompt -> LlmReply;    (* the n-th call of llm.invoke *)
  uniform01 : nat -> Q;                      (* the n-th random.uniform(0, 1) *)
  json_analysis : string -> Decoded AnalysisFields;
  json_risk : string -> Decoded RiskJson;
  news_api : string -> list Article + Exn;   (* body of cached_news_search *)
  fact_check_api : string -> list FactCheck + Exn;
  clicked : option Button;                   (* the button pressed in this script run *)
  clock : Q;                                 (* time.time() *)
  clock_text : string }.                     (* time.strftime('%Y-%m-%d %H:%M:%S') *)

(** One entry of [st.session_state.error_log]. *)
Record ErrorData := mkErrorData {
  error_type : ExnKind;
  error_message : string;
  error_context : list (string * string) }.

(** The keys of [st.session_state] the core reads or writes.
    [user_preferences] is [None] when the attribute is missing and
    [Some None] when the dict has no ["analysis_speed"]. *)
Record Session := mkSession {
  review_decision : option string;
  reviewer_notes_key : option string;        (* session key "reviewer_notes" *)
  temp_reviewer_notes : option string;
  user_preferences : option (option string);
  session_id : option string;
  analysis_start_time : option Q;
  error_log : list ErrorData;
  performance_metrics : list string }.

Inductive Event :=
| EvInvoke (p : Prompt)          (* llm.invoke *)
| EvSleep (d : Q)                (* time.sleep *)
| EvWarning (msg : string)       (* st.warning *)
| EvError (msg : string)         (* st.error *)
| EvWrite (msg : string)         (* st.write *)
| EvNewsSearch (q : string)      (* cached_news_search *)
| EvFactCheck (q : string).      (* cached_fact_check *)

Record Machine := mkMachine {
  session : Session;
  llm_calls : nat;
  draws : nat;
  trace : list Event }.

(** ** The effect monad: state, exceptions and script control *)

Definition M (A : Type) : Type := Machine -> Outcome A * Machine.

Definition ret {A} (a : A) : M A := fun m => (Ret a, m).

Definition bind {A B} (c : M A) (k : A -> M B) : M B :=
  fun m =>
    match c m with
    | (Ret a, m') => k a m'
    | (Raise e, m') => (Raise e, m')
    | (Halt h, m') => (Halt h, m')
    end.

Notation "x <- c ;; k" := (bind c (fun x => k))
  (at level 61, c at next level, right associativity).
Notation "c ;;; k" := (bind c (fun _ => k))
  (at level 61, right associativity).

Definition raise {A} (e : Exn) : M A := fun m => (Raise e, m).
Definition halt {A} (c : Control) : M A := fun m => (Halt c, m).

(** [try: body  except Exception as e: handler e] *)
Definition try_except {A} (body : M A) (handler : Exn -> M A) : M A :=
  fun m =>
    match body m with
    | (Raise e, m') => handler e m'
    | r => r
    end.

Definition emit (ev : Event) : M unit :=
  fun m => (Ret tt, mkMachine (session m) (llm_calls m) (draws m) (trace m ++ [ev])%list).

Definition get_session : M Session := fun m => (Ret (session m), m).

Definition put_session (s : Session) : M unit :=
  fun m => (Ret tt, mkMachine s (llm_calls m) (draws m) (trace m)).

Definition sleep (d : Q) : M unit := emit (EvSleep d).

(** [l[-n:]] *)
Definition last_n {A} (n : nat) (l : list A) : list A := skipn (length l - n) l.

(** ** error_handler.py and debug_tools.py *)

(** [ErrorHandler.log_error]: append to the session's error log and keep the
    last ten entries. *)
Definition log_error (e : Exn) (context : list (string * string)) : M unit :=
  s <- get_session ;;
  let entry := mkErrorData (exn_kind e) (exn_msg e) context in
  let log := (error_log s ++ [entry])%list in
  let log := if 10 <? length log then last_n 10 log else log in
  put_session (mkSession (review_decision s) (reviewer_notes_key s)
                 (temp_reviewer_notes s) (user_preferences s) (session_id s)
                 (analysis_start_time s) log (performance_metrics s)).

(** [ErrorHandler.handle_api_error]: log, show the API error, raise. *)
Definition handle_api_error {A} (error : Exn) (api_name : string) : M A :=
  log_error error [("api", api_name)] ;;;
  emit (EvError ("❌ " ++ PyStr.title api_name ++ " API error: " ++ exn_msg error)) ;;;
  raise error.

(** [error_boundary]: an exception of the wrapped function is logged, shown
    and replaced by the result [None]. *)
Definition error_boundary {A} (func_name : string) (func : M A) : M (option A) :=
  try_except (r <- func ;; ret (Some r))
    (fun e =>
       log_error e [("function", func_name)] ;;;
       emit (EvError ("An error occurred in " ++ func_name ++ ": " ++ exn_msg e)) ;;;
       ret None).

(** [DebugTools.track_performance]: append the metric, keep the last twenty. *)
Definition track_performance (operation_name : string) : M unit :=
  s <- get_session ;;
  let metrics := (performance_metrics s ++ [operation_name])%list in
  let metrics := if 20 <? length metrics then last_n 20 metrics else metrics in
  put_session (mkSession (review_decision s) (reviewer_notes_key s)
                 (temp_reviewer_notes s) (user_preferences s) (session_id s)
                 (analysis_start_time s) (error_log s) metrics).

(** [performance_monitor(operation_name)]: record the operation, or
    [<operation>_ERROR] and re-raise. *)
Definition performance_monitor {A} (operation_name : string) (func : M A) : M A :=
  try_except (r <- func ;; track_performance operation_name ;;; ret r)
    (fun e => track_performance (operation_name ++ "_ERROR") ;;; raise e).

(** ** nodes.py: the LLM call *)

(** The failure signature of a rate limit:
    ["429" in str(e) or "rate" in str(e).lower()]. *)
Definition is_rate_limited (e : Exn) : bool :=
  PyStr.contains "429" (exn_msg e) || PyStr.contains "rate" (PyStr.lower (exn_msg e)).

(** [llm.invoke([message])]: the next reply of the collaborator. *)
Definition invoke (w : World) (message : Prompt) : M string :=
  fun m =>
    let m' := mkMachine (session m) (S (llm_calls m)) (draws m)
                        (trace m ++ [EvInvoke message])%list in
    match llm_invoke w (llm_calls m) message with
    | Content s => (Ret s, m')
    | Failure e => (Raise e, m')
    end.

(** [random.uniform(0, 1)] *)
Definition random_uniform (w : World) : M Q :=
  fun m => (Ret (uniform01 w (draws m)),
            mkMachine (session m) (llm_calls m) (S (draws m)) (trace m)).

(** [min((2 ** attempt) * 2 + jitter, 60)] *)
Definition backoff (attempt : nat) (jitter : Q) : Q :=
  Qmin (inject_Z (2 ^ Z.of_nat attempt * 2) + jitter) 60.

(** The [for attempt in range(max_retries)] loop of [call_llm_with_retry],
    with [remaining] iterations left.  An iteration yields [Some rsp] when
    the function returns and [None] when the loop goes on. *)
Fixpoint retry_loop (w : World) (message : Prompt) (max_retries attempt remaining : nat)
  : M string :=
  match remaining with
  | O => raise (mkExn RuntimeError "LLM failed after retries")
  | S remaining' =>
      r <- try_except
             (content <- invoke w message ;;
              let rsp := PyStr.strip content in
              if PyStr.truthy rsp then ret (Some rsp)
              else raise (mkExn ValueError "Empty LLM response"))
             (fun e =>
                if is_rate_limited e then
                  jitter <- random_uniform w ;;
                  let wait := backoff attempt jitter in
                  if attempt <? max_retries - 1 then
                    emit (EvWarning ("⚠️ Rate-limited – retrying in "
                                     ++ PyStr.format_fixed1 wait ++ "s…")) ;;;
                    sleep wait ;;; ret None
                  else raise e
                else
                  if attempt <? max_retries - 1 then sleep 1 ;;; ret None
                  else raise e) ;;
      match r with
      | Some rsp => ret rsp
      | None => retry_loop w message max_retries (S attempt) remaining'
      end
  end.

Definition call_llm_with_retry (w : World) (message : Prompt) (max_retries : nat)
  : M string :=
  retry_loop w message max_retries 0 max_retries.

(** [extract_json]: the substring between the first brace and the last one,
    the text itself unless both are found. *)
Definition extract_json (txt : string) : string :=
  let i := PyStr.find "{" txt in
  let j := PyStr.rfind "}" txt in
  if negb (i =? -1)%Z && (-1 <? j)%Z then PyStr.slice i (j + 1) txt else txt.

(** ** nodes.py: the stages *)

(** [state['text']]: a [KeyError] when the key is absent. *)
Definition state_text (state : ContentState) : M string :=
  match text (st_input state) with
  | Some t => ret t
  | None => raise (mkExn KeyError "'text'")
  end.

(** The minimal structure [content_analysis_node] returns when it recovers. *)
Definition analysis_defaults (summary_text : string) : ContentState :=
  analysis_update
    (mkAnalysis (Some "unknown") (Some "en") (Some []) (Some [])
                (Some [("neutral", 1%Q); ("confidence", 0.1%Q)])
                (Some summary_text) (Some []) (Some "unknown")).

(** The two [except] clauses of [content_analysis_node]; [raw] is the local
    variable, unbound until the LLM call has returned. *)
Definition content_analysis_handler (raw : option string) (e : Exn) : M ContentState :=
  match exn_kind e with
  | JSONDecodeError =>
      match raw with
      | Some raw =>
          log_error e [("component", "content_analysis");
                       ("raw_response", PyStr.take 200 raw)] ;;;
          ret (analysis_defaults "Analysis failed - JSON parse error")
      | None =>
          raise (mkExn OtherError
                   "cannot access local variable 'raw' where it is not associated with a value")
      end
  | _ =>
      if is_rate_limited e then
        emit (EvError "⚠️ Rate limit reached. Please wait before retrying.") ;;;
        ret (analysis_defaults "Analysis paused due to rate limiting")
      else raise e
  end.

Definition content_analysis_body (w : World) (state : ContentState) : M ContentState :=
  if negb (llm_client w) then
    handle_api_error (mkExn OtherError "LLM unavailable") "openrouter"
  else
    txt <- state_text state ;;
    let prompt := AnalysisPrompt txt in
    r <- try_except
           (raw <- call_llm_with_retry w prompt 4 ;; ret (inl raw))
           (fun e => u <- content_analysis_handler None e ;; ret (inr u)) ;;
    match r with
    | inr u => ret u
    | inl raw =>
        try_except
          (let cleaned := extract_json raw in
           match json_analysis w cleaned with
           | DecodeFailed msg => raise (mkExn JSONDecodeError msg)
           | DecodedOther e => sleep 0.3 ;;; raise e
           | DecodedObject data =>
               sleep 0.3 ;;;
               ret (analysis_update
                      (mkAnalysis
                         (Some (get (content_type data) "unknown"))
                         (Some (get (language data) "en"))
                         (Some (get (topics data) []))
                         (Some (get (entities data) []))
                         (Some (get (sentiment data)
                                    [("neutral", 1%Q); ("confidence", 0.5%Q)]))
                         (Some (get (summary data) ""))
                         (Some (get (key_claims data) []))
                         (Some (get (writing_style data) "unknown"))))
           end)
          (content_analysis_handler (Some raw))
    end.

(** The function registered for the stage: [@error_boundary] over
    [@performance_monitor("content_analysis")], whose inner function is
    named [wrapper]. *)
Definition content_analysis_node (w : World) (state : ContentState)
  : M (option ContentState) :=
  error_boundary "wrapper"
    (performance_monitor "content_analysis" (content_analysis_body w state)).

(** [cached_news_search] and [cached_fact_check] of [config.py]: the lookup,
    whose failure goes through [handle_api_error]. *)
Definition cached_news_search (w : World) (query : string) : M (list Article) :=
  emit (EvNewsSearch query) ;;;
  match news_api w query with
  | inl articles => ret articles
  | inr e => handle_api_error e "news"
  end.

Definition cached_fact_check (w : World) (query : string) : M (list FactCheck) :=
  emit (EvFactCheck query) ;;;
  match fact_check_api w query with
  | inl claims => ret claims
  | inr e => handle_api_error e "fact_check"
  end.

(** The query of [verification_node]: the first entity's name, else the first
    two topics, else the first 50 characters of the text.  The entities of
    the State are dicts, so the branch [str(entities[0])] for an entity of
    another type does not arise. *)
Definition search_query (state : ContentState) : string :=
  let ents := get (entities (st_analysis state)) [] in
  let tops := get (topics (st_analysis state)) [] in
  match ents with
  | e :: _ => get (ent_name e) ""
  | [] =>
      match tops with
      | _ :: _ => PyStr.join " " (firstn 2 tops)
      | [] => PyStr.take 50 (get (text (st_input state)) "")
      end
  end.

Definition rating_says (words : list string) (rating : string) : bool :=
  existsb (fun word => PyStr.contains word rating) words.

(** Lines 172-184: the score from the two result lists. *)
Definition compute_verification_score
  (similar : list Article) (checks : list FactCheck) : Q :=
  let score := 0.5%Q in
  let score := match similar with [] => score | _ :: _ => (score + 0.1)%Q end in
  let score :=
    match checks with
    | [] => score
    | _ :: _ =>
        let ratings := map (fun fc => PyStr.lower (get (fc_rating fc) "")) checks in
        if existsb (rating_says ["true"; "correct"]) ratings then (score + 0.2)%Q
        else if existsb (rating_says ["false"; "incorrect"]) ratings then (score - 0.3)%Q
        else score
    end in
  Qmax 0 (Qmin 1 score).

Definition neutral_verification : ContentState :=
  verification_update (mkVerification (Some []) (Some []) (Some 0.5%Q)).

Definition verification_body (w : World) (state : ContentState) : M ContentState :=
  let query := search_query state in
  if negb (PyStr.truthy (PyStr.strip query)) then
    emit (EvWarning "⚠️ No search terms found for verification") ;;;
    sleep 1 ;;;
    ret neutral_verification
  else
    try_except
      (similar <- cached_news_search w query ;;
       checks <- cached_fact_check w query ;;
       let score := compute_verification_score similar checks in
       sleep 0.5 ;;;
       ret (verification_update
              (mkVerification (Some (firstn 3 checks)) (Some (firstn 3 similar))
                              (Some score))))
      (fun e =>
         log_error e [("component", "verification")] ;;;
         ret neutral_verification).

Definition verification_node (w : World) (state : ContentState)
  : M (option ContentState) :=
  error_boundary "wrapper"
    (performance_monitor "verification" (verification_body w state)).

(** [data[key]]: a [KeyError] when the key is missing. *)
Definition require {A} (field : option A) (key : string) : M A :=
  match field with
  | Some v => ret v
  | None => raise (mkExn KeyError ("'" ++ key ++ "'"))
  end.

Definition risk_assessment_body (w : World) (state : ContentState) : M ContentState :=
  if negb (llm_client w) then
    handle_api_error (mkExn OtherError "LLM unavailable") "openrouter"
  else
    txt <- state_text state ;;
    let prompt := RiskPrompt txt in
    try_except
      (raw_json <- invoke w prompt ;;
       match json_risk w raw_json with
       | DecodeFailed msg => raise (mkExn JSONDecodeError msg)
       | DecodedOther e => raise e
       | DecodedObject data =>
           level <- require (rj_risk_level data) "risk_level" ;;
           sleep 0.3 ;;;
           confidence <- require (rj_confidence data) "confidence" ;;
           reason <- require (rj_reason data) "reason" ;;
           ret (risk_update
                  (mkRisk (Some []) (Some level) (Some confidence)
                          (Some (1 - confidence)%Q) (Some 0%Z) (Some reason)))
       end)
      (fun e => handle_api_error e "openrouter").

Definition risk_assessment_node (w : World) (state : ContentState)
  : M (option ContentState) :=
  error_boundary "wrapper"
    (performance_monitor "risk_assessment" (risk_assessment_body w state)).

(** [st.session_state.pop("review_decision")] *)
Definition pop_review_decision : M unit :=
  s <- get_session ;;
  put_session (mkSession None (reviewer_notes_key s) (temp_reviewer_notes s)
                 (user_preferences s) (session_id s) (analysis_start_time s)
                 (error_log s) (performance_metrics s)).

(** [st.session_state.review_decision = decision] *)
Definition set_review_decision (decision : string) : M unit :=
  s <- get_session ;;
  put_session (mkSession (Some decision) (reviewer_notes_key s) (temp_reviewer_notes s)
                 (user_preferences s) (session_id s) (analysis_start_time s)
                 (error_log s) (performance_metrics s)).

Definition human_review_body (w : World) (state : ContentState) : M ContentState :=
  s <- get_session ;;
  match review_decision s with
  | Some decision =>
      pop_review_decision ;;;
      let notes := get (reviewer_notes_key s) "" in
      ret (review_update (mkReview (Some decision) (Some "reviewed") (Some notes)))
  | None =>
      let risk := get (risk_level (st_risk state)) "low" in
      if String.eqb risk "low" then
        ret (review_update
               (mkReview (Some "auto_approved") (Some "no_review_needed") (Some "")))
      else
        emit (EvWarning ("Human Review Required - Risk: " ++ PyStr.upper risk)) ;;;
        emit (EvWrite ("**Summary:** " ++ get (summary (st_analysis state)) "N/A")) ;;;
        match clicked w with
        | Some BtnApprove => set_review_decision "approved" ;;; halt StRerun
        | Some BtnReject => set_review_decision "rejected" ;;; halt StRerun
        | Some BtnEdit => set_review_decision "needs_editing" ;;; halt StRerun
        | Some BtnSkip => set_review_decision "skipped" ;;; halt StRerun
        | None => halt StStop
        end
  end.

Definition human_review_node (w : World) (state : ContentState)
  : M (option ContentState) :=
  error_boundary "human_review_node" (human_review_body w state).

(** *** Report generation *)

(** Lines 293-312: the advisories of the risk level. *)
Definition risk_recommendations (risk : string) : list string :=
  if String.eqb risk "critical" then
    ["🚨 **URGENT**: Do not publish without thorough fact-checking";
     "🔍 **VERIFY**: All claims with primary sources";
     "⚠️ **LABEL**: Consider adding content warning if published";
     "📊 **MONITOR**: Track engagement and feedback closely"]
  else if String.eqb risk "high" then
    ["⚠️ **CAUTION**: Additional fact-checking strongly recommended";
     "📋 **REVIEW**: Have second opinion before publication";
     "📊 **TRACK**: Monitor audience response if published"]
  else if String.eqb risk "medium" then
    ["📋 **STANDARD**: Follow normal editorial review process";
     "✅ **MONITOR**: Regular content performance tracking"]
  else
    ["✅ **CLEAR**: Content appears safe for standard publication"].

(** Lines 314-319: [recommendations.insert(0, ...)] for three decisions. *)
Definition insert_review_recommendation (approval_status : string)
  (recs : list string) : list string :=
  if String.eqb approval_status "rejected" then
    "❌ **DO NOT PUBLISH**: Human reviewer has rejected this content" :: recs
  else if String.eqb approval_status "needs_editing" then
    "📝 **EDIT REQUIRED**: Content flagged for revision before publication" :: recs
  else if String.eqb approval_status "approved" then
    "✅ **HUMAN APPROVED**: Content has been reviewed and approved" :: recs
  else recs.

(** Lines 321-327: the advisory of the content type, appended last. *)
Definition append_content_recommendation (ctype : string)
  (recs : list string) : list string :=
  if String.eqb ctype "news" then
    (recs ++ ["📰 **NEWS**: Verify publication date and source credibility"])%list
  else if String.eqb ctype "research" then
    (recs ++ ["🔬 **RESEARCH**: Check for peer review and methodology"])%list
  else if String.eqb ctype "social_media" then
    (recs ++ ["📱 **SOCIAL**: Higher scrutiny for viral potential"])%list
  else recs.

Definition build_recommendations (state : ContentState) : list string :=
  let risk := get (risk_level (st_risk state)) "unknown" in
  let approval_status := get (human_approval (st_review state)) "auto_approved" in
  let ctype := get (content_type (st_analysis state)) "unknown" in
  append_content_recommendation ctype
    (insert_review_recommendation approval_status (risk_recommendations risk)).

Definition newline : string := String (ascii_of_nat 10) EmptyString.

(** [a or b] on strings *)
Definition str_or (a b : string) : string := if PyStr.truthy a then a else b.

(** [int(x)]: truncation towards zero. *)
Definition int_of (q : Q) : Z := Z.quot (Qnum q) (Zpos (Qden q)).

Definition risk_badge (risk : string) : string :=
  if String.eqb risk "critical" then "🔴"
  else if String.eqb risk "high" then "🟡"
  else if String.eqb risk "low" then "🟢"
  else "🟠".

(** List concatenation, next to the [++] of strings. *)
Local Infix "+++" := List.app (at level 60, right associativity).

(** Line 341 of the report. *)
Definition verification_score_line (state : ContentState) : string :=
  "- **Verification Score:** "
  ++ PyStr.format_percent1 (get (verification_score (st_verification state)) 0%Q).

(** Lines 329-391: [report_sections]. *)
Definition report_sections (w : World) (sess : Session) (state : ContentState)
  : list string :=
  let risk := get (risk_level (st_risk state)) "unknown" in
  let approval_status := get (human_approval (st_review state)) "auto_approved" in
  let confidence := get (confidence_score (st_risk state)) 0%Q in
  let ctype := get (content_type (st_analysis state)) "unknown" in
  let entities_list :=
    firstn 5 (map (fun e => get (ent_name e) "")
                  (get (entities (st_analysis state)) [])) in
  let topics_list := firstn 3 (get (topics (st_analysis state)) []) in
  let flags_list := get (misinformation_flags (st_risk state)) [] in
  let similar := get (similar_articles (st_verification state)) [] in
  let fact_checks := get (fact_check_results (st_verification state)) [] in
  ["## 📊 **Content Analysis Report**";
    "**Generated:** " ++ clock_text w;
    "**Analysis ID:** " ++ get (session_id sess) "N/A" ++ "-"
      ++ PyStr.of_Z (int_of (clock w));
    "";
    "### 🎯 **Risk Assessment**";
    "- **Risk Level:** " ++ PyStr.upper risk ++ " (" ++ risk_badge risk ++ ")";
    "- **Confidence Score:** " ++ PyStr.format_percent1 confidence;
    verification_score_line state;
    "- **Flags Detected:** " ++ PyStr.of_Z (Z.of_nat (length flags_list));
    "";
    "### 📝 **Content Overview**";
    "- **Type:** " ++ PyStr.title ctype;
    "- **Language:** " ++ get (language (st_analysis state)) "Unknown";
    "- **Writing Style:** "
      ++ PyStr.title (get (writing_style (st_analysis state)) "Unknown");
    "- **Summary:** " ++ get (summary (st_analysis state)) "No summary available";
    ""]
   +++ match entities_list with
      | [] => []
      | _ :: _ => ["### 🎯 **Key Entities**";
                   "- " ++ PyStr.join ", " entities_list; ""]
      end
   +++ match topics_list with
      | [] => []
      | _ :: _ => ["### 🏷️ **Topics**"; "- " ++ PyStr.join ", " topics_list; ""]
      end
   +++ match flags_list with
      | [] => []
      | _ :: _ =>
          ["### ⚠️ **Risk Flags**"]
          +++ map (fun flag => "- " ++ PyStr.title (PyStr.replace_char "_" " " flag))
                 flags_list
          +++ [""]
      end
   +++ match similar, fact_checks with
      | [], [] => []
      | _, _ =>
          ["### 🔍 **External Verification**";
           "- **Related Articles Found:** " ++ PyStr.of_Z (Z.of_nat (length similar));
           "- **Fact-Check Results:** " ++ PyStr.of_Z (Z.of_nat (length fact_checks));
           ""]
      end
   +++ if negb (String.eqb approval_status "auto_approved") then
        let notes := str_or (get (reviewer_notes (st_review state)) "")
                            (get (temp_reviewer_notes sess) "") in
        ["### 👤 **Human Review**";
         "- **Status:** " ++ PyStr.title (PyStr.replace_char "_" " " approval_status);
         "- **Reviewer Notes:** " ++ str_or notes "No additional notes";
         ""]
      else [].

Definition report_generation_body (w : World) (state : ContentState) : M ContentState :=
  sess <- get_session ;;
  let recs := build_recommendations state in
  let report := PyStr.join newline (report_sections w sess state) in
  sleep 0.5 ;;;
  ret (output_update
         (mkOutput (Some recs) (Some report) (Some true) (Some (clock_text w))
                   (Some (clock w - get (analysis_start_time sess) (clock w))%Q))).

Definition report_generation_node (w : World) (state : ContentState)
  : M (option ContentState) :=
  error_boundary "wrapper"
    (performance_monitor "report_generation" (report_generation_body w state)).

(** ** workflow.py: routing predicates and the graph *)

Definition analysis_speed (sess : Session) : string :=
  match user_preferences sess with
  | Some (Some speed) => speed
  | _ => "balanced"
  end.

Definition route_by_risk_level (sess : Session) (state : ContentState) : string :=
  let risk := get (risk_level (st_risk state)) "low" in
  let force_review := get (force_human_review (st_input state)) false in
  if existsb (String.eqb risk) ["critical"; "high"] || force_review then "human_review"
  else if String.eqb risk "medium" && String.eqb (analysis_speed sess) "thorough"
  then "human_review"
  else "generate_report".

Definition high_risk_keywords : list string :=
  ["breaking"; "exclusive"; "leaked"; "secret"; "shocking"].

Definition should_include_verification (state : ContentState) : string :=
  if negb (get (include_external_verification (st_input state)) true) then
    "risk_assessment"
  else
    let text_lower := PyStr.lower (get (text (st_input state)) "") in
    if existsb (fun keyword => PyStr.contains keyword text_lower) high_risk_keywords
    then "verification"
    else match get (entities (st_analysis state)) [] with
         | _ :: _ => "verification"
         | [] => "risk_assessment"
         end.

(** The nodes [create_workflow] registers. *)
Inductive Stage :=
| ContentAnalysis | Verification | RiskAssessment | HumanReview | GenerateReport.

Definition node (w : World) (stage : Stage) : ContentState -> M (option ContentState) :=
  match stage with
  | ContentAnalysis => content_analysis_node w
  | Verification => verification_node w
  | RiskAssessment => risk_assessment_node w
  | HumanReview => human_review_node w
  | GenerateReport => report_generation_node w
  end.

(** The target of a conditional edge: the entry of the edge's dict under the
    name the predicate returned. *)
Fixpoint edge_target (name : string) (table : list (string * Stage)) : M Stage :=
  match table with
  | [] => raise (mkExn KeyError ("'" ++ name ++ "'"))
  | (key, stage) :: rest =>
      if String.eqb name key then ret stage else edge_target name rest
  end.

(** The edges of the graph; [None] is [END]. *)
Definition next_stage (stage : Stage) (state : ContentState) : M (option Stage) :=
  match stage with
  | ContentAnalysis =>
      target <- edge_target (should_include_verification state)
                  [("verification", Verification);
                   ("risk_assessment", RiskAssessment)] ;;
      ret (Some target)
  | Verification => ret (Some RiskAssessment)
  | RiskAssessment =>
      sess <- get_session ;;
      target <- edge_target (route_by_risk_level sess state)
                  [("human_review", HumanReview);
                   ("generate_report", GenerateReport)] ;;
      ret (Some target)
  | HumanReview => ret (Some GenerateReport)
  | GenerateReport => ret None
  end.

(** The graph engine: run the node, merge its update, follow the edge; at
    most [limit] nodes (the engine's recursion limit). *)
Fixpoint execute (w : World) (limit : nat) (stage : Stage) (state : ContentState)
  : M ContentState :=
  match limit with
  | O => raise (mkExn RuntimeError "Recursion limit reached")
  | S limit' =>
      update <- node w stage state ;;
      let state' := apply_update update state in
      target <- next_stage stage state' ;;
      match target with
      | None => ret state'
      | Some stage' => execute w limit' stage' state'
      end
  end.

Definition recursion_limit : nat := 25.

(** [workflow_app.invoke(initial_state)] *)
Definition run (w : World) (initial : ContentState) : M ContentState :=
  execute w recursion_limit ContentAnalysis initial.

(** The rest of a run once [stage] has returned and its update is merged. *)
Definition continue_after (w : World) (limit : nat) (stage : Stage)
  (state' : ContentState) : M ContentState :=
  target <- next_stage stage state' ;;
  match target with
  | None => ret state'
  | Some stage' => execute w limit stage' state'
  end.

(** One stage of a run: the node, then the merge of its update. *)
Definition run_stage (w : World) (stage : Stage) (state : ContentState)
  : M ContentState :=
  update <- node w stage state ;;
  ret (apply_update update state).

(** The run up to the routing decision that follows risk assessment:
    content analysis, verification when routed to, risk assessment. *)
Definition upstream (w : World) (initial : ContentState) : M ContentState :=
  analysed <- run_stage w ContentAnalysis initial ;;
  target <- next_stage ContentAnalysis analysed ;;
  verified <- match target with
              | Some Verification => run_stage w Verification analysed
              | _ => ret analysed
              end ;;
  run_stage w RiskAssessment verified.

(** ** Sample environments

    Concrete sessions, worlds and States on which the properties below are
    exercised. *)

(** The session [SessionManager.init_session] sets up, with the given
    [analysis_speed] preference. *)
Definition session_with_speed (speed : string) : Session :=
  mkSession None None None (Some (Some speed)) (Some "abcd1234") (Some 100%Q) [] [].

Definition fresh_session : Session := session_with_speed "balanced".

Definition fresh_machine : Machine := mkMachine fresh_session 0 0 [].

(** The State [perform_content_analysis] of [app.py] starts a run with. *)
Definition initial_state (txt : string) (force include : bool) : ContentState :=
  mkState (mkInput (Some txt) (Some "") (Some force) (Some include))
          no_analysis no_verification no_risk no_review no_output.

(** A State holding a risk level and a recorded approval only. *)
Definition assessed_state (risk : string) (approval : option string) : ContentState :=
  mkState no_input no_analysis no_verification
          (mkRisk None (Some risk) None None None None)
          (mkReview approval None None) no_output.

(** A world whose LLM answers every prompt, whose analysis decodes to an
    empty object and whose risk reply decodes to the given level. *)
Definition calm_world (risk : string) : World :=
  mkWorld true
    (fun _ p => match p with
                | AnalysisPrompt _ => Content "{}"
                | RiskPrompt _ => Content "{risk}"
                end)
    (fun _ => 0.5%Q)
    (fun _ => DecodedObject no_analysis)
    (fun _ => DecodedObject (mkRiskJson (Some risk) (Some 0.9%Q) (Some "n/a")))
    (fun _ => inl []) (fun _ => inl [])
    None 160%Q "2026-01-01 00:00:00".

(** A world whose LLM fails every call with the given exception. *)
Definition failing_world (e : Exn) : World :=
  mkWorld true (fun _ _ => Failure e) (fun _ => 0.5%Q)
    (fun _ => DecodedObject no_analysis)
    (fun _ => DecodeFailed "Expecting value")
    (fun _ => inl []) (fun _ => inl [])
    None 160%Q "2026-01-01 00:00:00".

(** A world whose LLM gives the listed replies in turn and fails with a
    refused connection afterwards. *)
Definition scripted_world (replies : list LlmReply) : World :=
  mkWorld true
    (fun n _ => nth n replies (Failure (mkExn OtherError "connection refused")))
    (fun _ => 0.5%Q)
    (fun _ => DecodedObject no_analysis)
    (fun _ => DecodeFailed "Expecting value")
    (fun _ => inl []) (fun _ => inl [])
    None 160%Q "2026-01-01 00:00:00".

(** A rate limit, an empty response, a reset connection and a timeout. *)
Definition mixed_replies : list LlmReply :=
  [Failure (mkExn OtherError "Error code: 429");
   Content "   ";
   Failure (mkExn OtherError "connection reset");
   Failure (mkExn OtherError "timed out")].

(** A world whose LLM answers prose that does not decode. *)
Definition garbled_world : World :=
  mkWorld true (fun _ _ => Content "I cannot answer that.") (fun _ => 0.5%Q)
    (fun _ => DecodeFailed "Expecting value: line 1 column 1 (char 0)")
    (fun _ => DecodeFailed "Expecting value: line 1 column 1 (char 0)")
    (fun _ => inl []) (fun _ => inl [])
    None 160%Q "2026-01-01 00:00:00".

Definition sample_article : Article :=
  mkArticle "Town hall opens" "The new town hall opened." "https://example.org/a"
            "2026-01-01T00:00:00Z".

Definition rated (rating : string) : FactCheck :=
  mkFactCheck "claim" "someone" (Some rating) "https://example.org/f".

(** A world whose lookups find the given articles and fact checks. *)
Definition lookup_world (articles : list Article) (checks : list FactCheck) : World :=
  mkWorld true (fun _ _ => Content "{}") (fun _ => 0.5%Q)
    (fun _ => DecodedObject no_analysis)
    (fun _ => DecodedObject (mkRiskJson (Some "low") (Some 0.9%Q) (Some "n/a")))
    (fun _ => inl articles) (fun _ => inl checks)
    None 160%Q "2026-01-01 00:00:00".

(** A neutral sentence of 50 characters. *)
Definition neutral_sentence : string :=
  "The town library opens at nine on weekday mornings".

(** A sentence of 50 characters, three of them outside ASCII. *)
Definition accented_sentence : string :=
  "Un café crème est servi à neuf heures chaque matin".

(** The no-break space U+00A0. *)
Definition no_break_space : string :=
  String (ascii_of_nat 194) (String (ascii_of_nat 160) EmptyString).

(** ** Vocabulary of the statements *)

Definition count_invokes (tr : list Event) : nat :=
  length (filter (fun ev => match ev with EvInvoke _ => true | _ => false end) tr).

Definition sleeps (tr : list Event) : list Q :=
  flat_map (fun ev => match ev with EvSleep d => [d] | _ => [] end) tr.

Arguments count_invokes : simpl never.
Arguments sleeps : simpl never.

Definition is_lookup (ev : Event) : bool :=
  match ev with EvNewsSearch _ | EvFactCheck _ => true | _ => false end.

(** What one attempt of [call_llm_with_retry] makes of the reply it gets:
    the stripped response, or the failure its [except] clause handles, which
    is the exception of the call or the [ValueError] of an empty response. *)
Definition attempt_outcome (reply : LlmReply) : string + Exn :=
  match reply with
  | Content content =>
      if PyStr.truthy (PyStr.strip content) then inl (PyStr.strip content)
      else inr (mkExn ValueError "Empty LLM response")
  | Failure e => inr e
  end.

(** The pause that follows a failed attempt, in the words of the retry
    contract: for a failure with the rate-limit signature the doubled base
    [2 * 2 ^ attempt] seconds plus a jitter of at most one second, and never
    more than 60 seconds; one second for any other failure. *)
Definition pause_fits (attempt : nat) (f : Exn) (d : Q) : Prop :=
  if is_rate_limited f
  then exists jitter,
         (0 <= jitter <= 1)%Q /\
         d = Qmin (inject_Z (2 * 2 ^ Z.of_nat attempt) + jitter) 60 /\
         (inject_Z (2 * 2 ^ Z.of_nat attempt) <= d
          /\ d <= inject_Z (2 * 2 ^ Z.of_nat attempt) + 1 /\ d <= 60)%Q
  else d = 1%Q.

(** Some fact-check rating, lower-cased, contains one of the words. *)
Definition some_rating_says (words : list string) (checks : list FactCheck) : bool :=
  existsb (fun fc => rating_says words (PyStr.lower (get (fc_rating fc) ""))) checks.

(** The reading of the score under which only the first matching adjustment
    applies: the article bonus, else the fact-check bonus, else the penalty. *)
Definition first_match_score (similar : list Article) (checks : list FactCheck) : Q :=
  let score :=
    match similar with
    | _ :: _ => (0.5 + 0.1)%Q
    | [] =>
        if some_rating_says ["true"; "correct"] checks then (0.5 + 0.2)%Q
        else if some_rating_says ["false"; "incorrect"] checks then (0.5 - 0.3)%Q
        else 0.5%Q
    end in
  Qmax 0 (Qmin 1 score).

(** The session after [track_performance]. *)
Definition tracked (operation_name : string) (s : Session) : Session :=
  let metrics := (performance_metrics s ++ [operation_name])%list in
  mkSession (review_decision s) (reviewer_notes_key s) (temp_reviewer_notes s)
    (user_preferences s) (session_id s) (analysis_start_time s) (error_log s)
    (if 20 <? length metrics then last_n 20 metrics else metrics).

(** The session after [log_error]. *)
Definition logged (e : Exn) (context : list (string * string)) (s : Session) : Session :=
  let log := (error_log s ++ [mkErrorData (exn_kind e) (exn_msg e) context])%list in
  mkSession (review_decision s) (reviewer_notes_key s) (temp_reviewer_notes s)
    (user_preferences s) (session_id s) (analysis_start_time s)
    (if 10 <? length log then last_n 10 log else log) (performance_metrics s).

(** Scenario B: a 50-character text, no entity and no topic. *)
Definition scenario_b_state : ContentState :=
  mkState (mkInput (Some neutral_sentence) (Some "") (Some false) (Some true))
          (mkAnalysis None None (Some []) (Some []) None None None None)
          no_verification no_risk no_review no_output.

(** [yields R c]: whatever the machine, [c] never halts the script, and a
    value it returns satisfies [R]. *)
Definition yields {A} (R : A -> Prop) (c : M A) : Prop :=
  forall m, match fst (c m) with
            | Ret a => R a
            | Raise _ => True
            | Halt _ => False
            end.

(** An update that writes neither the input keys nor the review keys. *)
Definition keeps_input_and_review (u : ContentState) : Prop :=
  st_input u = no_input /\ st_review u = no_review.

(** ** Further code of the same files *)

(** [route_by_content_complexity] of [workflow.py], the predicate the graph
    does not register. *)
Definition route_by_content_complexity (state : ContentState) : string :=
  if get (force_human_review (st_input state)) false then "verification"
  else
    let text_length := PyStr.len (get (text (st_input state)) "") in
    let ctype := get (content_type (st_analysis state)) "unknown" in
    if (1000 <? text_length) || String.eqb ctype "research" then "verification"
    else if String.eqb ctype "social_media" then "verification"
    else "verification".

(** ** Further vocabulary *)

(** The decision each review button records. *)
Definition decision_of (b : Button) : string :=
  match b with
  | BtnApprove => "approved"
  | BtnReject => "rejected"
  | BtnEdit => "needs_editing"
  | BtnSkip => "skipped"
  end.

(** The session after [pop("review_decision")] and after a button has
    recorded its decision. *)
Definition popped (s : Session) : Session :=
  mkSession None (reviewer_notes_key s) (temp_reviewer_notes s) (user_preferences s)
    (session_id s) (analysis_start_time s) (error_log s) (performance_metrics s).

Definition decided (decision : string) (s : Session) : Session :=
  mkSession (Some decision) (reviewer_notes_key s) (temp_reviewer_notes s)
    (user_preferences s) (session_id s) (analysis_start_time s) (error_log s)
    (performance_metrics s).

(** [confined P k c]: whatever the machine, [c] only appends to the trace,
    every event it appends satisfies [P], and at most [k] of them are calls
    of the LLM. *)
Definition confined {A} (P : Event -> Prop) (k : nat) (c : M A) : Prop :=
  forall m, exists evs,
    trace (snd (c m)) = (trace m ++ evs)%list /\ Forall P evs /\ count_invokes evs <= k.

Definition not_lookup (ev : Event) : Prop := is_lookup ev = false.

(** The eight classification keys are all present. *)
Definition analysis_complete (a : AnalysisFields) : Prop :=
  content_type a <> None /\ language a <> None /\ topics a <> None /\
  entities a <> None /\ sentiment a <> None /\ summary a <> None /\
  key_claims a <> None /\ writing_style a <> None.

(** A machine whose session holds a recorded review decision and the notes
    typed next to it. *)
Definition machine_with_decision (decision notes : string) : Machine :=
  mkMachine (mkSession (Some decision) (Some notes) None (Some (Some "balanced"))
               (Some "abcd1234") (Some 100%Q) [] []) 0 0 [].

(** ** config.py: the HTTP client of the lookups *)

Module Http.

(** [Config.MAX_RETRIES] and [Config.REQUEST_TIMEOUT] *)
Definition MAX_RETRIES : nat := 3.
Definition REQUEST_TIMEOUT : Z := 30.

(** What the client reads of a response: the status code, the
    [Retry-After] header as [int()] reads it ([None] when absent, the
    exception of [int()] when it rejects the text), the exception
    [raise_for_status] would build and the body. *)
Record Response := mkResponse {
  status_code : Z;
  retry_after : option (Z + Exn);
  status_error : Exn;
  body : string }.

(** [self.session.request(...)]: a response, a [Timeout] or another
    exception. *)
Inductive Reply :=
| Answer (r : Response)
| Timeout
| Failed (e : Exn).

(** How one iteration of the loop ends. *)
Inductive Step :=
| Return (r : Response)
| Continue (slept : list Z) (last_exception : option Exn).

(** [time.sleep(d)]: an exception for a negative length. *)
Definition checked_sleep (d : Z) : list Z + Exn :=
  if (d <? 0)%Z then inr (mkExn ValueError "sleep length must be non-negative")
  else inl [d].

(** The [except Exception as e] clause. *)
Definition on_exception (attempt : nat) (e : Exn) : Step :=
  if attempt <? MAX_RETRIES - 1
  then Continue [Z.min (2 ^ Z.of_nat attempt) 10] (Some e)
  else Continue [] (Some e).

(** The [except requests.exceptions.Timeout] clause. *)
Definition on_timeout (attempt : nat) : Step :=
  let e := mkExn OtherError
             ("Request timed out after " ++ PyStr.of_Z REQUEST_TIMEOUT ++ "s") in
  if attempt <? MAX_RETRIES - 1
  then Continue [(2 ^ Z.of_nat attempt)%Z] (Some e)
  else Continue [] (Some e).

(** The body of the loop for one reply. *)
Definition iteration (attempt : nat) (last_exception : option Exn) (reply : Reply)
  : Step :=
  match reply with
  | Answer r =>
      if (status_code r =? 429)%Z then
        match get (retry_after r) (inl (2 ^ Z.of_nat attempt)%Z) with
        | inr e => on_exception attempt e
        | inl seconds =>
            match checked_sleep (Z.min seconds 30) with
            | inl slept => Continue slept last_exception
            | inr e => on_exception attempt e
            end
        end
      else if (400 <=? status_code r)%Z && (status_code r <? 600)%Z then
        on_exception attempt (status_error r)
      else Return r
  | Timeout => on_timeout attempt
  | Failed e => on_exception attempt e
  end.

(** The outcome of [_make_request_with_retry], with the pauses it made and
    the number of requests it sent. *)
Record Run := mkRun {
  outcome : Response + Exn;
  pauses : list Z;
  requests : nat }.

(** The [for attempt in range(config.MAX_RETRIES)] loop, with [remaining]
    iterations left, and the final [raise]. *)
Fixpoint request_loop (request : nat -> Reply) (attempt remaining : nat)
  (last_exception : option Exn) : Run :=
  match remaining with
  | O =>
      mkRun (inr (match last_exception with
                  | Some e => e
                  | None => mkExn OtherError "Request failed after retries"
                  end)) [] 0
  | S remaining' =>
      match iteration attempt last_exception (request attempt) with
      | Return r => mkRun (inl r) [] 1
      | Continue slept last =>
          let rest := request_loop request (S attempt) remaining' last in
          mkRun (outcome rest) (slept ++ pauses rest)%list (S (requests rest))
      end
  end.

(** [APIClient._make_request_with_retry]; [request n] is the reply to the
    n-th request. *)
Definition make_request_with_retry (request : nat -> Reply) : Run :=
  request_loop request 0 MAX_RETRIES None.


End Http.

(** * Properties *)

(** ** Routing predicates *)

Lemma edge_target_after_analysis state m :
  next_stage ContentAnalysis state m =
    (Ret (Some (if String.eqb (should_include_verification state) "verification"
                then Verification else RiskAssessment)), m).
Proof.
  unfold next_stage, should_include_verification.
  destruct (negb _); [reflexivity|].
  destruct (existsb _ _); [reflexivity|].
  destruct (get _ _); reflexivity.
Qed.

Lemma route_by_risk_level_cases sess state :
  route_by_risk_level sess state = "human_review" \/
  route_by_risk_level sess state = "generate_report".
Proof.
  unfold route_by_risk_level.
  destruct (_ || _); [now left|].
  destruct (_ && _); [now left | now right].
Qed.

Lemma edge_target_after_risk state m :
  next_stage RiskAssessment state m =
    (Ret (Some (if String.eqb (route_by_risk_level (session m) state) "human_review"
                then HumanReview else GenerateReport)), m).
Proof.
  unfold next_stage, bind, get_session.
  destruct (route_by_risk_level_cases (session m) state) as [E|E]; rewrite E; reflexivity.
Qed.

(** C10, as stated, fails: on one State of medium risk the answer of
    [route_by_risk_level] follows the session's [analysis_speed]. *)
Lemma route_by_risk_level_reads_session :
  route_by_risk_level (session_with_speed "thorough") (assessed_state "medium" None)
    = "human_review" /\
  route_by_risk_level (session_with_speed "balanced") (assessed_state "medium" None)
    = "generate_report" /\
  ~ (forall s1 s2 state, route_by_risk_level s1 state = route_by_risk_level s2 state).
Proof.
  split; [reflexivity|]. split; [reflexivity|].
  intro H.
  specialize (H (session_with_speed "thorough") (session_with_speed "balanced")
                (assessed_state "medium" None)).
  discriminate H.
Qed.

(** C10 (amended): evaluating either predicate leaves the session and the
    trace untouched; [should_include_verification] answers from the State
    alone; [route_by_risk_level] answers from the State and the session's
    [analysis_speed], and from the State alone when the risk level is not
    medium or the review is forced. *)
Theorem routing_predicates_deterministic state m1 m2 :
  analysis_speed (session m1) = analysis_speed (session m2)
  \/ get (risk_level (st_risk state)) "low" <> "medium"
  \/ get (force_human_review (st_input state)) false = true ->
  fst (next_stage ContentAnalysis state m1) = fst (next_stage ContentAnalysis state m2)
  /\ snd (next_stage ContentAnalysis state m1) = m1
  /\ fst (next_stage RiskAssessment state m1) = fst (next_stage RiskAssessment state m2)
  /\ snd (next_stage RiskAssessment state m1) = m1
  /\ route_by_risk_level (session m1) state = route_by_risk_level (session m2) state.
Proof.
  intros H.
  assert (R : route_by_risk_level (session m1) state
              = route_by_risk_level (session m2) state).
  { unfold route_by_risk_level.
    destruct H as [H | [H | H]].
    - now rewrite H.
    - destruct (String.eqb_spec (get (risk_level (st_risk state)) "low") "medium")
        as [E|_]; [contradiction|].
      now rewrite !andb_false_l.
    - now rewrite H, !orb_true_r. }
  rewrite !edge_target_after_analysis, !edge_target_after_risk, R.
  repeat split; reflexivity.
Qed.

Lemma routing_predicates_deterministic_witness :
  fst (next_stage RiskAssessment (assessed_state "high" None)
         (mkMachine (session_with_speed "thorough") 0 0 []))
  = fst (next_stage RiskAssessment (assessed_state "high" None)
           (mkMachine (session_with_speed "balanced") 3 1 [EvSleep 1])).
Proof.
  apply (routing_predicates_deterministic (assessed_state "high" None)
           (mkMachine (session_with_speed "thorough") 0 0 [])
           (mkMachine (session_with_speed "balanced") 3 1 [EvSleep 1])).
  right; left. vm_compute. discriminate.
Defined.

(** ** Report generation *)

(** Report generation always returns its update: it has no failing step. *)
Lemma report_generation_node_returns w state m :
  report_generation_node w state m =
    (Ret (Some (output_update
                  (mkOutput (Some (build_recommendations state))
                            (Some (PyStr.join newline
                                     (report_sections w (session m) state)))
                            (Some true) (Some (clock_text w))
                            (Some (clock w
                                   - get (analysis_start_time (session m)) (clock w))%Q)))),
     mkMachine (tracked "report_generation" (session m)) (llm_calls m) (draws m)
               (trace m ++ [EvSleep 0.5])%list).
Proof. reflexivity. Qed.

Lemma append_content_recommendation_app ctype recs :
  exists rest, append_content_recommendation ctype recs = (recs ++ rest)%list.
Proof.
  unfold append_content_recommendation.
  repeat match goal with |- context [if ?b then _ else _] => destruct b end;
    try (eexists; reflexivity).
  exists []. now rewrite app_nil_r.
Qed.

(** Any approval status outside the three handled ones leaves the
    risk-level advisories at the head of the list. *)
Lemma unhandled_status_inserts_nothing state :
  ~ In (get (human_approval (st_review state)) "auto_approved")
       ["rejected"; "needs_editing"; "approved"] ->
  exists rest,
    build_recommendations state =
      (risk_recommendations (get (risk_level (st_risk state)) "unknown") ++ rest)%list.
Proof.
  intros H. unfold build_recommendations, insert_review_recommendation.
  repeat match goal with
         | |- context [String.eqb ?a ?b] =>
             destruct (String.eqb_spec a b) as [E|_];
             [exfalso; apply H; rewrite E; simpl; tauto|]
         end.
  apply append_content_recommendation_app.
Qed.

(** C6, as stated, fails: a review the reviewer skipped gives
    [human_approval = "skipped"], which is not [auto_approved], and the list
    is headed by the advisory of the risk level. *)
Lemma skipped_review_keeps_risk_advisory_first :
  get (human_approval (st_review (assessed_state "high" (Some "skipped")))) "auto_approved"
    <> "auto_approved" /\
  exists update m',
    report_generation_node (calm_world "high")
      (assessed_state "high" (Some "skipped")) fresh_machine = (Ret (Some update), m') /\
    recommendations (st_output update) =
      Some ["⚠️ **CAUTION**: Additional fact-checking strongly recommended";
            "📋 **REVIEW**: Have second opinion before publication";
            "📊 **TRACK**: Monitor audience response if published"] /\
    recommendations (st_output update) = Some (risk_recommendations "high").
Proof.
  split; [discriminate|].
  eexists. eexists. rewrite report_generation_node_returns.
  split; [reflexivity|]. split; reflexivity.
Qed.

(** C6 (amended): when [human_approval] is rejected, needs_editing or
    approved, report generation returns a list whose first entry is the
    advisory of that decision, followed by the advisories of the risk level
    and then the advisory of the content type, if any. *)
Theorem review_recommendation_heads_list w state m :
  In (get (human_approval (st_review state)) "auto_approved")
     ["rejected"; "needs_editing"; "approved"] ->
  exists update m' advisory rest,
    report_generation_node w state m = (Ret (Some update), m') /\
    recommendations (st_output update) =
      Some (advisory
            :: risk_recommendations (get (risk_level (st_risk state)) "unknown")
            ++ rest)%list /\
    nth_error (get (recommendations (st_output update)) []) 0 = Some advisory /\
    advisory =
      (if String.eqb (get (human_approval (st_review state)) "auto_approved") "rejected"
       then "❌ **DO NOT PUBLISH**: Human reviewer has rejected this content"
       else if String.eqb (get (human_approval (st_review state)) "auto_approved")
                 "needs_editing"
       then "📝 **EDIT REQUIRED**: Content flagged for revision before publication"
       else "✅ **HUMAN APPROVED**: Content has been reviewed and approved").
Proof.
  intros H.
  rewrite report_generation_node_returns.
  unfold build_recommendations, insert_review_recommendation.
  set (approval := get (human_approval (st_review state)) "auto_approved") in *.
  set (risk := get (risk_level (st_risk state)) "unknown").
  set (ctype := get (content_type (st_analysis state)) "unknown").
  assert (C : exists advisory,
             (if String.eqb approval "rejected"
              then "❌ **DO NOT PUBLISH**: Human reviewer has rejected this content"
                   :: risk_recommendations risk
              else if String.eqb approval "needs_editing"
              then "📝 **EDIT REQUIRED**: Content flagged for revision before publication"
                   :: risk_recommendations risk
              else if String.eqb approval "approved"
              then "✅ **HUMAN APPROVED**: Content has been reviewed and approved"
                   :: risk_recommendations risk
              else risk_recommendations risk) = advisory :: risk_recommendations risk
             /\ advisory =
                 (if String.eqb approval "rejected"
                  then "❌ **DO NOT PUBLISH**: Human reviewer has rejected this content"
                  else if String.eqb approval "needs_editing"
                  then "📝 **EDIT REQUIRED**: Content flagged for revision before publication"
                  else "✅ **HUMAN APPROVED**: Content has been reviewed and approved")).
  { simpl in H. destruct H as [H | [H | [H | []]]]; rewrite <- H; simpl;
      eexists; split; reflexivity. }
  destruct C as (advisory & C & A). rewrite C.
  destruct (append_content_recommendation_app ctype (advisory :: risk_recommendations risk))
    as (rest & R).
  rewrite R.
  exists (output_update
            (mkOutput (Some ((advisory :: risk_recommendations risk) ++ rest)%list)
               (Some (PyStr.join newline (report_sections w (session m) state)))
               (Some true) (Some (clock_text w))
               (Some (clock w - get (analysis_start_time (session m)) (clock w))%Q))).
  eexists. exists advisory, rest.
  split; [reflexivity|]. split; [reflexivity|]. split; [reflexivity | exact A].
Qed.

Lemma review_recommendation_heads_list_witness :
  exists update m' advisory rest,
    report_generation_node (calm_world "high")
      (assessed_state "high" (Some "rejected")) fresh_machine = (Ret (Some update), m') /\
    recommendations (st_output update) =
      Some (advisory :: risk_recommendations "high" ++ rest)%list /\
    nth_error (get (recommendations (st_output update)) []) 0 = Some advisory /\
    advisory = "❌ **DO NOT PUBLISH**: Human reviewer has rejected this content".
Proof.
  apply (review_recommendation_heads_list (calm_world "high")
           (assessed_state "high" (Some "rejected")) fresh_machine).
  simpl. left. reflexivity.
Defined.

(** C8, as stated, fails: with no [verification_score] in the State the
    report shows 0.0%, the rendering of the default 0, and not 50.0%. *)
Lemma absent_verification_score_renders_zero :
  verification_score (st_verification (initial_state "some text" false false)) = None /\
  verification_score_line (initial_state "some text" false false)
    = "- **Verification Score:** 0.0%" /\
  verification_score_line (initial_state "some text" false false)
    <> "- **Verification Score:** " ++ PyStr.format_percent1 0.5 /\
  In "- **Verification Score:** 0.0%"
     (report_sections (calm_world "low") fresh_session
        (initial_state "some text" false false)) /\
  ~ In ("- **Verification Score:** " ++ PyStr.format_percent1 0.5)
     (report_sections (calm_world "low") fresh_session
        (initial_state "some text" false false)).
Proof.
  split; [reflexivity|]. split; [reflexivity|]. split; [discriminate|].
  split.
  - vm_compute. tauto.
  - vm_compute. intuition discriminate.
Qed.

(** C8 (amended): with no [verification_score] in the State, report
    generation reads the score with the default 0: the eighth line of the
    report is the verification line, and it shows 0.0%. *)
Theorem absent_verification_score_defaults_to_zero w state m :
  verification_score (st_verification state) = None ->
  exists update m' report,
    report_generation_node w state m = (Ret (Some update), m') /\
    final_report (st_output update) = Some report /\
    report = PyStr.join newline (report_sections w (session m) state) /\
    nth_error (report_sections w (session m) state) 7
      = Some "- **Verification Score:** 0.0%" /\
    verification_score_line state
      = "- **Verification Score:** " ++ PyStr.format_percent1 0.
Proof.
  intros H. rewrite report_generation_node_returns.
  eexists. eexists. eexists.
  split; [reflexivity|]. split; [reflexivity|]. split; [reflexivity|].
  unfold report_sections, verification_score_line. rewrite H.
  split; reflexivity.
Qed.

Lemma absent_verification_score_defaults_to_zero_witness :
  exists update m' report,
    report_generation_node (calm_world "low") (initial_state "some text" false false)
      fresh_machine = (Ret (Some update), m') /\
    final_report (st_output update) = Some report /\
    report = PyStr.join newline
               (report_sections (calm_world "low") (session fresh_machine)
                  (initial_state "some text" false false)) /\
    nth_error (report_sections (calm_world "low") (session fresh_machine)
                 (initial_state "some text" false false)) 7
      = Some "- **Verification Score:** 0.0%" /\
    verification_score_line (initial_state "some text" false false)
      = "- **Verification Score:** " ++ PyStr.format_percent1 0.
Proof.
  apply (absent_verification_score_defaults_to_zero (calm_world "low")
           (initial_state "some text" false false) fresh_machine).
  reflexivity.
Defined.

(** ** Verification *)

Lemma existsb_map_lower words checks :
  existsb (rating_says words)
          (map (fun fc => PyStr.lower (get (fc_rating fc) "")) checks)
  = some_rating_says words checks.
Proof.
  unfold some_rating_says.
  induction checks as [|fc checks IH]; simpl; [reflexivity | now rewrite IH].
Qed.

(** The score is clamped to [0, 1] whatever the lookups return. *)
Lemma compute_verification_score_bounds similar checks :
  (0 <= compute_verification_score similar checks <= 1)%Q.
Proof.
  unfold compute_verification_score. split.
  - apply Q.le_max_l.
  - apply Q.max_lub; [discriminate | apply Q.le_min_l].
Qed.

Lemma compute_verification_score_with_articles a similar checks :
  (compute_verification_score (a :: similar) checks ==
   if some_rating_says ["true"; "correct"] checks then 0.5 + 0.1 + 0.2
   else if some_rating_says ["false"; "incorrect"] checks then 0.5 + 0.1 - 0.3
   else 0.5 + 0.1)%Q.
Proof.
  unfold compute_verification_score.
  destruct checks as [|fc checks]; [reflexivity|].
  rewrite !existsb_map_lower.
  destruct (some_rating_says ["true"; "correct"] (fc :: checks)); [reflexivity|].
  destruct (some_rating_says ["false"; "incorrect"] (fc :: checks)); reflexivity.
Qed.

(** The stage on a query that is not blank when both lookups answer. *)
Lemma verification_node_completes w state m similar checks :
  PyStr.truthy (PyStr.strip (search_query state)) = true ->
  news_api w (search_query state) = inl similar ->
  fact_check_api w (search_query state) = inl checks ->
  verification_node w state m =
    (Ret (Some (verification_update
                  (mkVerification (Some (firstn 3 checks)) (Some (firstn 3 similar))
                     (Some (compute_verification_score similar checks))))),
     mkMachine (tracked "verification" (session m)) (llm_calls m) (draws m)
       (((trace m ++ [EvNewsSearch (search_query state)])
           ++ [EvFactCheck (search_query state)]) ++ [EvSleep 0.5])%list).
Proof.
  intros Q N F.
  unfold verification_node, error_boundary, performance_monitor, verification_body.
  rewrite Q. simpl negb. cbv iota.
  unfold try_except, bind, cached_news_search, cached_fact_check, bind, emit.
  simpl. rewrite N. simpl. rewrite F. reflexivity.
Qed.

(** C2, as stated, fails: with an article found and a rating saying "True"
    the stage adds both the article bonus and the fact-check bonus, where a
    single first matching rule would stop at 0.6. *)
Lemma article_and_fact_check_bonus_accumulate :
  exists update m' score,
    verification_node (lookup_world [sample_article] [rated "True"])
      scenario_b_state fresh_machine = (Ret (Some update), m') /\
    verification_score (st_verification update) = Some score /\
    (score == 0.8)%Q /\
    (first_match_score [sample_article] [rated "True"] == 0.6)%Q /\
    ~ (score == first_match_score [sample_article] [rated "True"])%Q.
Proof.
  eexists. eexists. eexists.
  split; [reflexivity|]. split; [reflexivity|].
  split; [reflexivity|]. split; [reflexivity|]. discriminate.
Qed.

(** C2 (amended): when articles are found and some rating says true/correct
    or false/incorrect, the returned score is 0.5 plus the article bonus
    plus exactly one fact-check adjustment, the bonus when some rating says
    true/correct and the penalty otherwise, and it lies in [0, 1]. *)
Theorem verification_score_adjustments w state m similar checks :
  PyStr.truthy (PyStr.strip (search_query state)) = true ->
  news_api w (search_query state) = inl similar ->
  fact_check_api w (search_query state) = inl checks ->
  similar <> [] ->
  some_rating_says ["true"; "correct"] checks
  || some_rating_says ["false"; "incorrect"] checks = true ->
  exists update m' score,
    verification_node w state m = (Ret (Some update), m') /\
    verification_score (st_verification update) = Some score /\
    (score == if some_rating_says ["true"; "correct"] checks
              then 0.5 + 0.1 + 0.2 else 0.5 + 0.1 - 0.3)%Q /\
    (0 <= score <= 1)%Q.
Proof.
  intros Q N F S R.
  rewrite (verification_node_completes w state m similar checks Q N F).
  eexists. eexists. eexists.
  split; [reflexivity|]. split; [reflexivity|].
  split; [|apply compute_verification_score_bounds].
  destruct similar as [|a similar]; [contradiction|].
  rewrite compute_verification_score_with_articles.
  destruct (some_rating_says ["true"; "correct"] checks); [reflexivity|].
  simpl in R. rewrite R. reflexivity.
Qed.

Lemma verification_score_adjustments_witness :
  exists update m' score,
    verification_node (lookup_world [sample_article] [rated "False"; rated "Mostly true"])
      scenario_b_state fresh_machine = (Ret (Some update), m') /\
    verification_score (st_verification update) = Some score /\
    (score == if some_rating_says ["true"; "correct"] [rated "False"; rated "Mostly true"]
              then 0.5 + 0.1 + 0.2 else 0.5 + 0.1 - 0.3)%Q /\
    (0 <= score <= 1)%Q.
Proof.
  apply (verification_score_adjustments
           (lookup_world [sample_article] [rated "False"; rated "Mostly true"])
           scenario_b_state fresh_machine [sample_article]
           [rated "False"; rated "Mostly true"]).
  - reflexivity.
  - reflexivity.
  - reflexivity.
  - discriminate.
  - reflexivity.
Defined.

Lemma truthy_false_iff s : PyStr.truthy s = false <-> s = "".
Proof. destruct s; simpl; split; intros H; congruence. Qed.

Lemma search_query_without_entities_and_topics state :
  get (entities (st_analysis state)) [] = [] ->
  get (topics (st_analysis state)) [] = [] ->
  search_query state = PyStr.take 50 (get (text (st_input state)) "").
Proof. intros E T. unfold search_query. now rewrite E, T. Qed.

(** *** Characters, cuts and white space *)

Lemma chars_nil s : PyStr.chars s = [] -> s = "".
Proof.
  destruct s as [|c s]; [reflexivity|]. simpl.
  destruct (PyStr.chars s); [discriminate|].
  destruct (PyStr.continues s); discriminate.
Qed.

(** The characters of a string, put together again, are the string. *)
Lemma of_chars_chars s : PyStr.of_chars (PyStr.chars s) = s.
Proof.
  induction s as [|c s IH]; [reflexivity|].
  simpl PyStr.chars.
  destruct (PyStr.chars s) as [|ch rest] eqn:C.
  - apply chars_nil in C. now subst s.
  - destruct (PyStr.continues s); simpl in *; now rewrite IH.
Qed.

(** No character is empty. *)
Lemma chars_not_empty s : Forall (fun ch => ch <> "") (PyStr.chars s).
Proof.
  induction s as [|c s IH]; [constructor|].
  simpl PyStr.chars.
  destruct (PyStr.chars s) as [|ch rest].
  - constructor; [discriminate | constructor].
  - destruct (PyStr.continues s).
    + constructor; [discriminate | now inversion IH].
    + constructor; [discriminate | exact IH].
Qed.

(** A cut at or beyond the length keeps the whole string. *)
Lemma take_whole n s : PyStr.len s <= n -> PyStr.take n s = s.
Proof.
  intros L. unfold PyStr.take. rewrite firstn_all2; [apply of_chars_chars | exact L].
Qed.

Lemma of_chars_empty l :
  Forall (fun ch => ch <> "") l -> PyStr.of_chars l = "" -> l = [].
Proof.
  intros F E. destruct l as [|ch rest]; [reflexivity|].
  inversion F as [|? ? N _]; subst. simpl in E.
  destruct ch; [now elim N | discriminate].
Qed.

Lemma drop_spaces_nil l :
  PyStr.drop_spaces l = [] <-> forallb PyStr.is_space l = true.
Proof.
  induction l as [|ch rest IH]; simpl; [tauto|].
  destruct (PyStr.is_space ch); simpl; [exact IH|].
  split; discriminate.
Qed.

Lemma drop_spaces_incl l ch : In ch (PyStr.drop_spaces l) -> In ch l.
Proof.
  induction l as [|x rest IH]; simpl; [tauto|].
  destruct (PyStr.is_space x); simpl; [intros H; right; now apply IH | tauto].
Qed.

Lemma drop_spaces_head l ch rest :
  PyStr.drop_spaces l = ch :: rest -> PyStr.is_space ch = false.
Proof.
  induction l as [|x l' IH]; simpl; [discriminate|].
  destruct (PyStr.is_space x) eqn:S; [exact IH|].
  intros H. now injection H as <- _.
Qed.

Lemma forallb_rev {A} (f : A -> bool) l : forallb f (rev l) = forallb f l.
Proof.
  induction l as [|x l IH]; [reflexivity|].
  simpl. rewrite forallb_app, IH. simpl. rewrite andb_true_r. apply andb_comm.
Qed.

(** [strip] leaves nothing exactly when every character is white space. *)
Lemma strip_blank_iff s :
  PyStr.strip s = "" <-> forallb PyStr.is_space (PyStr.chars s) = true.
Proof.
  unfold PyStr.strip. split.
  - intros E. apply of_chars_empty in E.
    + assert (D : PyStr.drop_spaces (rev (PyStr.drop_spaces (PyStr.chars s))) = []).
      { destruct (PyStr.drop_spaces (rev (PyStr.drop_spaces (PyStr.chars s))));
          [reflexivity|].
        simpl in E. now destruct (rev l). }
      apply drop_spaces_nil in D. rewrite forallb_rev in D.
      destruct (PyStr.drop_spaces (PyStr.chars s)) as [|ch rest] eqn:C.
      * now apply drop_spaces_nil.
      * apply drop_spaces_head in C. simpl in D. rewrite C in D. discriminate.
    + pose proof (chars_not_empty s) as F. rewrite Forall_forall in *.
      intros ch I. apply F. apply drop_spaces_incl.
      apply in_rev in I. apply drop_spaces_incl in I. now apply in_rev in I.
  - intros B. apply drop_spaces_nil in B. now rewrite B.
Qed.

(** The no-break space is white space; a string made of it alone is blank. *)
Lemma no_break_space_is_blank :
  PyStr.len no_break_space = 1 /\
  PyStr.is_space no_break_space = true /\
  PyStr.strip no_break_space = "".
Proof. repeat split. Qed.

(** A cut counts characters, not bytes: the accented sentence has 50
    characters in 53 bytes and is its own first 50 characters. *)
Lemma accented_sentence_is_not_cut :
  PyStr.len accented_sentence = 50 /\
  String.length accented_sentence = 53 /\
  PyStr.take 50 accented_sentence = accented_sentence.
Proof. repeat split. Qed.

(** C4, as stated, fails: the 50-character sentence is itself the query, it
    is not blank, and the stage calls both lookups; when the news search
    finds an article the score is 0.6 and the list is not empty. *)
Lemma scenario_b_calls_the_lookups :
  PyStr.len neutral_sentence = 50 /\
  entities (st_analysis scenario_b_state) = Some [] /\
  topics (st_analysis scenario_b_state) = Some [] /\
  exists update m' score,
    verification_node (lookup_world [sample_article] []) scenario_b_state fresh_machine
      = (Ret (Some update), m') /\
    trace m' = [EvNewsSearch neutral_sentence; EvFactCheck neutral_sentence; EvSleep 0.5] /\
    similar_articles (st_verification update) = Some [sample_article] /\
    verification_score (st_verification update) = Some score /\
    (score == 0.6)%Q /\ ~ (score == 0.5)%Q.
Proof.
  split; [reflexivity|]. split; [reflexivity|]. split; [reflexivity|].
  eexists. eexists. eexists.
  split; [reflexivity|]. split; [reflexivity|]. split; [reflexivity|].
  split; [reflexivity|]. split; [reflexivity | discriminate].
Qed.

(** The stage on any State: a query whose characters are all white space
    short-circuits; any other query goes to the news search first, and to
    the fact-check lookup next when the news search has answered. *)
Lemma verification_node_by_query w state m :
  exists update m',
    verification_node w state m = (Ret (Some update), m') /\
    (forallb PyStr.is_space (PyStr.chars (search_query state)) = true ->
     update = neutral_verification /\
     trace m' = (trace m ++ [EvWarning "⚠️ No search terms found for verification";
                             EvSleep 1])%list) /\
    (forallb PyStr.is_space (PyStr.chars (search_query state)) = false ->
     exists rest,
       trace m' = (trace m ++ EvNewsSearch (search_query state) :: rest)%list /\
       forall similar, news_api w (search_query state) = inl similar ->
         exists rest', rest = EvFactCheck (search_query state) :: rest').
Proof.
  unfold verification_node, error_boundary, performance_monitor, verification_body.
  set (query := search_query state).
  destruct (PyStr.truthy (PyStr.strip query)) eqn:B.
  - (* the query is not blank *)
    assert (NB : forallb PyStr.is_space (PyStr.chars query) <> true).
    { intros C. apply strip_blank_iff in C. rewrite C in B. discriminate. }
    simpl negb. cbv iota.
    unfold try_except, bind, cached_news_search, cached_fact_check, bind, emit.
    simpl.
    destruct (news_api w query) as [similar|e]; simpl.
    + destruct (fact_check_api w query) as [checks|e]; simpl.
      * eexists. eexists. split; [reflexivity|].
        split; [intros C; contradiction|].
        intros _. simpl. rewrite <- !app_assoc. simpl. eexists.
        split; [reflexivity|]. intros _ _. eexists. reflexivity.
      * eexists. eexists. split; [reflexivity|].
        split; [intros C; contradiction|].
        intros _. simpl. rewrite <- !app_assoc. simpl. eexists.
        split; [reflexivity|]. intros _ _. eexists. reflexivity.
    + eexists. eexists. split; [reflexivity|].
      split; [intros C; contradiction|].
      intros _. simpl. rewrite <- !app_assoc. simpl. eexists.
      split; [reflexivity|]. intros similar H. discriminate H.
  - (* the query is blank *)
    apply truthy_false_iff in B. apply strip_blank_iff in B.
    simpl negb. cbv iota.
    eexists. eexists. split; [reflexivity|].
    split; [|intros C; congruence].
    intros _. split; [reflexivity|].
    simpl. now rewrite <- !app_assoc.
Qed.

(** C4 (amended): with no entity and no topic the query is the first 50
    characters of the text, the whole text when it has at most 50
    characters.  The stage always returns an update.  When every character
    of the query is white space (none, ASCII blanks, a no-break space) the
    update is the neutral one (score 0.5, empty lists), the stage warns,
    pauses one second and attempts no lookup; otherwise the news search is
    called with the query, and the fact-check lookup after it when the news
    search has answered, so a 50-character text that is not blank is looked
    up whole. *)
Theorem verification_short_circuit w state m :
  get (entities (st_analysis state)) [] = [] ->
  get (topics (st_analysis state)) [] = [] ->
  exists update m',
    verification_node w state m = (Ret (Some update), m') /\
    (forallb PyStr.is_space (PyStr.chars (PyStr.take 50 (get (text (st_input state)) "")))
       = true ->
     update = neutral_verification /\
     verification_score (st_verification update) = Some 0.5%Q /\
     trace m' = (trace m ++ [EvWarning "⚠️ No search terms found for verification";
                             EvSleep 1])%list /\
     filter is_lookup (trace m') = filter is_lookup (trace m)) /\
    (forallb PyStr.is_space (PyStr.chars (PyStr.take 50 (get (text (st_input state)) "")))
       = false ->
     exists rest,
       trace m' = (trace m
                   ++ EvNewsSearch (PyStr.take 50 (get (text (st_input state)) ""))
                   :: rest)%list /\
       forall similar,
         news_api w (PyStr.take 50 (get (text (st_input state)) "")) = inl similar ->
         exists rest',
           rest = EvFactCheck (PyStr.take 50 (get (text (st_input state)) "")) :: rest') /\
    (PyStr.len (get (text (st_input state)) "") <= 50 ->
     PyStr.take 50 (get (text (st_input state)) "") = get (text (st_input state)) "").
Proof.
  intros E T.
  destruct (verification_node_by_query w state m) as (update & m' & R & Blank & Other).
  rewrite (search_query_without_entities_and_topics state E T) in Blank, Other.
  exists update, m'. split; [exact R|].
  split; [|split; [exact Other | apply take_whole]].
  intros B. destruct (Blank B) as (-> & Tr).
  split; [reflexivity|]. split; [reflexivity|]. split; [exact Tr|].
  rewrite Tr, filter_app. simpl. apply app_nil_r.
Qed.

Lemma verification_short_circuit_witness :
  exists update m',
    verification_node (lookup_world [sample_article] [])
      (initial_state ("  " ++ no_break_space ++ " ") false true) fresh_machine
      = (Ret (Some update), m') /\
    update = neutral_verification /\
    trace m' = [EvWarning "⚠️ No search terms found for verification"; EvSleep 1].
Proof.
  destruct (verification_short_circuit (lookup_world [sample_article] [])
              (initial_state ("  " ++ no_break_space ++ " ") false true) fresh_machine)
    as (update & m' & R & Blank & _); [reflexivity | reflexivity |].
  exists update, m'. split; [exact R|].
  destruct Blank as (U & _ & Tr & _); [reflexivity|].
  split; [exact U | exact Tr].
Defined.

(** The accented sentence of 50 characters is looked up whole. *)
Lemma accented_sentence_is_looked_up_whole :
  exists update m',
    verification_node (lookup_world [sample_article] [])
      (initial_state accented_sentence false true) fresh_machine
      = (Ret (Some update), m') /\
    trace m' = [EvNewsSearch accented_sentence; EvFactCheck accented_sentence;
                EvSleep 0.5].
Proof. eexists. eexists. split; reflexivity. Qed.

(** ** The LLM call and its retries *)

Lemma count_invokes_app tr1 tr2 :
  count_invokes (tr1 ++ tr2)%list = count_invokes tr1 + count_invokes tr2.
Proof. unfold count_invokes. now rewrite filter_app, length_app. Qed.

Lemma sleeps_app tr1 tr2 : sleeps (tr1 ++ tr2)%list = (sleeps tr1 ++ sleeps tr2)%list.
Proof. unfold sleeps. apply flat_map_app. Qed.

(** The cap: no wait exceeds 60 seconds. *)
Lemma backoff_cap attempt jitter : (backoff attempt jitter <= 60)%Q.
Proof. apply Q.le_min_r. Qed.

(** Below the cap the wait is the doubled base plus the jitter. *)
Lemma backoff_value attempt jitter :
  attempt < 4 -> (0 <= jitter <= 1)%Q ->
  (backoff attempt jitter == inject_Z (2 * 2 ^ Z.of_nat attempt) + jitter)%Q.
Proof.
  intros A [J0 J1]. unfold backoff.
  assert (C : attempt = 0 \/ attempt = 1 \/ attempt = 2 \/ attempt = 3) by lia.
  destruct C as [-> | [-> | [-> | ->]]]; simpl;
    (rewrite Q.min_l; [reflexivity|]);
    unfold inject_Z; lra.
Qed.

Lemma count_invokes_invoke p : count_invokes [EvInvoke p] = 1.
Proof. reflexivity. Qed.
Lemma count_invokes_sleep d : count_invokes [EvSleep d] = 0.
Proof. reflexivity. Qed.
Lemma count_invokes_warning msg : count_invokes [EvWarning msg] = 0.
Proof. reflexivity. Qed.
Lemma sleeps_invoke p : sleeps [EvInvoke p] = [].
Proof. reflexivity. Qed.
Lemma sleeps_sleep d : sleeps [EvSleep d] = [d].
Proof. reflexivity. Qed.
Lemma sleeps_warning msg : sleeps [EvWarning msg] = [].
Proof. reflexivity. Qed.

Create Rewrite HintDb trace.
#[local] Hint Rewrite count_invokes_app count_invokes_invoke count_invokes_sleep
  count_invokes_warning sleeps_app sleeps_invoke sleeps_sleep sleeps_warning
  app_nil_r : trace.

(** Each iteration of the loop calls the model once: the loop adds at most
    [remaining] calls to the trace. *)
Lemma retry_loop_invokes_le w message max_retries :
  forall remaining attempt m,
    count_invokes (trace (snd (retry_loop w message max_retries attempt remaining m)))
    <= count_invokes (trace m) + remaining.
Proof.
  induction remaining as [|remaining IH]; intros attempt m.
  - simpl. lia.
  - simpl retry_loop. unfold bind at 1, try_except at 1, bind at 1, invoke at 1.
    destruct (llm_invoke w (llm_calls m) message) as [content|e].
    + destruct (PyStr.truthy (PyStr.strip content)).
      * cbn [snd trace ret]. autorewrite with trace. lia.
      * unfold raise at 1.
        destruct (is_rate_limited _); unfold random_uniform, bind, sleep, emit;
          cbn [fst snd session llm_calls draws trace ret raise];
          destruct (attempt <? max_retries - 1);
          cbn [fst snd session llm_calls draws trace ret raise];
          try (autorewrite with trace; lia);
          (eapply Nat.le_trans; [apply IH|];
           cbn [fst snd session llm_calls draws trace];
           autorewrite with trace; lia).
    + destruct (is_rate_limited e); unfold random_uniform, bind, sleep, emit;
        cbn [fst snd session llm_calls draws trace ret raise];
        destruct (attempt <? max_retries - 1);
        cbn [fst snd session llm_calls draws trace ret raise];
        try (autorewrite with trace; lia);
        (eapply Nat.le_trans; [apply IH|];
         cbn [fst snd session llm_calls draws trace];
         autorewrite with trace; lia).
Qed.

(** C3, as stated, fails: a failure that is not a rate limit is not
    surfaced after one retry; the model is called four times, with a
    one-second pause after each of the first three calls. *)
Lemma other_failures_are_retried_three_times :
  is_rate_limited (mkExn OtherError "connection reset") = false /\
  fst (call_llm_with_retry (failing_world (mkExn OtherError "connection reset"))
         (AnalysisPrompt "some text") 4 fresh_machine)
    = Raise (mkExn OtherError "connection reset") /\
  trace (snd (call_llm_with_retry (failing_world (mkExn OtherError "connection reset"))
                (AnalysisPrompt "some text") 4 fresh_machine))
    = [EvInvoke (AnalysisPrompt "some text"); EvSleep 1;
       EvInvoke (AnalysisPrompt "some text"); EvSleep 1;
       EvInvoke (AnalysisPrompt "some text"); EvSleep 1;
       EvInvoke (AnalysisPrompt "some text")] /\
  count_invokes
    (trace (snd (call_llm_with_retry (failing_world (mkExn OtherError "connection reset"))
                   (AnalysisPrompt "some text") 4 fresh_machine))) <> 2.
Proof.
  split; [reflexivity|]. split; [reflexivity|]. split; [reflexivity|].
  vm_compute. discriminate.
Qed.

(** One attempt that succeeds: the call returns the stripped response. *)
Lemma retry_loop_attempt_succeeds w message max_retries attempt remaining m rsp :
  attempt_outcome (llm_invoke w (llm_calls m) message) = inl rsp ->
  retry_loop w message max_retries attempt (S remaining) m
    = (Ret rsp, mkMachine (session m) (S (llm_calls m)) (draws m)
                  (trace m ++ [EvInvoke message])%list).
Proof.
  intros O. simpl retry_loop. unfold bind at 1, try_except at 1, bind at 1, invoke at 1.
  unfold attempt_outcome in O.
  destruct (llm_invoke w (llm_calls m) message) as [content|e]; [|discriminate].
  destruct (PyStr.truthy (PyStr.strip content)); [|discriminate].
  injection O as <-. reflexivity.
Qed.

(** One attempt that fails before the last: the loop pauses, by the rule of
    the failure's own signature, and goes on to the next attempt. *)
Lemma retry_loop_attempt_retried w message max_retries attempt remaining m f :
  attempt_outcome (llm_invoke w (llm_calls m) message) = inr f ->
  (attempt <? max_retries - 1) = true ->
  exists m1 d,
    retry_loop w message max_retries attempt (S remaining) m
      = retry_loop w message max_retries (S attempt) remaining m1 /\
    llm_calls m1 = S (llm_calls m) /\
    count_invokes (trace m1) = S (count_invokes (trace m)) /\
    sleeps (trace m1) = (sleeps (trace m) ++ [d])%list /\
    d = (if is_rate_limited f then backoff attempt (uniform01 w (draws m)) else 1%Q).
Proof.
  intros O A. simpl retry_loop. unfold bind at 1, try_except at 1, bind at 1, invoke at 1.
  unfold attempt_outcome in O.
  destruct (llm_invoke w (llm_calls m) message) as [content|e].
  - destruct (PyStr.truthy (PyStr.strip content)); [discriminate|].
    injection O as <-. unfold raise at 1. rewrite A.
    destruct (is_rate_limited _);
      unfold random_uniform, bind, sleep, emit, ret;
      cbn [fst snd session llm_calls draws trace];
      eexists; eexists; (split; [reflexivity|]);
      cbn [llm_calls trace]; (split; [reflexivity|]); autorewrite with trace;
      (split; [lia|]); (split; [rewrite <- ?app_assoc; reflexivity | reflexivity]).
  - injection O as <-. rewrite A.
    destruct (is_rate_limited _);
      unfold random_uniform, bind, sleep, emit, ret;
      cbn [fst snd session llm_calls draws trace];
      eexists; eexists; (split; [reflexivity|]);
      cbn [llm_calls trace]; (split; [reflexivity|]); autorewrite with trace;
      (split; [lia|]); (split; [rewrite <- ?app_assoc; reflexivity | reflexivity]).
Qed.

(** The last attempt fails: its own failure is raised, without a pause. *)
Lemma retry_loop_attempt_surfaces w message max_retries attempt remaining m f :
  attempt_outcome (llm_invoke w (llm_calls m) message) = inr f ->
  (attempt <? max_retries - 1) = false ->
  exists m1,
    retry_loop w message max_retries attempt (S remaining) m = (Raise f, m1) /\
    count_invokes (trace m1) = S (count_invokes (trace m)) /\
    sleeps (trace m1) = sleeps (trace m).
Proof.
  intros O A. simpl retry_loop. unfold bind at 1, try_except at 1, bind at 1, invoke at 1.
  unfold attempt_outcome in O.
  destruct (llm_invoke w (llm_calls m) message) as [content|e].
  - destruct (PyStr.truthy (PyStr.strip content)); [discriminate|].
    injection O as <-. unfold raise at 1. rewrite A.
    destruct (is_rate_limited _);
      unfold random_uniform, bind, raise; cbn [fst snd session llm_calls draws trace];
      eexists; (split; [reflexivity|]); cbn [trace]; autorewrite with trace;
      split; [lia | reflexivity | lia | reflexivity].
  - injection O as <-. rewrite A.
    destruct (is_rate_limited _);
      unfold random_uniform, bind, raise; cbn [fst snd session llm_calls draws trace];
      eexists; (split; [reflexivity|]); cbn [trace]; autorewrite with trace;
      split; [lia | reflexivity | lia | reflexivity].
Qed.

(** The pause of a retried attempt fits the contract. *)
Lemma backoff_fits w attempt f n :
  attempt < 4 -> (forall k, 0 <= uniform01 w k <= 1)%Q ->
  pause_fits attempt f (if is_rate_limited f then backoff attempt (uniform01 w n) else 1%Q).
Proof.
  intros A J. unfold pause_fits. destruct (is_rate_limited f); [|reflexivity].
  pose proof (backoff_value attempt _ A (J n)) as V.
  exists (uniform01 w n). split; [exact (J n)|].
  split.
  { unfold backoff. do 2 f_equal. f_equal. lia. }
  destruct (J n) as [J0 J1].
  split; [rewrite V; lra|]. split; [rewrite V; lra | apply backoff_cap].
Qed.

(** The loop of four attempts from attempt number [attempt] on, when the
    next attempts fail with [failures] and the one after them either
    succeeds or is the fourth. *)
Lemma retry_loop_schedule w message :
  (forall k, 0 <= uniform01 w k <= 1)%Q ->
  forall failures attempt remaining m,
    attempt + remaining = 4 ->
    length failures < remaining ->
    (forall i f, nth_error failures i = Some f ->
       attempt_outcome (llm_invoke w (llm_calls m + i) message) = inr f) ->
    (exists rsp, attempt_outcome (llm_invoke w (llm_calls m + length failures) message)
                 = inl rsp)
    \/ S (length failures) = remaining ->
    exists pauses,
      sleeps (trace (snd (retry_loop w message 4 attempt remaining m)))
        = (sleeps (trace m) ++ pauses)%list /\
      length pauses = length failures /\
      (forall i f d, nth_error failures i = Some f -> nth_error pauses i = Some d ->
                     pause_fits (attempt + i) f d) /\
      count_invokes (trace (snd (retry_loop w message 4 attempt remaining m)))
        = count_invokes (trace m) + length failures + 1 /\
      fst (retry_loop w message 4 attempt remaining m)
        = match attempt_outcome (llm_invoke w (llm_calls m + length failures) message) with
          | inl rsp => Ret rsp
          | inr f => Raise f
          end.
Proof.
  intros J. induction failures as [|f0 failures IH]; intros attempt remaining m A L F T.
  - (* no failure before this attempt *)
    destruct remaining as [|remaining]; [simpl in L; lia|].
    cbn [length] in *. rewrite ?Nat.add_0_r in T. rewrite ?Nat.add_0_r.
    exists []. rewrite app_nil_r.
    destruct (attempt_outcome (llm_invoke w (llm_calls m) message)) as [rsp|f] eqn:O.
    + rewrite (retry_loop_attempt_succeeds _ _ _ _ _ _ _ O). cbn [fst snd trace].
      autorewrite with trace.
      split; [reflexivity|]. split; [reflexivity|].
      split; [intros i f d H; destruct i; discriminate|].
      split; [lia | reflexivity].
    + destruct T as [(rsp & T) | T]; [discriminate|].
      assert (Last : (attempt <? 4 - 1) = false) by (apply Nat.ltb_ge; simpl; lia).
      destruct (retry_loop_attempt_surfaces _ _ _ _ remaining _ _ O Last)
        as (m1 & -> & C & Sl).
      cbn [fst snd].
      split; [exact Sl|]. split; [reflexivity|].
      split; [intros i f' d H; destruct i; discriminate|].
      split; [lia | reflexivity].
  - (* a failure, then the rest *)
    destruct remaining as [|remaining]; [simpl in L; lia|].
    cbn [length] in *.
    assert (O : attempt_outcome (llm_invoke w (llm_calls m) message) = inr f0).
    { rewrite <- (Nat.add_0_r (llm_calls m)). apply F. reflexivity. }
    assert (Early : (attempt <? 4 - 1) = true) by (apply Nat.ltb_lt; simpl; lia).
    destruct (retry_loop_attempt_retried _ _ _ _ remaining _ _ O Early)
      as (m1 & d & -> & C & I & Sl & D).
    assert (Shift : forall i, llm_calls m1 + i = llm_calls m + S i) by (intros; lia).
    destruct (IH (S attempt) remaining m1) as (pauses & Sl' & Len & Fit & I' & R).
    + lia.
    + lia.
    + intros i f H. rewrite Shift. apply F. exact H.
    + rewrite Shift. destruct T as [T | T]; [left; exact T | right; lia].
    + exists (d :: pauses).
      split; [rewrite Sl', Sl, <- app_assoc; reflexivity|].
      split; [simpl; now rewrite Len|].
      split.
      { intros [|i] f d' Hf Hd; simpl in Hf, Hd.
        - injection Hf as <-. injection Hd as <-. rewrite Nat.add_0_r, D.
          apply backoff_fits; [lia | exact J].
        - replace (attempt + S i) with (S attempt + i) by lia. now apply (Fit i). }
      split; [rewrite I', I; lia|].
      rewrite R, Shift. reflexivity.
Qed.

(** Every call falls under the schedule: its first attempts fail, up to
    three of them, and the next one succeeds or is the fourth. *)
Lemma failures_before_the_outcome w message m :
  exists failures,
    length failures <= 3 /\
    (forall i f, nth_error failures i = Some f ->
       attempt_outcome (llm_invoke w (llm_calls m + i) message) = inr f) /\
    ((exists rsp, attempt_outcome (llm_invoke w (llm_calls m + length failures) message)
                  = inl rsp)
     \/ length failures = 3).
Proof.
  destruct (attempt_outcome (llm_invoke w (llm_calls m + 0) message)) as [r0|f0] eqn:O0.
  { exists []. split; [simpl; lia|]. split; [intros [|i] f H; discriminate H|].
    left. exists r0. exact O0. }
  destruct (attempt_outcome (llm_invoke w (llm_calls m + 1) message)) as [r1|f1] eqn:O1.
  { exists [f0]. split; [simpl; lia|]. split.
    - intros [|[|i]] f H; simpl in H; try discriminate H. now injection H as <-.
    - left. exists r1. exact O1. }
  destruct (attempt_outcome (llm_invoke w (llm_calls m + 2) message)) as [r2|f2] eqn:O2.
  { exists [f0; f1]. split; [simpl; lia|]. split.
    - intros [|[|[|i]]] f H; simpl in H; try discriminate H; now injection H as <-.
    - left. exists r2. exact O2. }
  exists [f0; f1; f2]. split; [simpl; lia|]. split.
  - intros [|[|[|[|i]]]] f H; simpl in H; try discriminate H; now injection H as <-.
  - right. reflexivity.
Qed.

(** C3 (amended): the call makes at most four attempts, whatever the
    replies.  An attempt fails when the call raises or when the response is
    empty once stripped.  Whatever the mix of failures, each failed attempt
    before the fourth is followed by one pause and a further attempt: the
    pause is 2, 4 or 8 seconds plus a jitter of at most one second (never
    more than 60 seconds) when that failure has the rate-limit signature,
    and one second otherwise.  The call returns the first usable response;
    when the fourth attempt fails too, its own failure is raised to the
    caller without a further pause. *)
Theorem retry_schedule w message m failures :
  (forall n, 0 <= uniform01 w n <= 1)%Q ->
  length failures <= 3 ->
  (forall i f, nth_error failures i = Some f ->
     attempt_outcome (llm_invoke w (llm_calls m + i) message) = inr f) ->
  count_invokes (trace (snd (call_llm_with_retry w message 4 m)))
    <= count_invokes (trace m) + 4 /\
  ((exists rsp, attempt_outcome (llm_invoke w (llm_calls m + length failures) message)
                = inl rsp)
   \/ length failures = 3 ->
   exists pauses,
     sleeps (trace (snd (call_llm_with_retry w message 4 m)))
       = (sleeps (trace m) ++ pauses)%list /\
     length pauses = length failures /\
     (forall i f d, nth_error failures i = Some f -> nth_error pauses i = Some d ->
                    pause_fits i f d) /\
     count_invokes (trace (snd (call_llm_with_retry w message 4 m)))
       = count_invokes (trace m) + length failures + 1 /\
     fst (call_llm_with_retry w message 4 m)
       = match attempt_outcome (llm_invoke w (llm_calls m + length failures) message) with
         | inl rsp => Ret rsp
         | inr f => Raise f
         end).
Proof.
  intros J L F.
  split; [apply retry_loop_invokes_le|].
  intros T. unfold call_llm_with_retry.
  apply (retry_loop_schedule w message J failures 0 4 m); try assumption; try lia.
  destruct T as [T | T]; [left; exact T | right; lia].
Qed.

(** A rate limit, an empty response and a reset connection, then a timeout:
    the call pauses three times and raises the timeout of the fourth
    attempt. *)
Lemma retry_schedule_witness :
  fst (call_llm_with_retry (scripted_world mixed_replies)
         (AnalysisPrompt "some text") 4 fresh_machine)
    = Raise (mkExn OtherError "timed out") /\
  exists pauses,
    sleeps (trace (snd (call_llm_with_retry (scripted_world mixed_replies)
                          (AnalysisPrompt "some text") 4 fresh_machine))) = pauses /\
    length pauses = 3 /\
    forall d, nth_error pauses 1 = Some d -> d = 1%Q.
Proof.
  destruct (retry_schedule (scripted_world mixed_replies)
              (AnalysisPrompt "some text") fresh_machine
              [mkExn OtherError "Error code: 429";
               mkExn ValueError "Empty LLM response";
               mkExn OtherError "connection reset"]) as (_ & H).
  - intros n. simpl. split; discriminate.
  - simpl. lia.
  - intros [|[|[|i]]] f E; simpl in E;
      [injection E as <-; reflexivity .. | destruct i; discriminate].
  - destruct H as (pauses & S & Len & Fit & _ & R); [right; reflexivity|].
    split; [exact R|]. exists pauses. split; [exact S|]. split; [exact Len|].
    intros d D. exact (Fit 1 (mkExn ValueError "Empty LLM response") d eq_refl D).
Defined.

(** The same call, event by event: 2.5 seconds after the rate limit, one
    second after the empty response and after the reset connection, nothing
    after the timeout. *)
Lemma mixed_failures_event_by_event :
  trace (snd (call_llm_with_retry (scripted_world mixed_replies)
                (AnalysisPrompt "some text") 4 fresh_machine))
  = [EvInvoke (AnalysisPrompt "some text");
     EvWarning "⚠️ Rate-limited – retrying in 2.5s…";
     EvSleep (backoff 0 0.5);
     EvInvoke (AnalysisPrompt "some text"); EvSleep 1;
     EvInvoke (AnalysisPrompt "some text"); EvSleep 1;
     EvInvoke (AnalysisPrompt "some text")] /\
  (backoff 0 0.5 == 2.5)%Q.
Proof. split; reflexivity. Qed.

(** ** The error boundary *)

(** A function under [error_boundary] never raises: its exception is
    replaced by the result [None]. *)
Lemma error_boundary_never_raises {A} func_name (func : M A) m e :
  fst (error_boundary func_name func m) <> Raise e.
Proof.
  unfold error_boundary, try_except, bind.
  destruct (func m) as [[a|e'|c] m']; simpl; discriminate.
Qed.

Lemma error_boundary_ret {A} func_name (func : M A) m a m' :
  func m = (Ret a, m') -> error_boundary func_name func m = (Ret (Some a), m').
Proof. intros H. unfold error_boundary, try_except, bind. now rewrite H. Qed.

Lemma error_boundary_raise {A} func_name (func : M A) m e m' :
  func m = (Raise e, m') ->
  error_boundary func_name func m =
    (Ret None,
     mkMachine (logged e [("function", func_name)] (session m')) (llm_calls m') (draws m')
       (trace m' ++ [EvError ("An error occurred in " ++ func_name ++ ": " ++ exn_msg e)])%list).
Proof. intros H. unfold error_boundary, try_except, bind. now rewrite H. Qed.

Lemma error_boundary_halt {A} func_name (func : M A) m c m' :
  func m = (Halt c, m') -> error_boundary func_name func m = (Halt c, m').
Proof. intros H. unfold error_boundary, try_except, bind. now rewrite H. Qed.

Lemma performance_monitor_ret {A} operation_name (func : M A) m a m' :
  func m = (Ret a, m') ->
  performance_monitor operation_name func m =
    (Ret a, mkMachine (tracked operation_name (session m')) (llm_calls m') (draws m')
              (trace m')).
Proof. intros H. unfold performance_monitor, try_except, bind. now rewrite H. Qed.

Lemma performance_monitor_raise {A} operation_name (func : M A) m e m' :
  func m = (Raise e, m') ->
  performance_monitor operation_name func m =
    (Raise e, mkMachine (tracked (operation_name ++ "_ERROR") (session m'))
                (llm_calls m') (draws m') (trace m')).
Proof. intros H. unfold performance_monitor, try_except, bind. now rewrite H. Qed.

(** ** The graph engine *)

Lemma execute_unfold w limit stage state :
  execute w (S limit) stage state =
    (update <- node w stage state ;;
     continue_after w limit stage (apply_update update state)).
Proof. reflexivity. Qed.

Lemma execute_step w limit stage state m update m' :
  node w stage state m = (Ret update, m') ->
  execute w (S limit) stage state m
    = continue_after w limit stage (apply_update update state) m'.
Proof. intros H. rewrite execute_unfold. unfold bind at 1. now rewrite H. Qed.

Lemma execute_halts w limit stage state m c m' :
  node w stage state m = (Halt c, m') ->
  execute w (S limit) stage state m = (Halt c, m').
Proof. intros H. rewrite execute_unfold. unfold bind at 1. now rewrite H. Qed.

(** ** What the stages before the review can do *)

Section Yields.
Context {A B : Type}.

Lemma yields_ret (R : A -> Prop) a : R a -> yields R (ret a).
Proof. intros H m. exact H. Qed.

Lemma yields_raise (R : A -> Prop) e : yields R (raise e).
Proof. intros m. exact I. Qed.

Lemma yields_weaken (R R' : A -> Prop) (c : M A) :
  yields R c -> (forall a, R a -> R' a) -> yields R' c.
Proof.
  intros H W m. specialize (H m). destruct (fst (c m)); auto.
Qed.

Lemma yields_bind (Q : A -> Prop) (R : B -> Prop) (c : M A) (k : A -> M B) :
  yields Q c -> (forall a, Q a -> yields R (k a)) -> yields R (bind c k).
Proof.
  intros Hc Hk m. unfold bind. specialize (Hc m).
  destruct (c m) as [[a|e|h] m']; simpl in *; [|exact I|contradiction].
  apply (Hk a Hc m').
Qed.

Lemma yields_try_except (R : A -> Prop) (body : M A) (handler : Exn -> M A) :
  yields R body -> (forall e, yields R (handler e)) -> yields R (try_except body handler).
Proof.
  intros Hb Hh m. unfold try_except. specialize (Hb m).
  destruct (body m) as [[a|e|h] m']; simpl in *; [exact Hb| |contradiction].
  apply (Hh e m').
Qed.
End Yields.

Lemma yields_emit ev : yields (fun _ => True) (emit ev).
Proof. intros m. exact I. Qed.

Lemma yields_get_session : yields (fun _ => True) get_session.
Proof. intros m. exact I. Qed.

Lemma yields_put_session s : yields (fun _ => True) (put_session s).
Proof. intros m. exact I. Qed.

Lemma yields_log_error e context : yields (fun _ => True) (log_error e context).
Proof. intros m. exact I. Qed.

Lemma yields_track_performance name : yields (fun _ => True) (track_performance name).
Proof. intros m. exact I. Qed.

Lemma yields_invoke w message : yields (fun _ => True) (invoke w message).
Proof. intros m. unfold invoke. destruct (llm_invoke _ _ _); exact I. Qed.

Lemma yields_random_uniform w : yields (fun _ => True) (random_uniform w).
Proof. intros m. exact I. Qed.

Lemma yields_handle_api_error {A} (R : A -> Prop) e api_name :
  yields R (handle_api_error e api_name).
Proof. intros m. exact I. Qed.

Create HintDb yields discriminated.
#[local] Hint Resolve yields_emit yields_get_session yields_put_session
  yields_log_error yields_track_performance yields_invoke yields_random_uniform
  yields_raise : yields.
#[local] Hint Extern 1 (yields _ (handle_api_error _ _)) =>
  apply yields_handle_api_error : yields.
#[local] Hint Extern 1 (yields _ (sleep _)) => apply yields_emit : yields.

(** One step through a computation: a sequence, a handler or a branch. *)
Ltac yields_step :=
  match goal with
  | |- yields _ (ret _) => apply yields_ret
  | |- yields _ (bind _ _) => eapply yields_bind; [solve [auto with yields] | intros ? _]
  | |- yields _ (try_except _ _) => apply yields_try_except; [|intros ?]
  | |- yields _ (if ?b then _ else _) => destruct b
  | |- yields _ (match ?x with _ => _ end) => destruct x
  | |- yields _ _ => solve [auto with yields]
  end.

Lemma yields_retry_loop w message max_retries :
  forall remaining attempt,
    yields (fun _ => True) (retry_loop w message max_retries attempt remaining).
Proof.
  induction remaining as [|remaining IH]; intros attempt; simpl retry_loop.
  - auto with yields.
  - eapply yields_bind with (Q := fun _ => True).
    + repeat yields_step; exact I.
    + intros [rsp|] _; [apply yields_ret; exact I | apply IH].
Qed.

Lemma yields_content_analysis_handler raw e :
  yields keeps_input_and_review (content_analysis_handler raw e).
Proof.
  unfold content_analysis_handler.
  repeat yields_step; split; reflexivity.
Qed.

Lemma yields_state_text state : yields (fun _ => True) (state_text state).
Proof.
  unfold state_text. destruct (text (st_input state));
    [apply yields_ret; exact I | apply yields_raise].
Qed.

Lemma yields_require {A} (field : option A) key : yields (fun _ => True) (require field key).
Proof.
  unfold require. destruct field; [apply yields_ret; exact I | apply yields_raise].
Qed.

#[local] Hint Resolve yields_state_text yields_require : yields.

Lemma yields_content_analysis_body w state :
  yields keeps_input_and_review (content_analysis_body w state).
Proof.
  unfold content_analysis_body.
  destruct (negb (llm_client w)); [auto with yields|].
  eapply yields_bind; [apply yields_state_text|]. intros txt _.
  eapply yields_bind
    with (Q := fun r => match r with inl _ => True | inr u => keeps_input_and_review u end).
  - apply yields_try_except.
    + eapply yields_bind; [apply yields_retry_loop|].
      intros raw _. apply yields_ret. exact I.
    + intros e. eapply yields_bind; [apply yields_content_analysis_handler|].
      intros u Hu. apply yields_ret. exact Hu.
  - intros [raw|u] H.
    + apply yields_try_except; [|intros e; apply yields_content_analysis_handler].
      repeat yields_step; split; reflexivity.
    + apply yields_ret. exact H.
Qed.

Lemma yields_cached_news_search w query :
  yields (fun _ => True) (cached_news_search w query).
Proof. unfold cached_news_search. repeat yields_step. exact I. Qed.

Lemma yields_cached_fact_check w query :
  yields (fun _ => True) (cached_fact_check w query).
Proof. unfold cached_fact_check. repeat yields_step. exact I. Qed.

#[local] Hint Resolve yields_cached_news_search yields_cached_fact_check : yields.

Lemma yields_verification_body w state :
  yields keeps_input_and_review (verification_body w state).
Proof.
  unfold verification_body. repeat yields_step; split; reflexivity.
Qed.

Lemma yields_risk_assessment_body w state :
  yields keeps_input_and_review (risk_assessment_body w state).
Proof.
  unfold risk_assessment_body. repeat yields_step; split; reflexivity.
Qed.

Lemma yields_performance_monitor {A} (R : A -> Prop) name (func : M A) :
  yields R func -> yields R (performance_monitor name func).
Proof.
  intros H. unfold performance_monitor.
  apply yields_try_except.
  - eapply yields_bind; [exact H|]. intros a Ha.
    eapply yields_bind; [apply yields_track_performance|]. intros _ _.
    apply yields_ret. exact Ha.
  - intros e. eapply yields_bind; [apply yields_track_performance|].
    intros _ _. apply yields_raise.
Qed.

(** Under the error boundary a function that cannot halt always returns:
    its value, or [None] in place of its exception. *)
Lemma error_boundary_returns {A} (R : A -> Prop) name (func : M A) m :
  yields R func ->
  exists r m', error_boundary name func m = (Ret r, m') /\
               forall a, r = Some a -> R a.
Proof.
  intros H. specialize (H m). unfold error_boundary, try_except, bind.
  destruct (func m) as [[a|e|h] m1]; simpl in *; [| |contradiction].
  - eexists. eexists. split; [reflexivity|]. intros a' E. now injection E as <-.
  - eexists. eexists. split; [reflexivity|]. discriminate.
Qed.

(** The three stages before the review always return, and their update
    writes neither an input key nor a review key. *)
Lemma upstream_node_returns w stage state m :
  stage = ContentAnalysis \/ stage = Verification \/ stage = RiskAssessment ->
  exists r m', node w stage state m = (Ret r, m') /\
               forall u, r = Some u -> keeps_input_and_review u.
Proof.
  intros [-> | [-> | ->]]; unfold node;
    apply error_boundary_returns; apply yields_performance_monitor.
  - apply yields_content_analysis_body.
  - apply yields_verification_body.
  - apply yields_risk_assessment_body.
Qed.

Lemma merge_keeps_input_and_review u s :
  keeps_input_and_review u ->
  st_input (merge u s) = st_input s /\ st_review (merge u s) = st_review s.
Proof.
  intros [I R]. unfold merge. rewrite I, R. simpl.
  destruct s as [[? ? ? ?] ? ? ? [? ? ?] ?]. split; reflexivity.
Qed.

Lemma upstream_run_stage_returns w stage state m :
  stage = ContentAnalysis \/ stage = Verification \/ stage = RiskAssessment ->
  exists state' m', run_stage w stage state m = (Ret state', m') /\
                    st_input state' = st_input state /\
                    st_review state' = st_review state.
Proof.
  intros S. destruct (upstream_node_returns w stage state m S) as (r & m' & N & K).
  unfold run_stage, bind. rewrite N.
  eexists. eexists. split; [reflexivity|].
  destruct r as [u|]; simpl; [|split; reflexivity].
  apply merge_keeps_input_and_review. apply K. reflexivity.
Qed.

(** The run always reaches the routing after risk assessment, with the
    input keys and the review keys as they were at the start. *)
Lemma upstream_returns w initial m :
  exists state m1,
    upstream w initial m = (Ret state, m1) /\
    st_input state = st_input initial /\
    st_review state = st_review initial.
Proof.
  unfold upstream.
  destruct (upstream_run_stage_returns w ContentAnalysis initial m)
    as (s1 & m1 & R1 & I1 & V1); [tauto|].
  unfold bind at 1. rewrite R1.
  unfold bind at 1. rewrite edge_target_after_analysis.
  destruct (String.eqb _ "verification").
  - destruct (upstream_run_stage_returns w Verification s1 m1)
      as (s2 & m2 & R2 & I2 & V2); [tauto|].
    unfold bind at 1. rewrite R2.
    destruct (upstream_run_stage_returns w RiskAssessment s2 m2)
      as (s3 & m3 & R3 & I3 & V3); [tauto|].
    exists s3, m3. split; [exact R3|]. split; congruence.
  - unfold bind at 1, ret at 1.
    destruct (upstream_run_stage_returns w RiskAssessment s1 m1)
      as (s3 & m3 & R3 & I3 & V3); [tauto|].
    exists s3, m3. split; [exact R3|]. split; congruence.
Qed.

Lemma upstream_keeps_input_and_review w initial m state m1 :
  upstream w initial m = (Ret state, m1) ->
  st_input state = st_input initial /\ st_review state = st_review initial.
Proof.
  intros U. destruct (upstream_returns w initial m) as (s & m' & U' & H).
  rewrite U in U'. injection U' as -> ->. exact H.
Qed.

(** ** Runs *)

(** Report generation is the last stage: from it the run completes. *)
Lemma execute_report w limit state m :
  execute w (S limit) GenerateReport state m =
    (Ret (merge (output_update
                   (mkOutput (Some (build_recommendations state))
                      (Some (PyStr.join newline (report_sections w (session m) state)))
                      (Some true) (Some (clock_text w))
                      (Some (clock w - get (analysis_start_time (session m)) (clock w))%Q)))
                state),
     mkMachine (tracked "report_generation" (session m)) (llm_calls m) (draws m)
       (trace m ++ [EvSleep 0.5])%list).
Proof.
  rewrite (execute_step w limit GenerateReport state m _ _
             (report_generation_node_returns w state m)).
  reflexivity.
Qed.

(** A run is its upstream part followed by the routing after risk
    assessment, with at least two nodes left under the recursion limit. *)
Lemma run_split w initial m :
  exists limit,
    2 <= limit /\
    run w initial m
      = (state <- upstream w initial ;; continue_after w limit RiskAssessment state) m.
Proof.
  unfold run, recursion_limit. rewrite execute_unfold.
  unfold upstream, run_stage, bind, ret. cbv beta.
  destruct (node w ContentAnalysis initial m) as [[u|e|c] m1]; cbv beta iota;
    [|exists 2; split; [lia | reflexivity]..].
  unfold continue_after at 1. unfold bind. cbv beta.
  rewrite edge_target_after_analysis. cbv beta iota.
  destruct (String.eqb _ "verification"); cbv beta iota.
  - rewrite execute_unfold. unfold bind. cbv beta.
    destruct (node w Verification (apply_update u initial) m1) as [[u2|e|c] m2];
      cbv beta iota; [|exists 2; split; [lia | reflexivity]..].
    unfold continue_after at 1. unfold bind, next_stage, ret. cbv beta iota.
    rewrite execute_unfold. unfold bind. cbv beta.
    exists 22. split; [lia|].
    destruct (node w RiskAssessment (apply_update u2 (apply_update u initial)) m2)
      as [[u3|e|c] m3]; reflexivity.
  - rewrite execute_unfold. unfold bind. cbv beta.
    exists 23. split; [lia|].
    destruct (node w RiskAssessment (apply_update u initial) m1)
      as [[u3|e|c] m3]; reflexivity.
Qed.

(** With a low risk and no forced review the run goes straight to the
    report. *)
Lemma continue_after_low_risk w limit state m :
  risk_level (st_risk state) = Some "low" ->
  get (force_human_review (st_input state)) false = false ->
  continue_after w (S limit) RiskAssessment state m
    = execute w (S limit) GenerateReport state m.
Proof.
  intros R F. unfold continue_after, bind. rewrite edge_target_after_risk.
  unfold route_by_risk_level. rewrite R, F. reflexivity.
Qed.

(** With a high or critical risk, or a forced review, the run is routed to
    the human review. *)
Lemma continue_after_review_required w limit state m :
  In (get (risk_level (st_risk state)) "low") ["critical"; "high"]
  \/ get (force_human_review (st_input state)) false = true ->
  route_by_risk_level (session m) state = "human_review" /\
  continue_after w limit RiskAssessment state m = execute w limit HumanReview state m.
Proof.
  intros H.
  assert (R : route_by_risk_level (session m) state = "human_review").
  { unfold route_by_risk_level.
    destruct H as [H | H].
    - simpl in H. destruct H as [<- | [<- | []]]; reflexivity.
    - rewrite H, orb_true_r. reflexivity. }
  split; [exact R|].
  unfold continue_after, bind. rewrite edge_target_after_risk, R. reflexivity.
Qed.

(** The human review of a risk that is not low, with no decision recorded
    in the session, halts the script without returning an update. *)
Lemma human_review_node_suspends w state m :
  review_decision (session m) = None ->
  get (risk_level (st_risk state)) "low" <> "low" ->
  exists c m', human_review_node w state m = (Halt c, m').
Proof.
  intros D R.
  unfold human_review_node.
  assert (B : exists c m', human_review_body w state m = (Halt c, m')).
  { unfold human_review_body, bind, get_session. rewrite D.
    destruct (String.eqb_spec (get (risk_level (st_risk state)) "low") "low") as [E|_];
      [contradiction|].
    simpl. destruct (clicked w) as [[| | |]|]; simpl; eexists; eexists; reflexivity. }
  destruct B as (c & m' & B). exists c, m'.
  exact (error_boundary_halt _ _ _ _ _ B).
Qed.

(** The part of C1 the code meets: a run assessed high or critical, or a
    forced review of a risk that is not low, suspends at the human review,
    before report generation. *)
Lemma high_risk_run_suspends w initial m state m1 :
  upstream w initial m = (Ret state, m1) ->
  review_decision (session m1) = None ->
  In (get (risk_level (st_risk state)) "low") ["critical"; "high"]
  \/ (get (force_human_review (st_input initial)) false = true
      /\ get (risk_level (st_risk state)) "low" <> "low") ->
  exists c m', run w initial m = (Halt c, m').
Proof.
  intros U D H.
  destruct (upstream_keeps_input_and_review w initial m state m1 U) as (I & _).
  rewrite <- I in H.
  destruct (run_split w initial m) as (limit & L & ->).
  unfold bind at 1. rewrite U.
  destruct limit as [|limit]; [lia|].
  assert (NL : get (risk_level (st_risk state)) "low" <> "low").
  { destruct H as [H | [_ H]]; [|exact H].
    simpl in H. destruct H as [<- | [<- | []]]; discriminate. }
  destruct (continue_after_review_required w (S limit) state m1) as (_ & ->).
  { destruct H as [H | [H _]]; [left; exact H | right; exact H]. }
  destruct (human_review_node_suspends w state m1 D NL) as (c & m' & S).
  exists c, m'. exact (execute_halts w limit HumanReview state m1 c m' S).
Qed.

(** The part of C1 the code misses, in general: a forced review of a run
    whose risk level is low (or absent) is approved by the stage itself, and
    the run completes. *)
Lemma forced_low_risk_run_completes w initial m state m1 :
  upstream w initial m = (Ret state, m1) ->
  review_decision (session m1) = None ->
  get (risk_level (st_risk state)) "low" = "low" ->
  get (force_human_review (st_input initial)) false = true ->
  exists final m',
    run w initial m = (Ret final, m') /\
    human_approval (st_review final) = Some "auto_approved" /\
    review_status (st_review final) = Some "no_review_needed" /\
    processing_complete (st_output final) = Some true.
Proof.
  intros U D R F.
  destruct (upstream_keeps_input_and_review w initial m state m1 U) as (I & _).
  rewrite <- I in F.
  destruct (run_split w initial m) as (limit & L & ->).
  unfold bind at 1. rewrite U.
  destruct limit as [|[|limit]]; [lia | lia |].
  destruct (continue_after_review_required w (S (S limit)) state m1) as (_ & ->);
    [right; exact F|].
  assert (N : human_review_node w state m1 =
              (Ret (Some (review_update
                            (mkReview (Some "auto_approved") (Some "no_review_needed")
                                      (Some "")))), m1)).
  { apply error_boundary_ret.
    unfold human_review_body, bind, get_session. rewrite D, R. reflexivity. }
  rewrite (execute_step w (S limit) HumanReview state m1 _ _ N).
  unfold continue_after, bind, next_stage, ret. cbv beta iota.
  rewrite execute_report.
  eexists. eexists. split; [reflexivity|].
  destruct state as [i a v r h o]. repeat split.
Qed.

(** C1 at its failing input: a review forced on a run assessed low is routed
    to the human review, and the stage approves it on the spot; the run
    completes with a report and never suspends. *)
Theorem forced_review_of_low_risk_is_auto_approved :
  route_by_risk_level fresh_session
    (mkState (mkInput (Some "hello world") (Some "") (Some true) (Some true))
       no_analysis no_verification (mkRisk None (Some "low") None None None None)
       no_review no_output) = "human_review" /\
  human_review_node (calm_world "low")
    (mkState (mkInput (Some "hello world") (Some "") (Some true) (Some true))
       no_analysis no_verification (mkRisk None (Some "low") None None None None)
       no_review no_output) fresh_machine
  = (Ret (Some (review_update
                  (mkReview (Some "auto_approved") (Some "no_review_needed") (Some "")))),
     fresh_machine) /\
  exists final m',
    run (calm_world "low") (initial_state "hello world" true true) fresh_machine
      = (Ret final, m') /\
    force_human_review (st_input final) = Some true /\
    risk_level (st_risk final) = Some "low" /\
    human_approval (st_review final) = Some "auto_approved" /\
    review_status (st_review final) = Some "no_review_needed" /\
    processing_complete (st_output final) = Some true.
Proof.
  split; [reflexivity|]. split; [reflexivity|].
  eexists. eexists. split; [vm_compute; reflexivity|].
  repeat split.
Qed.

(** C5 at its failing input: the risk reply does not decode; the stage
    shows the API error and raises, the error boundary around it turns the
    exception into the result [None], and the run goes on to a report that
    rates the content by the default risk level. *)
Theorem risk_assessment_failure_is_swallowed :
  (exists m',
     risk_assessment_node garbled_world (initial_state "some text" false true)
       fresh_machine = (Ret None, m') /\
     trace m' =
       [EvInvoke (RiskPrompt "some text");
        EvError "❌ Openrouter API error: Expecting value: line 1 column 1 (char 0)";
        EvError "An error occurred in wrapper: Expecting value: line 1 column 1 (char 0)"]) /\
  exists final m',
    run garbled_world (initial_state "some text" false true) fresh_machine
      = (Ret final, m') /\
    risk_level (st_risk final) = None /\
    processing_complete (st_output final) = Some true /\
    recommendations (st_output final)
      = Some ["✅ **CLEAR**: Content appears safe for standard publication"] /\
    exists report, final_report (st_output final) = Some report
                   /\ PyStr.contains "- **Risk Level:** UNKNOWN" report = true.
Proof.
  split.
  - eexists. split; [vm_compute; reflexivity | reflexivity].
  - eexists. eexists. split; [vm_compute; reflexivity|].
    split; [reflexivity|]. split; [reflexivity|]. split; [reflexivity|].
    eexists. split; [reflexivity | vm_compute; reflexivity].
Qed.

(** Whatever the world, a reply of the risk prompt that does not decode
    makes the registered stage return [None]. *)
Lemma risk_assessment_decode_failure_returns_none w state m txt raw msg :
  llm_client w = true ->
  text (st_input state) = Some txt ->
  llm_invoke w (llm_calls m) (RiskPrompt txt) = Content raw ->
  json_risk w raw = DecodeFailed msg ->
  exists m', risk_assessment_node w state m = (Ret None, m').
Proof.
  intros L T I D.
  assert (B : exists m', risk_assessment_body w state m
                         = (Raise (mkExn JSONDecodeError msg), m')).
  { unfold risk_assessment_body, state_text. rewrite L, T.
    change (negb true) with false. cbv iota.
    unfold bind, try_except, ret, invoke. cbv beta iota. rewrite I.
    cbv beta iota. rewrite D. eexists. reflexivity. }
  destruct B as (m' & B).
  pose proof (performance_monitor_raise "risk_assessment" _ _ _ _ B) as P.
  pose proof (error_boundary_raise "wrapper" _ _ _ _ P) as E.
  eexists. exact E.
Qed.

(** C7, as stated, fails: a run assessed low without forced review
    completes without entering the human review, so no stage writes
    [human_approval]; the terminal State has no such key. *)
Lemma low_risk_run_leaves_human_approval_absent :
  exists final m',
    run (calm_world "low") (initial_state "hello world" false true) fresh_machine
      = (Ret final, m') /\
    text (st_input final) = Some "hello world" /\
    force_human_review (st_input final) = Some false /\
    risk_level (st_risk final) = Some "low" /\
    human_approval (st_review final) = None /\
    human_approval (st_review final) <> Some "auto_approved".
Proof.
  eexists. eexists. split; [vm_compute; reflexivity|].
  repeat split. discriminate.
Qed.

(** C7 (amended): when risk assessment leaves a low risk level and the
    review is not forced, the run completes without suspending: it goes from
    the routing straight to report generation, the human review is not
    entered and the review fields stay as they were, so a State that had no
    [human_approval] ends without one and is read as auto_approved by
    default. *)
Theorem low_risk_run_completes w initial m state m1 :
  upstream w initial m = (Ret state, m1) ->
  risk_level (st_risk state) = Some "low" ->
  get (force_human_review (st_input initial)) false = false ->
  exists final m',
    run w initial m = (Ret final, m') /\
    st_review final = st_review initial /\
    trace m' = (trace m1 ++ [EvSleep 0.5])%list /\
    review_decision (session m') = review_decision (session m1) /\
    processing_complete (st_output final) = Some true /\
    (human_approval (st_review initial) = None ->
     human_approval (st_review final) = None /\
     get (human_approval (st_review final)) "auto_approved" = "auto_approved").
Proof.
  intros U R F.
  destruct (upstream_keeps_input_and_review w initial m state m1 U) as (I & V).
  rewrite <- I in F. rewrite <- V.
  destruct (run_split w initial m) as (limit & L & ->).
  unfold bind at 1. rewrite U.
  destruct limit as [|limit]; [lia|].
  rewrite (continue_after_low_risk w limit state m1 R F), execute_report.
  eexists. eexists. split; [reflexivity|].
  split; [destruct state as [i a v r [ha rs rn] o]; reflexivity|].
  split; [reflexivity|]. split; [reflexivity|]. split; [reflexivity|].
  intros H. destruct state as [i a v r [ha rs rn] o]. simpl in H. subst ha.
  split; reflexivity.
Qed.

Lemma low_risk_run_completes_witness :
  exists final m',
    run (calm_world "low") (initial_state "hello world" false true) fresh_machine
      = (Ret final, m') /\
    processing_complete (st_output final) = Some true /\
    human_approval (st_review final) = None.
Proof.
  edestruct (low_risk_run_completes (calm_world "low")
               (initial_state "hello world" false true) fresh_machine)
    as (final & m' & R & _ & _ & _ & P & A).
  - vm_compute. reflexivity.
  - reflexivity.
  - reflexivity.
  - exists final, m'. split; [exact R|]. split; [exact P|].
    apply A. reflexivity.
Defined.

(** * Further properties *)

(** ** The human review, case by case *)

Lemma human_review_with_decision w state m decision :
  review_decision (session m) = Some decision ->
  human_review_node w state m =
    (Ret (Some (review_update
                  (mkReview (Some decision) (Some "reviewed")
                            (Some (get (reviewer_notes_key (session m)) ""))))),
     mkMachine (popped (session m)) (llm_calls m) (draws m) (trace m)).
Proof.
  intros D. apply error_boundary_ret.
  unfold human_review_body, bind, get_session. rewrite D. reflexivity.
Qed.

Lemma human_review_of_low_risk w state m :
  review_decision (session m) = None ->
  get (risk_level (st_risk state)) "low" = "low" ->
  human_review_node w state m =
    (Ret (Some (review_update
                  (mkReview (Some "auto_approved") (Some "no_review_needed") (Some "")))),
     m).
Proof.
  intros D R. apply error_boundary_ret.
  unfold human_review_body, bind, get_session. rewrite D, R. reflexivity.
Qed.

Lemma human_review_prompt w state m :
  review_decision (session m) = None ->
  get (risk_level (st_risk state)) "low" <> "low" ->
  human_review_node w state m =
    (Halt (match clicked w with None => StStop | Some _ => StRerun end),
     mkMachine (match clicked w with
                | None => session m
                | Some b => decided (decision_of b) (session m)
                end) (llm_calls m) (draws m)
       ((trace m
         ++ [EvWarning ("Human Review Required - Risk: "
                        ++ PyStr.upper (get (risk_level (st_risk state)) "low"))])
        ++ [EvWrite ("**Summary:** " ++ get (summary (st_analysis state)) "N/A")])%list).
Proof.
  intros D R. apply error_boundary_halt.
  unfold human_review_body, bind, get_session. rewrite D.
  destruct (String.eqb_spec (get (risk_level (st_risk state)) "low") "low") as [E|_];
    [contradiction|].
  destruct m as [s calls dr tr]. simpl.
  destruct (clicked w) as [[| | |]|]; reflexivity.
Qed.

(** ** The rest of a run after risk assessment *)

Lemma continue_after_report_routed w limit state m :
  route_by_risk_level (session m) state = "generate_report" ->
  continue_after w limit RiskAssessment state m = execute w limit GenerateReport state m.
Proof.
  intros R. unfold continue_after, bind. rewrite edge_target_after_risk, R. reflexivity.
Qed.

Lemma continue_after_review_routed w limit state m :
  route_by_risk_level (session m) state = "human_review" ->
  continue_after w limit RiskAssessment state m = execute w limit HumanReview state m.
Proof.
  intros R. unfold continue_after, bind. rewrite edge_target_after_risk, R. reflexivity.
Qed.

Lemma execute_report_any_limit w limit limit' state m :
  execute w (S limit) GenerateReport state m = execute w (S limit') GenerateReport state m.
Proof. now rewrite !execute_report. Qed.

Lemma execute_review_any_limit w limit limit' state m :
  execute w (S (S limit)) HumanReview state m
    = execute w (S (S limit')) HumanReview state m.
Proof.
  rewrite !execute_unfold. unfold bind.
  destruct (node w HumanReview state m) as [[u|e|c] m']; reflexivity.
Qed.

(** The recursion limit plays no part once two nodes may still run. *)
Lemma continue_after_any_limit w limit state m :
  2 <= limit ->
  continue_after w limit RiskAssessment state m
    = continue_after w 2 RiskAssessment state m.
Proof.
  intros L. destruct limit as [|[|limit]]; [lia | lia |].
  destruct (route_by_risk_level_cases (session m) state) as [R|R].
  - rewrite !(continue_after_review_routed _ _ _ _ R). apply execute_review_any_limit.
  - rewrite !(continue_after_report_routed _ _ _ _ R). apply execute_report_any_limit.
Qed.

Lemma run_after_upstream w initial m state m1 :
  upstream w initial m = (Ret state, m1) ->
  run w initial m = continue_after w 2 RiskAssessment state m1.
Proof.
  intros U. destruct (run_split w initial m) as (limit & L & ->).
  unfold bind at 1. rewrite U. now apply continue_after_any_limit.
Qed.

(** The review stage followed by the report. *)
Lemma execute_review_then_report w state m update m' :
  human_review_node w state m = (Ret update, m') ->
  execute w 2 HumanReview state m
    = execute w 1 GenerateReport (apply_update update state) m'.
Proof.
  intros N. rewrite (execute_step w 1 HumanReview state m update m' N). reflexivity.
Qed.

Lemma build_recommendations_not_empty state : build_recommendations state <> [].
Proof.
  unfold build_recommendations.
  destruct (append_content_recommendation_app
              (get (content_type (st_analysis state)) "unknown")
              (insert_review_recommendation
                 (get (human_approval (st_review state)) "auto_approved")
                 (risk_recommendations (get (risk_level (st_risk state)) "unknown"))))
    as (rest & ->).
  unfold insert_review_recommendation, risk_recommendations.
  repeat match goal with |- context [if ?b then _ else _] => destruct b end;
    discriminate.
Qed.

Lemma prefix_app a b : String.prefix a (a ++ b) = true.
Proof.
  induction a as [|c a IH]; simpl; [now destruct b|].
  destruct (ascii_dec c c) as [_|N]; [exact IH | now elim N].
Qed.

Lemma concat_two_or_more sep h x l :
  String.concat sep (h :: x :: l) = h ++ sep ++ String.concat sep (x :: l).
Proof. reflexivity. Qed.

Lemma report_starts_with_header w sess state :
  String.prefix "## 📊 **Content Analysis Report**"
    (PyStr.join newline (report_sections w sess state)) = true.
Proof.
  unfold PyStr.join, report_sections. cbn [List.app].
  rewrite concat_two_or_more. apply prefix_app.
Qed.

(** ** Whole runs *)

Lemma report_outcome w limit state m final m' :
  execute w (S limit) GenerateReport state m = (Ret final, m') ->
  processing_complete (st_output final) = Some true /\
  recommendations (st_output final) = Some (build_recommendations state) /\
  final_report (st_output final)
    = Some (PyStr.join newline (report_sections w (session m) state)) /\
  st_input final = st_input state /\
  st_review final = st_review state /\
  review_decision (session m') = review_decision (session m).
Proof.
  rewrite execute_report. intros H. injection H as <- <-.
  destruct state as [[? ? ? ?] a v r [? ? ?] o]. repeat split.
Qed.

(** X1: no exception escapes a run.  Whatever the collaborators do, a run
    either completes or is halted by the review prompt: every stage sits
    under the error boundary, every routing answer has an edge and the
    recursion limit is never reached. *)
Theorem run_never_raises w initial m e : fst (run w initial m) <> Raise e.
Proof.
  destruct (upstream_returns w initial m) as (state & m1 & U & _).
  rewrite (run_after_upstream w initial m state m1 U).
  destruct (route_by_risk_level_cases (session m1) state) as [R|R].
  - rewrite (continue_after_review_routed _ _ _ _ R), execute_unfold.
    unfold bind.
    destruct (node w HumanReview state m1) as [[u|e'|c] m2] eqn:N.
    + unfold continue_after, bind, next_stage, ret. cbv beta iota.
      rewrite execute_report. discriminate.
    + exfalso. apply (error_boundary_never_raises "human_review_node"
                        (human_review_body w state) m1 e').
      unfold node in N. unfold human_review_node in N. now rewrite N.
    + discriminate.
  - rewrite (continue_after_report_routed _ _ _ _ R), execute_report. discriminate.
Qed.

(** X2: what an update of report generation always looks like.  An update
    the stage returns holds the five output keys: the recommendations built
    from the State, between one and six of them, a report that opens with
    the report header, [processing_complete = True], a time stamp and a
    processing time.  The stage has paused half a second and left the
    review decision of the session alone. *)
Theorem report_update_invariant w state m u m' :
  report_generation_node w state m = (Ret (Some u), m') ->
  exists recs report stamp elapsed,
    u = output_update
          (mkOutput (Some recs) (Some report) (Some true) (Some stamp) (Some elapsed)) /\
    recs = build_recommendations state /\
    1 <= length recs <= 6 /\
    String.prefix "## 📊 **Content Analysis Report**" report = true /\
    trace m' = (trace m ++ [EvSleep 0.5])%list /\
    review_decision (session m') = review_decision (session m).
Proof.
  rewrite report_generation_node_returns. intros H. injection H as <- <-.
  eexists. eexists. eexists. eexists. split; [reflexivity|]. split; [reflexivity|].
  split; [|split; [apply report_starts_with_header | split; reflexivity]].
  unfold build_recommendations, append_content_recommendation,
    insert_review_recommendation, risk_recommendations.
  repeat match goal with |- context [if ?b then _ else _] => destruct b end;
    rewrite ?length_app; simpl; lia.
Qed.

Lemma report_update_invariant_witness :
  exists recs report stamp elapsed m',
    report_generation_node (calm_world "critical")
      (assessed_state "critical" (Some "rejected")) fresh_machine
      = (Ret (Some (output_update
                      (mkOutput (Some recs) (Some report) (Some true)
                         (Some stamp) (Some elapsed)))), m') /\
    length recs = 5 /\
    String.prefix "## 📊 **Content Analysis Report**" report = true.
Proof.
  destruct (report_update_invariant (calm_world "critical")
              (assessed_state "critical" (Some "rejected")) fresh_machine _ _
              (report_generation_node_returns _ _ _))
    as (recs & report & stamp & elapsed & U & Rc & _ & Pf & _).
  exists recs, report, stamp, elapsed. eexists.
  split; [|split; [rewrite Rc; reflexivity | exact Pf]].
  rewrite report_generation_node_returns, U. reflexivity.
Defined.

(** X3: a run is halted for one reason only.  When a run does not complete,
    risk assessment had finished, the routing had chosen the human review,
    no decision was recorded in the session and the risk level was not low;
    the script is stopped, or rerun with the decision of the button that was
    pressed recorded in the session. *)
Theorem run_halts_only_for_review w initial m c m' :
  run w initial m = (Halt c, m') ->
  exists state m1,
    upstream w initial m = (Ret state, m1) /\
    review_decision (session m1) = None /\
    route_by_risk_level (session m1) state = "human_review" /\
    get (risk_level (st_risk state)) "low" <> "low" /\
    c = (match clicked w with None => StStop | Some _ => StRerun end) /\
    review_decision (session m') = option_map decision_of (clicked w).
Proof.
  intros H.
  destruct (upstream_returns w initial m) as (state & m1 & U & _).
  rewrite (run_after_upstream w initial m state m1 U) in H.
  exists state, m1. split; [exact U|].
  destruct (route_by_risk_level_cases (session m1) state) as [R|R].
  - rewrite (continue_after_review_routed _ _ _ _ R) in H.
    destruct (review_decision (session m1)) as [d|] eqn:D.
    + rewrite (execute_review_then_report w state m1 _ _
                 (human_review_with_decision w state m1 d D)), execute_report in H.
      discriminate.
    + destruct (String.eqb_spec (get (risk_level (st_risk state)) "low") "low") as [L|L].
      * rewrite (execute_review_then_report w state m1 _ _
                   (human_review_of_low_risk w state m1 D L)), execute_report in H.
        discriminate.
      * rewrite (execute_halts w 1 HumanReview state m1 _ _
                   (human_review_prompt w state m1 D L)) in H.
        injection H as <- <-.
        split; [reflexivity|]. split; [exact R|]. split; [exact L|].
        split; [reflexivity|].
        destruct (clicked w) as [b|]; [reflexivity | exact D].
  - rewrite (continue_after_report_routed _ _ _ _ R), execute_report in H.
    discriminate.
Qed.

Lemma run_halts_only_for_review_witness :
  exists state m1,
    upstream (calm_world "critical") (initial_state "hello world" false true)
      fresh_machine = (Ret state, m1) /\
    route_by_risk_level (session m1) state = "human_review" /\
    get (risk_level (st_risk state)) "low" <> "low".
Proof.
  destruct (run_halts_only_for_review (calm_world "critical")
              (initial_state "hello world" false true) fresh_machine StStop
              (snd (run (calm_world "critical")
                      (initial_state "hello world" false true) fresh_machine)))
    as (state & m1 & U & _ & R & L & _); [vm_compute; reflexivity|].
  exists state, m1. split; [exact U|]. split; [exact R | exact L].
Defined.

(** X4: the converse.  When the run reaches a review it is routed to (a
    high or critical risk, a forced review, or a medium risk under the
    "thorough" preference) with no decision in the session and a risk level
    that is not low, it is halted after the review prompt (a warning with
    the risk level in capitals and the summary) and returns no State. *)
Theorem review_without_decision_halts_run w initial m state m1 :
  upstream w initial m = (Ret state, m1) ->
  review_decision (session m1) = None ->
  route_by_risk_level (session m1) state = "human_review" ->
  get (risk_level (st_risk state)) "low" <> "low" ->
  exists m',
    run w initial m
      = (Halt (match clicked w with None => StStop | Some _ => StRerun end), m') /\
    trace m' =
      (trace m1
       ++ [EvWarning ("Human Review Required - Risk: "
                      ++ PyStr.upper (get (risk_level (st_risk state)) "low"));
           EvWrite ("**Summary:** " ++ get (summary (st_analysis state)) "N/A")])%list.
Proof.
  intros U D R L.
  rewrite (run_after_upstream w initial m state m1 U).
  rewrite (continue_after_review_routed _ _ _ _ R).
  rewrite (execute_halts w 1 HumanReview state m1 _ _
             (human_review_prompt w state m1 D L)).
  eexists. split; [reflexivity|].
  cbn [trace]. now rewrite <- app_assoc.
Qed.

Lemma review_without_decision_halts_run_witness :
  exists m',
    run (calm_world "medium") (initial_state "hello world" false true)
      (mkMachine (session_with_speed "thorough") 0 0 []) = (Halt StStop, m').
Proof.
  edestruct (review_without_decision_halts_run (calm_world "medium")
               (initial_state "hello world" false true)
               (mkMachine (session_with_speed "thorough") 0 0 []))
    as (m' & R & _).
  - vm_compute. reflexivity.
  - reflexivity.
  - reflexivity.
  - discriminate.
  - exists m'. exact R.
Defined.

(** X5: resuming.  When the session holds a decision as the run reaches a
    review it is routed to, the review returns at once: the run completes,
    the State records the decision as [human_approval] with status
    "reviewed" and the notes of the session, and the decision is removed
    from the session. *)
Theorem recorded_decision_completes_run w initial m state m1 decision :
  upstream w initial m = (Ret state, m1) ->
  review_decision (session m1) = Some decision ->
  route_by_risk_level (session m1) state = "human_review" ->
  exists final m',
    run w initial m = (Ret final, m') /\
    human_approval (st_review final) = Some decision /\
    review_status (st_review final) = Some "reviewed" /\
    reviewer_notes (st_review final)
      = Some (get (reviewer_notes_key (session m1)) "") /\
    review_decision (session m') = None /\
    processing_complete (st_output final) = Some true.
Proof.
  intros U D R.
  rewrite (run_after_upstream w initial m state m1 U).
  rewrite (continue_after_review_routed _ _ _ _ R).
  rewrite (execute_review_then_report w state m1 _ _
             (human_review_with_decision w state m1 decision D)).
  rewrite execute_report.
  eexists. eexists. split; [reflexivity|].
  destruct state as [[? ? ? ?] ? ? ? [? ? ?] ?]. repeat split.
Qed.

Lemma recorded_decision_completes_run_witness :
  exists final m',
    run (calm_world "high") (initial_state "hello world" false true)
      (machine_with_decision "rejected" "fails fact check") = (Ret final, m') /\
    human_approval (st_review final) = Some "rejected" /\
    reviewer_notes (st_review final) = Some "fails fact check" /\
    review_decision (session m') = None.
Proof.
  edestruct (recorded_decision_completes_run (calm_world "high")
               (initial_state "hello world" false true)
               (machine_with_decision "rejected" "fails fact check"))
    as (final & m' & Run & A & _ & N & D & _).
  - vm_compute. reflexivity.
  - reflexivity.
  - reflexivity.
  - exists final, m'. split; [exact Run|]. split; [exact A|]. split; [exact N | exact D].
Defined.

(** ** What a computation adds to the trace *)

Section Confined.
Variable P : Event -> Prop.
Hypothesis P_other : forall ev, is_lookup ev = false -> P ev.

Lemma confined_same_trace {A} (c : M A) :
  (forall m, trace (snd (c m)) = trace m) -> confined P 0 c.
Proof.
  intros H m. exists []. rewrite H, app_nil_r.
  split; [reflexivity|]. split; [constructor | apply Nat.le_refl].
Qed.

Lemma confined_weaken {A} k k' (c : M A) :
  confined P k c -> k <= k' -> confined P k' c.
Proof.
  intros H L m. destruct (H m) as (evs & T & F & C).
  exists evs. split; [exact T|]. split; [exact F | lia].
Qed.

Lemma confined_bind {A B} k1 k2 (c : M A) (k : A -> M B) :
  confined P k1 c -> (forall a, confined P k2 (k a)) -> confined P (k1 + k2) (bind c k).
Proof.
  intros Hc Hk m. unfold bind.
  destruct (Hc m) as (evs1 & T1 & F1 & C1).
  destruct (c m) as [[a|e|h] m1]; simpl in *.
  - destruct (Hk a m1) as (evs2 & T2 & F2 & C2).
    exists (evs1 ++ evs2)%list. rewrite T2, T1, app_assoc.
    split; [reflexivity|].
    split; [apply Forall_app; split; assumption|].
    rewrite count_invokes_app. lia.
  - exists evs1. split; [exact T1|]. split; [exact F1 | lia].
  - exists evs1. split; [exact T1|]. split; [exact F1 | lia].
Qed.

Lemma confined_try_except {A} k1 k2 (body : M A) (handler : Exn -> M A) :
  confined P k1 body -> (forall e, confined P k2 (handler e)) ->
  confined P (k1 + k2) (try_except body handler).
Proof.
  intros Hb Hh m. unfold try_except.
  destruct (Hb m) as (evs1 & T1 & F1 & C1).
  destruct (body m) as [[a|e|h] m1]; simpl in *.
  - exists evs1. split; [exact T1|]. split; [exact F1 | lia].
  - destruct (Hh e m1) as (evs2 & T2 & F2 & C2).
    exists (evs1 ++ evs2)%list. rewrite T2, T1, app_assoc.
    split; [reflexivity|].
    split; [apply Forall_app; split; assumption|].
    rewrite count_invokes_app. lia.
  - exists evs1. split; [exact T1|]. split; [exact F1 | lia].
Qed.

(** The two sequencing rules at grade 0, for the steps that never call the
    LLM. *)
Lemma quiet_bind {A B} (c : M A) (k : A -> M B) :
  confined P 0 c -> (forall a, confined P 0 (k a)) -> confined P 0 (bind c k).
Proof. intros Hc Hk. exact (confined_bind 0 0 c k Hc Hk). Qed.

Lemma quiet_try_except {A} (body : M A) (handler : Exn -> M A) :
  confined P 0 body -> (forall e, confined P 0 (handler e)) ->
  confined P 0 (try_except body handler).
Proof. intros Hb Hh. exact (confined_try_except 0 0 body handler Hb Hh). Qed.

Lemma confined_ret {A} (a : A) : confined P 0 (ret a).
Proof. apply confined_same_trace. reflexivity. Qed.

Lemma confined_raise {A} e : confined P 0 (@raise A e).
Proof. apply confined_same_trace. reflexivity. Qed.

Lemma confined_halt {A} c : confined P 0 (@halt A c).
Proof. apply confined_same_trace. reflexivity. Qed.

Lemma confined_get_session : confined P 0 get_session.
Proof. apply confined_same_trace. reflexivity. Qed.

Lemma confined_put_session s : confined P 0 (put_session s).
Proof. apply confined_same_trace. reflexivity. Qed.

Lemma confined_random_uniform w : confined P 0 (random_uniform w).
Proof. apply confined_same_trace. reflexivity. Qed.

Lemma confined_log_error e context : confined P 0 (log_error e context).
Proof. apply confined_same_trace. reflexivity. Qed.

Lemma confined_track_performance name : confined P 0 (track_performance name).
Proof. apply confined_same_trace. reflexivity. Qed.

Lemma confined_pop_review_decision : confined P 0 pop_review_decision.
Proof. apply confined_same_trace. reflexivity. Qed.

Lemma confined_set_review_decision d : confined P 0 (set_review_decision d).
Proof. apply confined_same_trace. reflexivity. Qed.

Lemma confined_state_text state : confined P 0 (state_text state).
Proof.
  apply confined_same_trace. intros m. unfold state_text.
  destruct (text (st_input state)); reflexivity.
Qed.

Lemma confined_require {A} (field : option A) key : confined P 0 (require field key).
Proof.
  apply confined_same_trace. intros m. unfold require. destruct field; reflexivity.
Qed.

Lemma confined_emit ev :
  is_lookup ev = false -> count_invokes [ev] = 0 -> confined P 0 (emit ev).
Proof.
  intros L C m. exists [ev]. split; [reflexivity|].
  split; [constructor; [apply P_other; exact L | constructor] | now rewrite C].
Qed.

Lemma confined_sleep d : confined P 0 (sleep d).
Proof. apply confined_emit; reflexivity. Qed.

Lemma confined_invoke w message : confined P 1 (invoke w message).
Proof.
  intros m. exists [EvInvoke message]. unfold invoke.
  split; [destruct (llm_invoke w (llm_calls m) message); reflexivity|].
  split; [constructor; [apply P_other; reflexivity | constructor] | apply Nat.le_refl].
Qed.

Lemma confined_handle_api_error {A} e api_name :
  confined P 0 (@handle_api_error A e api_name).
Proof.
  unfold handle_api_error.
  apply quiet_bind; [apply confined_log_error | intros _].
  apply quiet_bind; [apply confined_emit; reflexivity | intros _].
  apply confined_raise.
Qed.

Lemma confined_error_boundary {A} k name (func : M A) :
  confined P k func -> confined P k (error_boundary name func).
Proof.
  intros H. unfold error_boundary.
  apply confined_weaken with (k := (k + 0) + 0); [|lia].
  apply confined_try_except.
  - apply confined_bind; [exact H | intros a; apply confined_ret].
  - intros e.
    apply quiet_bind; [apply confined_log_error | intros _].
    apply quiet_bind; [apply confined_emit; reflexivity | intros _].
    apply confined_ret.
Qed.

Lemma confined_performance_monitor {A} k name (func : M A) :
  confined P k func -> confined P k (performance_monitor name func).
Proof.
  intros H. unfold performance_monitor.
  apply confined_weaken with (k := (k + 0) + 0); [|lia].
  apply confined_try_except.
  - apply confined_bind; [exact H | intros a].
    apply quiet_bind; [apply confined_track_performance | intros _; apply confined_ret].
  - intros e.
    apply quiet_bind; [apply confined_track_performance | intros _; apply confined_raise].
Qed.

(** One step through a computation that makes no LLM call. *)
Ltac quiet_step :=
  match goal with
  | |- confined _ 0 (ret _) => apply confined_ret
  | |- confined _ 0 (raise _) => apply confined_raise
  | |- confined _ 0 (halt _) => apply confined_halt
  | |- confined _ 0 (sleep _) => apply confined_sleep
  | |- confined _ 0 (emit _) => apply confined_emit; reflexivity
  | |- confined _ 0 (log_error _ _) => apply confined_log_error
  | |- confined _ 0 (handle_api_error _ _) => apply confined_handle_api_error
  | |- confined _ 0 (set_review_decision _) => apply confined_set_review_decision
  | |- confined _ 0 pop_review_decision => apply confined_pop_review_decision
  | |- confined _ 0 get_session => apply confined_get_session
  | |- confined _ 0 (require _ _) => apply confined_require
  | |- confined _ 0 (bind _ _) => apply quiet_bind; [|intros ?]
  | |- confined _ 0 (try_except _ _) => apply quiet_try_except; [|intros ?]
  | |- confined _ 0 (if ?b then _ else _) => destruct b
  | |- confined _ 0 (match ?x with _ => _ end) => destruct x
  end.

Lemma confined_retry_loop w message max_retries :
  forall remaining attempt,
    confined P remaining (retry_loop w message max_retries attempt remaining).
Proof.
  induction remaining as [|remaining IH]; intros attempt; simpl retry_loop.
  - apply confined_raise.
  - change (S remaining) with (1 + remaining). apply confined_bind.
    + apply confined_weaken with (k := (1 + 0) + 0); [|lia].
      apply confined_try_except.
      * apply confined_bind; [apply confined_invoke | intros content].
        repeat quiet_step.
      * intros e. destruct (is_rate_limited e).
        -- apply quiet_bind; [apply confined_random_uniform | intros jitter].
           repeat quiet_step.
        -- repeat quiet_step.
    + intros [rsp|]; [apply confined_weaken with (k := 0); [apply confined_ret | lia]
                     | apply IH].
Qed.

Lemma confined_content_analysis_handler raw e :
  confined P 0 (content_analysis_handler raw e).
Proof. unfold content_analysis_handler. repeat quiet_step. Qed.

Lemma confined_content_analysis_node w state :
  confined P 4 (content_analysis_node w state).
Proof.
  unfold content_analysis_node.
  apply confined_error_boundary, confined_performance_monitor.
  unfold content_analysis_body.
  destruct (negb (llm_client w)).
  { apply confined_weaken with (k := 0); [apply confined_handle_api_error | lia]. }
  apply confined_weaken with (k := 0 + (((4 + 0) + 0) + 0)); [|lia].
  apply confined_bind; [apply confined_state_text | intros txt].
  apply confined_bind.
  - apply confined_try_except.
    + apply confined_bind; [apply confined_retry_loop | intros raw; apply confined_ret].
    + intros e. apply quiet_bind; [apply confined_content_analysis_handler|].
      intros u. apply confined_ret.
  - intros [raw|u]; [|apply confined_ret].
    apply quiet_try_except; [|intros e; apply confined_content_analysis_handler].
    repeat quiet_step.
Qed.

Lemma confined_risk_assessment_node w state :
  confined P 1 (risk_assessment_node w state).
Proof.
  unfold risk_assessment_node.
  apply confined_error_boundary, confined_performance_monitor.
  unfold risk_assessment_body.
  destruct (negb (llm_client w)).
  { apply confined_weaken with (k := 0); [apply confined_handle_api_error | lia]. }
  apply confined_weaken with (k := 0 + ((1 + 0) + 0)); [|lia].
  apply confined_bind; [apply confined_state_text | intros txt].
  apply confined_try_except; [|intros e; apply confined_handle_api_error].
  apply confined_bind; [apply confined_invoke | intros raw_json].
  repeat quiet_step.
Qed.

Lemma confined_human_review_node w state :
  confined P 0 (human_review_node w state).
Proof.
  unfold human_review_node. apply confined_error_boundary.
  unfold human_review_body. repeat quiet_step.
Qed.

Lemma confined_report_generation_node w state :
  confined P 0 (report_generation_node w state).
Proof.
  unfold report_generation_node.
  apply confined_error_boundary, confined_performance_monitor.
  unfold report_generation_body. repeat quiet_step.
Qed.

Lemma confined_run_stage k w stage state :
  confined P k (node w stage state) -> confined P k (run_stage w stage state).
Proof.
  intros H. unfold run_stage.
  apply confined_weaken with (k := k + 0); [|lia].
  apply confined_bind; [exact H | intros u; apply confined_ret].
Qed.

(** After risk assessment a run adds to the trace at most the review
    prompt and the pause of the report, and makes no LLM call. *)
Lemma confined_execute_report w state :
  confined P 0 (execute w 1 GenerateReport state).
Proof.
  intros m. rewrite execute_report.
  exists [EvSleep 0.5]. split; [reflexivity|].
  split; [constructor; [apply P_other; reflexivity | constructor] | apply Nat.le_refl].
Qed.

Lemma confined_continue_after_risk w state :
  confined P 0 (continue_after w 2 RiskAssessment state).
Proof.
  intros m.
  destruct (route_by_risk_level_cases (session m) state) as [R|R].
  - rewrite (continue_after_review_routed _ _ _ _ R), execute_unfold.
    assert (C : confined P (0 + 0)
                  (update <- node w HumanReview state ;;
                   continue_after w 1 HumanReview (apply_update update state))).
    { apply confined_bind; [apply confined_human_review_node | intros u].
      intros m0. unfold continue_after, next_stage, bind, ret. cbv beta iota.
      apply (confined_execute_report w (apply_update u state) m0). }
    apply C.
  - rewrite (continue_after_report_routed _ _ _ _ R).
    rewrite (execute_report_any_limit w 1 0). apply confined_execute_report.
Qed.

End Confined.

Lemma any_event_allowed (ev : Event) : is_lookup ev = false -> True.
Proof. intros _. exact I. Qed.

Lemma next_stage_keeps_machine stage state m : snd (next_stage stage state m) = m.
Proof.
  destruct stage; try reflexivity.
  - now rewrite edge_target_after_analysis.
  - now rewrite edge_target_after_risk.
Qed.

Lemma confined_next_stage P stage state : confined P 0 (next_stage stage state).
Proof.
  intros m. exists []. rewrite next_stage_keeps_machine, app_nil_r.
  split; [reflexivity|]. split; [constructor | apply Nat.le_refl].
Qed.

(** The verification stage makes no LLM call. *)
Lemma confined_verification_node w state :
  confined (fun _ => True) 0 (verification_node w state).
Proof.
  pose proof any_event_allowed as T.
  assert (E : forall ev, count_invokes [ev] = 0 -> confined (fun _ => True) 0 (emit ev)).
  { intros ev C m. exists [ev]. split; [reflexivity|].
    split; [repeat constructor | now rewrite C]. }
  assert (Q : forall A B (c : M A) (k : A -> M B),
             confined (fun _ => True) 0 c -> (forall a, confined (fun _ => True) 0 (k a)) ->
             confined (fun _ => True) 0 (bind c k)).
  { intros A B c k. apply (quiet_bind (fun _ => True)). }
  unfold verification_node.
  apply (confined_error_boundary _ T), confined_performance_monitor.
  unfold verification_body.
  destruct (negb _).
  - apply Q; [apply E; reflexivity | intros _].
    apply Q; [apply (confined_sleep _ T) | intros _]. apply confined_ret.
  - apply quiet_try_except.
    + apply Q.
      * unfold cached_news_search. apply Q; [apply E; reflexivity | intros _].
        destruct (news_api w _); [apply confined_ret | apply (confined_handle_api_error _ T)].
      * intros similar. apply Q.
        -- unfold cached_fact_check. apply Q; [apply E; reflexivity | intros _].
           destruct (fact_check_api w _);
             [apply confined_ret | apply (confined_handle_api_error _ T)].
        -- intros checks. apply Q; [apply (confined_sleep _ T) | intros _].
           apply confined_ret.
    + intros e. apply Q; [apply confined_log_error | intros _]. apply confined_ret.
Qed.

Lemma confined_upstream w initial : confined (fun _ => True) 5 (upstream w initial).
Proof.
  pose proof any_event_allowed as T.
  unfold upstream.
  apply confined_weaken with (k := 4 + (0 + (0 + 1))); [|lia].
  apply confined_bind.
  { apply confined_run_stage, (confined_content_analysis_node _ T). }
  intros analysed. apply confined_bind; [apply confined_next_stage | intros target].
  apply confined_bind.
  - destruct target as [[| | | |]|]; try apply confined_ret.
    apply confined_run_stage, confined_verification_node.
  - intros verified. apply confined_run_stage, (confined_risk_assessment_node _ T).
Qed.

(** X6: a run only appends to the trace, and among what it appends there
    are at most five calls of the LLM: up to four by content analysis and
    one by risk assessment. *)
Theorem run_calls_llm_at_most_five_times w initial m :
  exists evs,
    trace (snd (run w initial m)) = (trace m ++ evs)%list /\
    count_invokes evs <= 5.
Proof.
  destruct (upstream_returns w initial m) as (state & m1 & U & _).
  rewrite (run_after_upstream w initial m state m1 U).
  destruct (confined_upstream w initial m) as (evs1 & T1 & _ & C1).
  rewrite U in T1. simpl in T1.
  destruct (confined_continue_after_risk (fun _ => True) any_event_allowed w state m1)
    as (evs2 & T2 & _ & C2).
  exists (evs1 ++ evs2)%list. rewrite T2, T1, app_assoc.
  split; [reflexivity|]. rewrite count_invokes_app. lia.
Qed.

Lemma upstream_opted_out w initial m :
  get (include_external_verification (st_input initial)) true = false ->
  upstream w initial m
    = (analysed <- run_stage w ContentAnalysis initial ;;
       run_stage w RiskAssessment analysed) m.
Proof.
  intros O. unfold upstream.
  destruct (upstream_run_stage_returns w ContentAnalysis initial m)
    as (s1 & m1 & R1 & I1 & _); [tauto|].
  unfold bind at 1 4. rewrite R1.
  unfold bind at 1. rewrite edge_target_after_analysis.
  unfold should_include_verification. rewrite I1, O. reflexivity.
Qed.

(** X7: opting out of external verification is final.  When the input has
    [include_external_verification = False] the run makes no news search
    and no fact-check lookup, whatever the text says and whatever entities
    content analysis finds. *)
Theorem opted_out_run_makes_no_lookup w initial m :
  include_external_verification (st_input initial) = Some false ->
  exists evs,
    trace (snd (run w initial m)) = (trace m ++ evs)%list /\
    Forall (fun ev => is_lookup ev = false) evs.
Proof.
  intros O.
  assert (O' : get (include_external_verification (st_input initial)) true = false)
    by now rewrite O.
  destruct (upstream_returns w initial m) as (state & m1 & U & _).
  rewrite (run_after_upstream w initial m state m1 U).
  assert (C : confined not_lookup (4 + 1)
                (analysed <- run_stage w ContentAnalysis initial ;;
                 run_stage w RiskAssessment analysed)).
  { apply confined_bind.
    - apply confined_run_stage, confined_content_analysis_node. intros ev H; exact H.
    - intros analysed.
      apply confined_run_stage, confined_risk_assessment_node. intros ev H; exact H. }
  destruct (C m) as (evs1 & T1 & F1 & _).
  rewrite <- (upstream_opted_out w initial m O'), U in T1. simpl in T1.
  destruct (confined_continue_after_risk not_lookup (fun ev H => H) w state m1)
    as (evs2 & T2 & F2 & _).
  exists (evs1 ++ evs2)%list. rewrite T2, T1, app_assoc.
  split; [reflexivity|]. apply Forall_app. split; assumption.
Qed.

Lemma opted_out_run_makes_no_lookup_witness :
  exists evs,
    trace (snd (run (lookup_world [sample_article] [rated "False"])
                  (initial_state "BREAKING: leaked secret plans" false false)
                  fresh_machine))
      = (trace fresh_machine ++ evs)%list /\
    Forall (fun ev => is_lookup ev = false) evs.
Proof.
  apply (opted_out_run_makes_no_lookup (lookup_world [sample_article] [rated "False"])
           (initial_state "BREAKING: leaked secret plans" false false) fresh_machine).
  reflexivity.
Defined.

(** ** Content analysis: recovery from a reply that does not decode *)

Lemma merge_keeps_analysis u s :
  st_analysis u = no_analysis -> st_analysis (merge u s) = st_analysis s.
Proof.
  intros H. unfold merge. rewrite H. simpl.
  destruct s as [i [? ? ? ? ? ? ? ?] v r h o]. reflexivity.
Qed.

(** Verification and risk assessment write no classification key. *)
Lemma downstream_node_keeps_analysis w stage state m r m' :
  stage = Verification \/ stage = RiskAssessment ->
  node w stage state m = (Ret r, m') ->
  st_analysis (apply_update r state) = st_analysis state /\
  st_input (apply_update r state) = st_input state.
Proof.
  intros S N.
  assert (Y : yields (fun u => st_analysis u = no_analysis /\ keeps_input_and_review u)
                (match stage with
                 | Verification => verification_body w state
                 | _ => risk_assessment_body w state
                 end)).
  { destruct S as [-> | ->].
    - unfold verification_body. repeat yields_step; repeat split.
    - unfold risk_assessment_body. repeat yields_step; repeat split. }
  assert (K : forall u, r = Some u ->
                st_analysis u = no_analysis /\ keeps_input_and_review u).
  { destruct S as [-> | ->]; unfold node in N.
    - destruct (error_boundary_returns _ "wrapper" _ m
                  (yields_performance_monitor _ "verification" _ Y)) as (r0 & m0 & E & K).
      unfold verification_node in N. rewrite E in N. injection N as <- _. exact K.
    - destruct (error_boundary_returns _ "wrapper" _ m
                  (yields_performance_monitor _ "risk_assessment" _ Y)) as (r0 & m0 & E & K).
      unfold risk_assessment_node in N. rewrite E in N. injection N as <- _. exact K. }
  destruct r as [u|]; simpl; [|split; reflexivity].
  destruct (K u eq_refl) as (A & I).
  split; [now apply merge_keeps_analysis | now apply merge_keeps_input_and_review].
Qed.

(** With a client and a text, the first thing risk assessment does is to
    call the LLM with its prompt. *)
Lemma risk_assessment_calls_llm w state m txt :
  llm_client w = true ->
  text (st_input state) = Some txt ->
  exists rest,
    trace (snd (risk_assessment_node w state m))
      = (trace m ++ EvInvoke (RiskPrompt txt) :: rest)%list.
Proof.
  intros L T.
  unfold risk_assessment_node, error_boundary, performance_monitor,
    risk_assessment_body, state_text.
  rewrite L, T. change (negb true) with false. cbv iota.
  unfold try_except, bind, ret, invoke, handle_api_error, log_error, track_performance,
    require, raise, sleep, emit, get_session, put_session, bind, ret.
  cbv beta iota.
  destruct (llm_invoke w (llm_calls m) (RiskPrompt txt)) as [raw|e]; cbv beta iota.
  - destruct (json_risk w raw) as [msg|e|[[level|] [confidence|] [reason|]]];
      cbn; eexists; rewrite <- ?app_assoc; reflexivity.
  - cbn. eexists. rewrite <- ?app_assoc. reflexivity.
Qed.

(** After risk assessment the run ends in a report over the same
    classification keys, or is halted by the review prompt. *)
Lemma after_risk_cases w state m :
  (exists final m',
     continue_after w 2 RiskAssessment state m = (Ret final, m') /\
     st_analysis final = st_analysis state /\
     processing_complete (st_output final) = Some true)
  \/ (exists c m', continue_after w 2 RiskAssessment state m = (Halt c, m')).
Proof.
  destruct (route_by_risk_level_cases (session m) state) as [R|R].
  - rewrite (continue_after_review_routed _ _ _ _ R).
    destruct (review_decision (session m)) as [d|] eqn:D.
    + rewrite (execute_review_then_report w state m _ _
                 (human_review_with_decision w state m d D)), execute_report.
      left. eexists. eexists. split; [reflexivity|].
      destruct state as [i [? ? ? ? ? ? ? ?] v r h o]. split; reflexivity.
    + destruct (String.eqb_spec (get (risk_level (st_risk state)) "low") "low") as [Lo|Lo].
      * rewrite (execute_review_then_report w state m _ _
                   (human_review_of_low_risk w state m D Lo)), execute_report.
        left. eexists. eexists. split; [reflexivity|].
        destruct state as [i [? ? ? ? ? ? ? ?] v r h o]. split; reflexivity.
      * rewrite (execute_halts w 1 HumanReview state m _ _
                   (human_review_prompt w state m D Lo)).
        right. eexists. eexists. reflexivity.
  - rewrite (continue_after_report_routed _ _ _ _ R), execute_report.
    left. eexists. eexists. split; [reflexivity|].
    destruct state as [i [? ? ? ? ? ? ? ?] v r h o]. split; reflexivity.
Qed.

(** From risk assessment on: the LLM is called with the risk prompt, and the
    run ends in a report over the same classification keys or is halted by
    the review prompt. *)
Lemma risk_assessment_onwards w limit state m txt :
  llm_client w = true ->
  text (st_input state) = Some txt ->
  2 <= limit ->
  (exists after,
     trace (snd (execute w (S limit) RiskAssessment state m))
       = (trace m ++ EvInvoke (RiskPrompt txt) :: after)%list) /\
  ((exists final m',
      execute w (S limit) RiskAssessment state m = (Ret final, m') /\
      st_analysis final = st_analysis state /\
      processing_complete (st_output final) = Some true)
   \/ (exists c m', execute w (S limit) RiskAssessment state m = (Halt c, m'))).
Proof.
  intros L T Lim.
  destruct (upstream_node_returns w RiskAssessment state m) as (r & m3 & N & _); [tauto|].
  destruct (downstream_node_keeps_analysis w RiskAssessment state m r m3) as (A & _);
    [tauto | exact N |].
  destruct (risk_assessment_calls_llm w state m txt L T) as (rest & Tr).
  change (node w RiskAssessment state m) with (risk_assessment_node w state m) in N.
  rewrite N in Tr. cbn [snd] in Tr.
  rewrite (execute_step w limit RiskAssessment state m r m3 N).
  rewrite (continue_after_any_limit w limit _ m3 Lim).
  destruct (confined_continue_after_risk (fun _ => True) any_event_allowed w
              (apply_update r state) m3) as (evs & Tc & _).
  split.
  - exists (rest ++ evs)%list. rewrite Tc, Tr, <- app_assoc. reflexivity.
  - destruct (after_risk_cases w (apply_update r state) m3)
      as [(final & m' & R & Af & Pc) | H]; [left | right; exact H].
    exists final, m'. split; [exact R|]. split; [congruence | exact Pc].
Qed.

(** C9: when the reply of the LLM does not decode, the stage does not raise:
    it returns the documented defaults for all eight classification keys,
    and they are what the merged State holds.  The run proceeds: the stage
    [should_include_verification] routes to (verification when the text
    holds a high-risk keyword and verification is not opted out, risk
    assessment otherwise) runs on the merged State and returns; the run goes
    on to call the LLM with the risk prompt, and it ends in a report whose
    State still holds the defaults, unless the review prompt halts it. *)
Theorem content_analysis_recovers_from_decode_failure w state m txt raw m1 msg :
  llm_client w = true ->
  text (st_input state) = Some txt ->
  call_llm_with_retry w (AnalysisPrompt txt) 4 m = (Ret raw, m1) ->
  json_analysis w (extract_json raw) = DecodeFailed msg ->
  exists update m' next update2 m2,
    (* the stage returns the defaults *)
    content_analysis_node w state m = (Ret (Some update), m') /\
    (content_type (st_analysis update) = Some "unknown" /\
     language (st_analysis update) = Some "en" /\
     topics (st_analysis update) = Some [] /\
     entities (st_analysis update) = Some [] /\
     sentiment (st_analysis update) = Some [("neutral", 1%Q); ("confidence", 0.1%Q)] /\
     summary (st_analysis update) = Some "Analysis failed - JSON parse error" /\
     key_claims (st_analysis update) = Some [] /\
     writing_style (st_analysis update) = Some "unknown") /\
    trace m' = trace m1 /\
    (* the State the next stage sees *)
    st_analysis (merge update state) = st_analysis update /\
    st_input (merge update state) = st_input state /\
    (* the routed stage *)
    next = (if get (include_external_verification (st_input state)) true
               && existsb (fun keyword => PyStr.contains keyword (PyStr.lower txt))
                          high_risk_keywords
            then Verification else RiskAssessment) /\
    next_stage ContentAnalysis (merge update state) m' = (Ret (Some next), m') /\
    (* it runs on the merged State and returns *)
    node w next (merge update state) m' = (Ret update2, m2) /\
    (exists rest,
       trace m2 =
         (trace m1
          ++ match next with
             | Verification =>
                 if forallb PyStr.is_space (PyStr.chars (PyStr.take 50 txt))
                 then EvWarning "⚠️ No search terms found for verification"
                 else EvNewsSearch (PyStr.take 50 txt)
             | _ => EvInvoke (RiskPrompt txt)
             end :: rest)%list) /\
    run w state m
      = continue_after w 23 next (apply_update update2 (merge update state)) m2 /\
    (* the run reaches risk assessment and is not aborted *)
    (exists before after,
       trace (snd (run w state m))
         = (trace m1 ++ before ++ EvInvoke (RiskPrompt txt) :: after)%list /\
       count_invokes before = 0) /\
    ((exists final mf,
        run w state m = (Ret final, mf) /\
        st_analysis final = st_analysis update /\
        processing_complete (st_output final) = Some true)
     \/ (exists c mf, run w state m = (Halt c, mf))).
Proof.
  intros L T C D.
  assert (B : content_analysis_body w state m =
              (Ret (analysis_defaults "Analysis failed - JSON parse error"),
               mkMachine (logged (mkExn JSONDecodeError msg)
                            [("component", "content_analysis");
                             ("raw_response", PyStr.take 200 raw)] (session m1))
                 (llm_calls m1) (draws m1) (trace m1))).
  { unfold content_analysis_body, state_text. rewrite L, T.
    change (negb true) with false. cbv iota.
    unfold bind, try_except, ret. cbv beta iota. rewrite C. cbv beta iota.
    rewrite D. reflexivity. }
  pose proof (performance_monitor_ret "content_analysis" _ _ _ _ B) as P.
  pose proof (error_boundary_ret "wrapper" _ _ _ _ P) as E.
  fold (content_analysis_node w state) in E.
  set (update := analysis_defaults "Analysis failed - JSON parse error") in *.
  set (m' := mkMachine _ _ _ _) in E.
  set (merged := merge update state).
  assert (Tm : trace m' = trace m1) by reflexivity.
  assert (A : st_analysis merged = st_analysis update) by reflexivity.
  assert (I : st_input merged = st_input state).
  { apply merge_keeps_input_and_review. split; reflexivity. }
  assert (Q : search_query merged = PyStr.take 50 txt).
  { rewrite search_query_without_entities_and_topics;
      [now rewrite I, T | now rewrite A | now rewrite A]. }
  set (next := if get (include_external_verification (st_input state)) true
                  && existsb (fun keyword => PyStr.contains keyword (PyStr.lower txt))
                             high_risk_keywords
               then Verification else RiskAssessment).
  assert (N : next_stage ContentAnalysis merged m' = (Ret (Some next), m')).
  { rewrite edge_target_after_analysis. unfold should_include_verification.
    rewrite I, T, A. unfold next.
    change (get (Some txt) "") with txt.
    change (get (entities (st_analysis update)) []) with (@nil Entity).
    destruct (get (include_external_verification (st_input state)) true);
      [|reflexivity].
    rewrite andb_true_l. change (negb true) with false. cbv iota.
    destruct (existsb _ high_risk_keywords); reflexivity. }
  assert (Run : run w state m = execute w 24 next merged m').
  { unfold run, recursion_limit.
    rewrite (execute_step w 24 ContentAnalysis state m (Some update) m' E).
    unfold continue_after, bind, apply_update. fold merged. now rewrite N. }
  assert (Tx : text (st_input merged) = Some txt) by now rewrite I.
  destruct next eqn:Nx; try (unfold next in Nx;
    destruct (_ && _) in Nx; discriminate).
  - (* routed to verification *)
    destruct (verification_node_by_query w merged m')
      as (u2 & m2 & V & Blank & Other).
    rewrite Q in Blank, Other.
    destruct (confined_verification_node w merged m') as (evs2 & Tv & _ & Cv).
    rewrite V in Tv. cbn [snd] in Tv.
    destruct (downstream_node_keeps_analysis w Verification merged m' (Some u2) m2)
      as (A2 & I2); [tauto | exact V |].
    assert (Tx2 : text (st_input (apply_update (Some u2) merged)) = Some txt)
      by now rewrite I2.
    destruct (risk_assessment_onwards w 22 (apply_update (Some u2) merged) m2 txt L Tx2)
      as ((after & Ta) & Out); [lia|].
    assert (Run2 : run w state m
                   = execute w 23 RiskAssessment (apply_update (Some u2) merged) m2).
    { rewrite Run. rewrite (execute_step w 23 Verification merged m' (Some u2) m2 V).
      reflexivity. }
    exists update, m', Verification, (Some u2), m2.
    split; [exact E|]. split; [repeat split|]. split; [exact Tm|].
    split; [exact A|]. split; [exact I|]. split; [reflexivity|]. split; [exact N|].
    split; [exact V|].
    split.
    { rewrite <- Tm.
      destruct (forallb PyStr.is_space (PyStr.chars (PyStr.take 50 txt))).
      - destruct (Blank eq_refl) as (_ & ->). eexists. reflexivity.
      - destruct (Other eq_refl) as (rest & -> & _). eexists. reflexivity. }
    split; [rewrite Run2; reflexivity|].
    split.
    { exists evs2, after. rewrite Run2, Ta, Tv, Tm, <- app_assoc.
      split; [reflexivity | lia]. }
    rewrite Run2.
    destruct Out as [(final & mf & R & Af & Pc) | H]; [left | right; exact H].
    exists final, mf. split; [exact R|]. split; [congruence | exact Pc].
  - (* routed to risk assessment *)
    destruct (upstream_node_returns w RiskAssessment merged m') as (r & m2 & Nd & _);
      [tauto|].
    destruct (risk_assessment_onwards w 23 merged m' txt L Tx)
      as ((after & Ta) & Out); [lia|].
    destruct (risk_assessment_calls_llm w merged m' txt L Tx) as (rest & Tr).
    change (node w RiskAssessment merged m') with (risk_assessment_node w merged m') in Nd.
    rewrite Nd in Tr. cbn [snd] in Tr.
    exists update, m', RiskAssessment, r, m2.
    split; [exact E|]. split; [repeat split|]. split; [exact Tm|].
    split; [exact A|]. split; [exact I|]. split; [reflexivity|]. split; [exact N|].
    split; [exact Nd|].
    split; [exists rest; now rewrite <- Tm|].
    split.
    { rewrite Run. apply (execute_step w 23 RiskAssessment merged m' r m2 Nd). }
    split.
    { exists [], after. rewrite Run, Ta, Tm. split; reflexivity. }
    rewrite Run.
    destruct Out as [(final & mf & R & Af & Pc) | H]; [left | right; exact H].
    exists final, mf. split; [exact R|]. split; [congruence | exact Pc].
Qed.

(** A reply that does not decode on a text with a high-risk keyword: the
    run goes through verification and risk assessment to a report over the
    defaults. *)
Lemma content_analysis_recovers_from_decode_failure_witness :
  exists final mf,
    run garbled_world (initial_state "Breaking news from the town hall" false true)
      fresh_machine = (Ret final, mf) /\
    summary (st_analysis final) = Some "Analysis failed - JSON parse error" /\
    content_type (st_analysis final) = Some "unknown" /\
    processing_complete (st_output final) = Some true /\
    exists before after,
      trace mf
        = ([EvInvoke (AnalysisPrompt "Breaking news from the town hall")]
           ++ before
           ++ EvInvoke (RiskPrompt "Breaking news from the town hall") :: after)%list.
Proof.
  destruct (content_analysis_recovers_from_decode_failure garbled_world
              (initial_state "Breaking news from the town hall" false true)
              fresh_machine "Breaking news from the town hall"
              "I cannot answer that."
              (mkMachine fresh_session 1 0
                 [EvInvoke (AnalysisPrompt "Breaking news from the town hall")])
              "Expecting value: line 1 column 1 (char 0)")
    as (update & m' & next & update2 & m2 & _ & (Ct & _ & _ & _ & _ & Su & _) & _ & _ & _
        & _ & _ & _ & _ & _ & (before & after & Tr & _) & Out);
    try reflexivity.
  destruct Out as [(final & mf & R & A & Pc) | (c & mf & H)].
  - exists final, mf. split; [exact R|].
    rewrite A. split; [exact Su|]. split; [exact Ct|]. split; [exact Pc|].
    exists before, after. rewrite R in Tr. exact Tr.
  - vm_compute in H. discriminate H.
Defined.

(** ** More on the verification stage *)

Lemma firstn_3_length {A} (l : list A) : length (firstn 3 l) <= 3.
Proof. rewrite length_firstn. lia. Qed.

(** The score lies between 0.2 and 0.8: the clamp to [0, 1] never bites. *)
Lemma compute_verification_score_range similar checks :
  (0.2 <= compute_verification_score similar checks <= 0.8)%Q.
Proof.
  unfold compute_verification_score.
  destruct similar, checks; cbv zeta;
    repeat match goal with |- context [if ?b then _ else _] => destruct b end;
    split; vm_compute; discriminate.
Qed.

(** On a State of the declared types the stage returns an update, whatever
    the lookups do. *)
Lemma verification_node_returns_update w state m :
  exists checks similar score m',
    verification_node w state m
      = (Ret (Some (verification_update
                      (mkVerification (Some checks) (Some similar) (Some score)))), m') /\
    length checks <= 3 /\ length similar <= 3 /\ (0.2 <= score <= 0.8)%Q /\
    (checks = [] -> similar = [] -> score == 0.5)%Q /\
    llm_calls m' = llm_calls m.
Proof.
  assert (Neutral : forall m',
            llm_calls m' = llm_calls m ->
            exists checks similar score m0,
              (Ret (Some neutral_verification), m')
                = (Ret (Some (verification_update
                                (mkVerification (Some checks) (Some similar)
                                                (Some score)))), m0) /\
              length checks <= 3 /\ length similar <= 3 /\ (0.2 <= score <= 0.8)%Q /\
              (checks = [] -> similar = [] -> score == 0.5)%Q /\
              llm_calls m0 = llm_calls m).
  { intros m' C. exists [], [], 0.5%Q, m'. split; [reflexivity|].
    simpl. repeat split; try lia; try discriminate; try exact C. }
  unfold verification_node, error_boundary, performance_monitor, verification_body.
  destruct (PyStr.truthy (PyStr.strip (search_query state))).
  - simpl negb. cbv iota.
    unfold try_except, bind, cached_news_search, cached_fact_check, bind, emit.
    simpl.
    destruct (news_api w (search_query state)) as [similar|e]; simpl.
    + destruct (fact_check_api w (search_query state)) as [checks|e]; simpl.
      * eexists. eexists. eexists. eexists. split; [reflexivity|].
        split; [apply firstn_3_length|]. split; [apply firstn_3_length|].
        split; [apply compute_verification_score_range|].
        split; [|reflexivity].
        intros Ec Es. destruct checks; [|discriminate]. destruct similar; [|discriminate].
        reflexivity.
      * apply Neutral. reflexivity.
    + apply Neutral. reflexivity.
  - simpl negb. cbv iota. apply Neutral. reflexivity.
Qed.

(** X8: what an update of the verification stage always looks like.  An
    update the stage returns holds its three keys: at most three fact
    checks, at most three articles and a score between 0.2 and 0.8, so
    within [0, 1]; the score is 0.5 when both lists are empty.  The stage
    has made no LLM call. *)
Theorem verification_update_invariant w state m u m' :
  verification_node w state m = (Ret (Some u), m') ->
  exists checks similar score,
    u = verification_update (mkVerification (Some checks) (Some similar) (Some score)) /\
    length checks <= 3 /\ length similar <= 3 /\
    (0.2 <= score <= 0.8)%Q /\ (0 <= score <= 1)%Q /\
    (checks = [] -> similar = [] -> score == 0.5)%Q /\
    llm_calls m' = llm_calls m.
Proof.
  intros H.
  destruct (verification_node_returns_update w state m)
    as (checks & similar & score & m0 & E & Lc & Ls & R & N & C).
  rewrite E in H. injection H as <- <-.
  exists checks, similar, score.
  split; [reflexivity|]. split; [exact Lc|]. split; [exact Ls|].
  split; [exact R|]. split; [|split; [exact N | exact C]].
  destruct R as [R0 R1]. split.
  - apply Qle_trans with (y := 0.2%Q); [discriminate | exact R0].
  - apply Qle_trans with (y := 0.8%Q); [exact R1 | discriminate].
Qed.

Lemma verification_update_invariant_witness :
  exists checks similar score m',
    verification_node
      (lookup_world [sample_article; sample_article; sample_article; sample_article]
                    [rated "False"])
      scenario_b_state fresh_machine
      = (Ret (Some (verification_update
                      (mkVerification (Some checks) (Some similar) (Some score)))), m') /\
    length checks <= 3 /\ length similar <= 3 /\ (0 <= score <= 1)%Q.
Proof.
  destruct (verification_update_invariant
              (lookup_world [sample_article; sample_article; sample_article; sample_article]
                            [rated "False"])
              scenario_b_state fresh_machine _ _ eq_refl)
    as (checks & similar & score & U & Lc & Ls & _ & R & _).
  exists checks, similar, score. eexists.
  split; [rewrite <- U; reflexivity|].
  split; [exact Lc|]. split; [exact Ls | exact R].
Defined.

Lemma last_n_snoc {A} n (l : list A) x :
  0 < n -> last_n n (l ++ [x]) = (last_n (n - 1) l ++ [x])%list.
Proof.
  intros N. unfold last_n. rewrite length_app. simpl.
  replace (length l + 1 - n) with (length l - (n - 1)) by lia.
  rewrite skipn_app.
  replace (length l - (n - 1) - length l) with 0 by lia.
  reflexivity.
Qed.

(** After [log_error] the newest entry closes the log. *)
Lemma logged_last e context s :
  exists earlier,
    error_log (logged e context s)
      = (earlier ++ [mkErrorData (exn_kind e) (exn_msg e) context])%list.
Proof.
  unfold logged. cbn [error_log].
  destruct (10 <? length _).
  - rewrite last_n_snoc by lia. eexists. reflexivity.
  - eexists. reflexivity.
Qed.

(** X9: a failed lookup discards the other's results.  When the news
    search raises, the fact-check lookup is not attempted; when the news
    search finds articles and the fact-check lookup raises, the articles
    are dropped.  In both cases the stage returns the neutral update (score
    0.5 and two empty lists) and the failure closes the error log under the
    component "verification". *)
Theorem failed_lookup_gives_neutral_update w state m e :
  PyStr.truthy (PyStr.strip (search_query state)) = true ->
  news_api w (search_query state) = inr e
  \/ (exists similar, news_api w (search_query state) = inl similar)
     /\ fact_check_api w (search_query state) = inr e ->
  exists m',
    verification_node w state m = (Ret (Some neutral_verification), m') /\
    (news_api w (search_query state) = inr e ->
     filter is_lookup (trace m')
       = (filter is_lookup (trace m) ++ [EvNewsSearch (search_query state)])%list) /\
    exists earlier,
      error_log (session m')
        = (earlier ++ [mkErrorData (exn_kind e) (exn_msg e)
                         [("component", "verification")]])%list.
Proof.
  intros Q H.
  assert (B : exists api tr,
             verification_body w state m =
               (Ret neutral_verification,
                mkMachine (logged e [("component", "verification")]
                             (logged e [("api", api)] (session m)))
                  (llm_calls m) (draws m) tr) /\
             (news_api w (search_query state) = inr e ->
              filter is_lookup tr
                = (filter is_lookup (trace m) ++ [EvNewsSearch (search_query state)])%list)).
  { unfold verification_body. rewrite Q. simpl negb. cbv iota.
    unfold try_except, bind, cached_news_search, cached_fact_check, bind, emit.
    cbn [fst snd session llm_calls draws trace ret].
    destruct H as [N | [[similar N] F]]; rewrite N.
    - exists "news". eexists. split; [reflexivity|].
      intros _. simpl. rewrite !filter_app. simpl. now rewrite app_nil_r.
    - cbn [fst snd session llm_calls draws trace ret]. rewrite F.
      exists "fact_check". eexists. split; [reflexivity|].
      intros C. discriminate C. }
  destruct B as (api & tr & B & T).
  pose proof (performance_monitor_ret "verification" _ _ _ _ B) as Pm.
  pose proof (error_boundary_ret "wrapper" _ _ _ _ Pm) as E.
  eexists. split; [exact E|]. split; [exact T|].
  cbn [session tracked error_log].
  apply logged_last.
Qed.

Lemma failed_lookup_gives_neutral_update_witness :
  exists m',
    verification_node
      (mkWorld true (fun _ _ => Content "{}") (fun _ => 0.5%Q)
         (fun _ => DecodedObject no_analysis) (fun _ => DecodeFailed "none")
         (fun _ => inl [sample_article])
         (fun _ => inr (mkExn OtherError "503 Service Unavailable"))
         None 160%Q "2026-01-01 00:00:00")
      scenario_b_state fresh_machine = (Ret (Some neutral_verification), m').
Proof.
  destruct (failed_lookup_gives_neutral_update
              (mkWorld true (fun _ _ => Content "{}") (fun _ => 0.5%Q)
                 (fun _ => DecodedObject no_analysis) (fun _ => DecodeFailed "none")
                 (fun _ => inl [sample_article])
                 (fun _ => inr (mkExn OtherError "503 Service Unavailable"))
                 None 160%Q "2026-01-01 00:00:00")
              scenario_b_state fresh_machine
              (mkExn OtherError "503 Service Unavailable"))
    as (m' & E & _).
  - reflexivity.
  - right. split; [exists [sample_article]; reflexivity | reflexivity].
  - exists m'. exact E.
Defined.

Lemma contains_cons needle c hay :
  PyStr.contains needle (String c hay)
    = String.prefix needle (String c hay) || PyStr.contains needle hay.
Proof. reflexivity. Qed.

Lemma prefix_contains needle hay :
  String.prefix needle hay = true -> PyStr.contains needle hay = true.
Proof.
  intros H. destruct hay as [|c hay].
  - change (PyStr.contains needle "") with (String.prefix needle "" || false).
    now rewrite H.
  - now rewrite contains_cons, H.
Qed.

Lemma contains_tail needle c hay :
  PyStr.contains needle hay = true -> PyStr.contains needle (String c hay) = true.
Proof. intros H. rewrite contains_cons, H. apply orb_true_r. Qed.

Lemma prefix_drop2 a b s hay :
  String.prefix (String a (String b s)) hay = true -> PyStr.contains s hay = true.
Proof.
  intros H. destruct hay as [|c [|d hay]]; simpl in H; try discriminate.
  - destruct (ascii_dec a c); discriminate.
  - destruct (ascii_dec a c); [|discriminate].
    destruct (ascii_dec b d); [|discriminate].
    now apply contains_tail, contains_tail, prefix_contains.
Qed.

(** A text that contains a word contains the word less its first two
    letters. *)
Lemma contains_drop2 a b s hay :
  PyStr.contains (String a (String b s)) hay = true -> PyStr.contains s hay = true.
Proof.
  induction hay as [|c hay IH].
  - simpl. discriminate.
  - rewrite contains_cons. intros H. apply orb_true_iff in H. destruct H as [H|H].
    + now apply prefix_drop2 in H.
    + now apply contains_tail, IH.
Qed.

(** X10: a rating that says "incorrect" raises the score.  The bonus rule
    looks for "correct" anywhere in the rating and is tried first, so a
    fact check rated incorrect adds 0.2 instead of subtracting 0.3: the
    returned score is at least 0.7. *)
Theorem incorrect_rating_raises_score w state m similar checks fc :
  PyStr.truthy (PyStr.strip (search_query state)) = true ->
  news_api w (search_query state) = inl similar ->
  fact_check_api w (search_query state) = inl checks ->
  In fc checks ->
  PyStr.contains "incorrect" (PyStr.lower (get (fc_rating fc) "")) = true ->
  exists update m' score,
    verification_node w state m = (Ret (Some update), m') /\
    verification_score (st_verification update) = Some score /\
    (score == 0.5 + (match similar with [] => 0 | _ :: _ => 0.1 end) + 0.2)%Q /\
    (0.7 <= score)%Q.
Proof.
  intros Q N F I C.
  rewrite (verification_node_completes w state m similar checks Q N F).
  eexists. eexists. eexists. split; [reflexivity|]. split; [reflexivity|].
  assert (B : some_rating_says ["true"; "correct"] checks = true).
  { unfold some_rating_says. apply existsb_exists. exists fc. split; [exact I|].
    unfold rating_says. simpl.
    rewrite (contains_drop2 "i" "n" "correct" _ C). now rewrite orb_true_r. }
  unfold compute_verification_score.
  destruct checks as [|fc0 checks]; [contradiction|].
  rewrite existsb_map_lower, B.
  destruct similar; split; try reflexivity; apply Qle_bool_imp_le; reflexivity.
Qed.

Lemma incorrect_rating_raises_score_witness :
  exists update m' score,
    verification_node (lookup_world [] [rated "Incorrect"]) scenario_b_state
      fresh_machine = (Ret (Some update), m') /\
    verification_score (st_verification update) = Some score /\
    (0.7 <= score)%Q.
Proof.
  destruct (incorrect_rating_raises_score (lookup_world [] [rated "Incorrect"])
              scenario_b_state fresh_machine [] [rated "Incorrect"] (rated "Incorrect"))
    as (update & m' & score & E & S & _ & L);
    [reflexivity | reflexivity | reflexivity | left; reflexivity | reflexivity |].
  exists update, m', score. split; [exact E|]. split; [exact S | exact L].
Defined.

(** ** More on content analysis *)

Lemma yields_complete_handler raw e :
  yields (fun u => exists a, u = analysis_update a /\ analysis_complete a)
         (content_analysis_handler raw e).
Proof.
  unfold content_analysis_handler, analysis_defaults.
  repeat yields_step; eexists; (split; [reflexivity | repeat split; discriminate]).
Qed.

Lemma yields_complete_body w state :
  yields (fun u => exists a, u = analysis_update a /\ analysis_complete a)
         (content_analysis_body w state).
Proof.
  unfold content_analysis_body.
  destruct (negb (llm_client w)); [auto with yields|].
  eapply yields_bind; [apply yields_state_text|]. intros txt _.
  eapply yields_bind
    with (Q := fun r => match r with
                        | inl _ => True
                        | inr u => exists a, u = analysis_update a /\ analysis_complete a
                        end).
  - apply yields_try_except.
    + eapply yields_bind; [apply yields_retry_loop|].
      intros raw _. apply yields_ret. exact I.
    + intros e. eapply yields_bind; [apply yields_complete_handler|].
      intros u Hu. apply yields_ret. exact Hu.
  - intros [raw|u] H.
    + apply yields_try_except; [|intros e; apply yields_complete_handler].
      repeat yields_step; eexists; (split; [reflexivity | repeat split; discriminate]).
    + apply yields_ret. exact H.
Qed.

(** X11: content analysis always returns, and an update it returns is
    complete: all eight classification keys are present, whatever the
    decoded object lacked, and no other key is written. *)
Theorem content_analysis_update_is_complete w state m :
  exists r m',
    content_analysis_node w state m = (Ret r, m') /\
    forall u, r = Some u ->
      exists a, u = analysis_update a /\ analysis_complete a.
Proof.
  unfold content_analysis_node.
  apply error_boundary_returns, yields_performance_monitor, yields_complete_body.
Qed.

Lemma call_llm_all_fail w message m e :
  (forall n, llm_invoke w n message = Failure e) ->
  exists m',
    call_llm_with_retry w message 4 m = (Raise e, m') /\
    llm_calls m' = llm_calls m + 4.
Proof.
  intros F.
  unfold call_llm_with_retry. simpl retry_loop.
  unfold bind, try_except, invoke, random_uniform, raise, emit, sleep, emit, ret.
  destruct (is_rate_limited e) eqn:R;
    repeat (cbn [fst snd session llm_calls draws trace Nat.ltb Nat.leb Nat.sub];
            rewrite ?F; rewrite ?R);
    eexists; (split; [reflexivity | cbn [llm_calls]; lia]).
Qed.

(** X12: what content analysis does once the retries are used up.  When
    all four attempts fail with the same exception of the LLM client, a
    failure with the rate-limit signature yields the defaults with the
    summary "Analysis paused due to rate limiting"; any other failure is
    logged and shown by the error boundary and the stage returns [None], so
    the run goes on without classification keys. *)
Theorem content_analysis_after_exhausted_retries w state m txt e :
  llm_client w = true ->
  text (st_input state) = Some txt ->
  (forall n, llm_invoke w n (AnalysisPrompt txt) = Failure e) ->
  exn_kind e <> JSONDecodeError ->
  exists m',
    content_analysis_node w state m
      = (Ret (if is_rate_limited e
              then Some (analysis_defaults "Analysis paused due to rate limiting")
              else None), m') /\
    llm_calls m' = llm_calls m + 4.
Proof.
  intros L T F K.
  destruct (call_llm_all_fail w (AnalysisPrompt txt) m e F) as (m1 & C & Calls).
  unfold content_analysis_node.
  destruct (is_rate_limited e) eqn:R.
  - assert (B : exists m2, content_analysis_body w state m
                           = (Ret (analysis_defaults "Analysis paused due to rate limiting"),
                              m2) /\ llm_calls m2 = llm_calls m1).
    { unfold content_analysis_body, state_text. rewrite L, T.
      change (negb true) with false. cbv iota.
      unfold bind, try_except, ret. cbv beta iota. rewrite C. cbv beta iota.
      unfold content_analysis_handler.
      destruct (exn_kind e); try contradiction; rewrite R;
        eexists; (split; [reflexivity | reflexivity]). }
    destruct B as (m2 & B & E2).
    pose proof (performance_monitor_ret "content_analysis" _ _ _ _ B) as Pm.
    pose proof (error_boundary_ret "wrapper" _ _ _ _ Pm) as E.
    eexists. split; [exact E|]. cbn [llm_calls]. lia.
  - assert (B : content_analysis_body w state m = (Raise e, m1)).
    { unfold content_analysis_body, state_text. rewrite L, T.
      change (negb true) with false. cbv iota.
      unfold bind, try_except, ret. cbv beta iota. rewrite C. cbv beta iota.
      unfold content_analysis_handler.
      destruct (exn_kind e); try contradiction; rewrite R; reflexivity. }
    pose proof (performance_monitor_raise "content_analysis" _ _ _ _ B) as Pm.
    pose proof (error_boundary_raise "wrapper" _ _ _ _ Pm) as E.
    eexists. split; [exact E|]. cbn [llm_calls]. lia.
Qed.

Lemma content_analysis_after_exhausted_retries_witness :
  exists m',
    content_analysis_node (failing_world (mkExn OtherError "connection reset"))
      (initial_state "some text" false true) fresh_machine = (Ret None, m') /\
    llm_calls m' = 4.
Proof.
  destruct (content_analysis_after_exhausted_retries
              (failing_world (mkExn OtherError "connection reset"))
              (initial_state "some text" false true) fresh_machine "some text"
              (mkExn OtherError "connection reset"))
    as (m' & E & C); [reflexivity | reflexivity | reflexivity | discriminate |].
  exists m'. split; [exact E | exact C].
Defined.

(** ** More on risk assessment and the review *)

(** X13: what an update of risk assessment always looks like.  The stage
    returns an update only when the one reply it asked for decoded to an
    object with the three keys; the update copies the risk level as the
    model wrote it, without checking it against the four known levels, sets
    [risk_score] to one minus the confidence, and leaves the flags empty
    and their count at zero.  Exactly one LLM call was made. *)
Theorem risk_assessment_update_invariant w state m u m' :
  risk_assessment_node w state m = (Ret (Some u), m') ->
  exists txt raw level confidence reason,
    text (st_input state) = Some txt /\
    llm_invoke w (llm_calls m) (RiskPrompt txt) = Content raw /\
    json_risk w raw
      = DecodedObject (mkRiskJson (Some level) (Some confidence) (Some reason)) /\
    u = risk_update
          (mkRisk (Some []) (Some level) (Some confidence)
                  (Some (1 - confidence)%Q) (Some 0%Z) (Some reason)) /\
    llm_calls m' = S (llm_calls m).
Proof.
  unfold risk_assessment_node, error_boundary, performance_monitor,
    risk_assessment_body, state_text.
  destruct (llm_client w); simpl negb; cbv iota.
  2:{ unfold try_except, bind, handle_api_error, bind. simpl. discriminate. }
  destruct (text (st_input state)) as [txt|].
  2:{ unfold try_except, bind, raise. simpl. discriminate. }
  unfold try_except, bind, ret, invoke. cbv beta iota.
  destruct (llm_invoke w (llm_calls m) (RiskPrompt txt)) as [raw|e] eqn:I.
  2:{ simpl. discriminate. }
  cbv beta iota.
  destruct (json_risk w raw) as [msg|e|[[level|] [confidence|] [reason|]]] eqn:D;
    simpl; try discriminate.
  intros H. injection H as <- <-.
  exists txt, raw, level, confidence, reason.
  repeat split; assumption.
Qed.

Lemma risk_assessment_update_invariant_witness :
  exists txt raw level confidence reason,
    text (st_input (initial_state "some text" false true)) = Some txt /\
    llm_invoke (calm_world "Extreme!") (llm_calls fresh_machine) (RiskPrompt txt)
      = Content raw /\
    json_risk (calm_world "Extreme!") raw
      = DecodedObject (mkRiskJson (Some level) (Some confidence) (Some reason)) /\
    level = "Extreme!".
Proof.
  edestruct (risk_assessment_update_invariant (calm_world "Extreme!")
               (initial_state "some text" false true) fresh_machine)
    as (txt & raw & level & confidence & reason & T & I & D & U & _).
  - vm_compute. reflexivity.
  - exists txt, raw, level, confidence, reason.
    split; [exact T|]. split; [exact I|]. split; [exact D|].
    injection U as E. congruence.
Defined.

(** X14: a review button and the next entry of the stage make a round
    trip.  Pressing a button while the prompt is shown records its decision
    in the session and reruns the script without a State update; the next
    time the stage runs, in any world, it returns that decision as
    [human_approval] with status "reviewed" and removes it from the
    session, so that a further entry would prompt again. *)
Theorem review_button_round_trip w w' state state' m b :
  review_decision (session m) = None ->
  get (risk_level (st_risk state)) "low" <> "low" ->
  clicked w = Some b ->
  exists m1 m2,
    human_review_node w state m = (Halt StRerun, m1) /\
    review_decision (session m1) = Some (decision_of b) /\
    human_review_node w' state' m1
      = (Ret (Some (review_update
                      (mkReview (Some (decision_of b)) (Some "reviewed")
                                (Some (get (reviewer_notes_key (session m)) ""))))), m2) /\
    review_decision (session m2) = None /\
    In (decision_of b) ["approved"; "rejected"; "needs_editing"; "skipped"].
Proof.
  intros D R C.
  rewrite (human_review_prompt w state m D R), C.
  eexists. eexists. split; [reflexivity|].
  split; [reflexivity|].
  split.
  { eapply eq_trans; [apply human_review_with_decision; reflexivity | reflexivity]. }
  split; [reflexivity|].
  destruct b; simpl; tauto.
Qed.

Lemma review_button_round_trip_witness :
  exists m1 m2,
    human_review_node
      (mkWorld true (fun _ _ => Content "{}") (fun _ => 0.5%Q)
         (fun _ => DecodedObject no_analysis) (fun _ => DecodeFailed "none")
         (fun _ => inl []) (fun _ => inl []) (Some BtnEdit) 160%Q "2026-01-01 00:00:00")
      (assessed_state "high" None) fresh_machine = (Halt StRerun, m1) /\
    human_review_node (calm_world "high") (assessed_state "high" None) m1
      = (Ret (Some (review_update
                      (mkReview (Some "needs_editing") (Some "reviewed") (Some "")))), m2).
Proof.
  destruct (review_button_round_trip
              (mkWorld true (fun _ _ => Content "{}") (fun _ => 0.5%Q)
                 (fun _ => DecodedObject no_analysis) (fun _ => DecodeFailed "none")
                 (fun _ => inl []) (fun _ => inl []) (Some BtnEdit) 160%Q
                 "2026-01-01 00:00:00")
              (calm_world "high") (assessed_state "high" None)
              (assessed_state "high" None) fresh_machine BtnEdit)
    as (m1 & m2 & H1 & _ & H2 & _); [reflexivity | discriminate | reflexivity |].
  exists m1, m2. split; [exact H1 | exact H2].
Defined.

(** X15: an unrecognised risk level is reported as clear.  When the State
    that leaves risk assessment has no risk level, or one that is not
    critical, high or medium (a failed assessment, or a level spelt another
    way), and the review is neither forced nor already recorded, the run
    completes without review and its first recommendation is the advisory
    that the content appears safe. *)
Theorem unrecognised_risk_is_reported_clear w initial m state m1 :
  upstream w initial m = (Ret state, m1) ->
  (forall level, risk_level (st_risk state) = Some level ->
                 ~ In level ["critical"; "high"; "medium"]) ->
  get (force_human_review (st_input initial)) false = false ->
  human_approval (st_review initial) = None ->
  exists final m' rest,
    run w initial m = (Ret final, m') /\
    recommendations (st_output final)
      = Some ("✅ **CLEAR**: Content appears safe for standard publication" :: rest) /\
    human_approval (st_review final) = None.
Proof.
  intros U L F A.
  destruct (upstream_keeps_input_and_review w initial m state m1 U) as (I & V).
  rewrite <- I in F. rewrite <- V in A.
  assert (N : forall dflt, ~ In (get (risk_level (st_risk state)) dflt)
                             ["critical"; "high"; "medium"] \/
                           risk_level (st_risk state) = None).
  { intros dflt. destruct (risk_level (st_risk state)) as [level|] eqn:E;
      [left; simpl get; now apply L | now right]. }
  assert (R : route_by_risk_level (session m1) state = "generate_report").
  { unfold route_by_risk_level. rewrite F. cbn [existsb].
    destruct (N "low") as [H | H].
    - destruct (String.eqb_spec (get (risk_level (st_risk state)) "low") "critical")
        as [E|_]; [exfalso; apply H; rewrite E; simpl; tauto|].
      destruct (String.eqb_spec (get (risk_level (st_risk state)) "low") "high")
        as [E|_]; [exfalso; apply H; rewrite E; simpl; tauto|].
      destruct (String.eqb_spec (get (risk_level (st_risk state)) "low") "medium")
        as [E|_]; [exfalso; apply H; rewrite E; simpl; tauto|].
      reflexivity.
    - rewrite H. reflexivity. }
  rewrite (run_after_upstream w initial m state m1 U).
  rewrite (continue_after_report_routed _ _ _ _ R), execute_report.
  assert (B : exists rest, build_recommendations state
                = "✅ **CLEAR**: Content appears safe for standard publication" :: rest).
  { unfold build_recommendations. rewrite A. simpl get at 2.
    unfold insert_review_recommendation. simpl String.eqb. cbv iota.
    assert (K : risk_recommendations (get (risk_level (st_risk state)) "unknown")
                = ["✅ **CLEAR**: Content appears safe for standard publication"]).
    { unfold risk_recommendations.
      destruct (N "unknown") as [H | H].
      - destruct (String.eqb_spec (get (risk_level (st_risk state)) "unknown") "critical")
          as [E|_]; [exfalso; apply H; rewrite E; simpl; tauto|].
        destruct (String.eqb_spec (get (risk_level (st_risk state)) "unknown") "high")
          as [E|_]; [exfalso; apply H; rewrite E; simpl; tauto|].
        destruct (String.eqb_spec (get (risk_level (st_risk state)) "unknown") "medium")
          as [E|_]; [exfalso; apply H; rewrite E; simpl; tauto|].
        reflexivity.
      - rewrite H. reflexivity. }
    rewrite K.
    destruct (append_content_recommendation_app
                (get (content_type (st_analysis state)) "unknown")
                ["✅ **CLEAR**: Content appears safe for standard publication"])
      as (rest & ->).
    exists rest. reflexivity. }
  destruct B as (rest & B).
  eexists. eexists. exists rest. split; [reflexivity|].
  destruct state as [i a v r [ha rs rn] o]. simpl in A. subst ha.
  split; [|reflexivity]. simpl. now rewrite B.
Qed.

Lemma unrecognised_risk_is_reported_clear_witness :
  exists final m' rest,
    run (calm_world "HIGH") (initial_state "hello world" false true) fresh_machine
      = (Ret final, m') /\
    recommendations (st_output final)
      = Some ("✅ **CLEAR**: Content appears safe for standard publication" :: rest).
Proof.
  edestruct (unrecognised_risk_is_reported_clear (calm_world "HIGH")
               (initial_state "hello world" false true) fresh_machine)
    as (final & m' & rest & R & C & _).
  - vm_compute. reflexivity.
  - intros level E. injection E as <-. simpl. intuition discriminate.
  - reflexivity.
  - reflexivity.
  - exists final, m', rest. split; [exact R | exact C].
Defined.

(** ** More on the LLM call *)

Lemma truthy_not_empty s : PyStr.truthy s = true -> s <> "".
Proof. destruct s; simpl; [discriminate | intros _; discriminate]. Qed.

Lemma retry_loop_returns_reply w message max_retries :
  forall remaining attempt m rsp m',
    retry_loop w message max_retries attempt remaining m = (Ret rsp, m') ->
    rsp <> "" /\
    exists n content,
      llm_calls m <= n < llm_calls m + remaining /\
      llm_invoke w n message = Content content /\
      rsp = PyStr.strip content /\
      llm_calls m' = S n.
Proof.
  induction remaining as [|remaining IH]; intros attempt m rsp m'.
  - simpl. discriminate.
  - simpl retry_loop. unfold bind at 1, try_except at 1, bind at 1, invoke at 1.
    assert (Next : forall m1,
               llm_calls m1 = S (llm_calls m) ->
               retry_loop w message max_retries (S attempt) remaining m1 = (Ret rsp, m') ->
               rsp <> "" /\
               exists n content,
                 llm_calls m <= n < llm_calls m + S remaining /\
                 llm_invoke w n message = Content content /\
                 rsp = PyStr.strip content /\
                 llm_calls m' = S n).
    { intros m1 C H. destruct (IH _ _ _ _ H) as (NE & n & content & B & I & S' & C').
      split; [exact NE|]. exists n, content. repeat split; try assumption; lia. }
    destruct (llm_invoke w (llm_calls m) message) as [content|e] eqn:I.
    + destruct (PyStr.truthy (PyStr.strip content)) eqn:T.
      * cbn [ret]. intros H. injection H as <- <-.
        split; [now apply truthy_not_empty|].
        exists (llm_calls m), content. repeat split; try assumption; try lia.
      * unfold raise at 1.
        destruct (is_rate_limited _); unfold random_uniform, bind, sleep, emit;
          cbn [fst snd session llm_calls draws trace ret raise];
          destruct (attempt <? max_retries - 1);
          cbn [fst snd session llm_calls draws trace ret raise];
          try discriminate; apply Next; reflexivity.
    + destruct (is_rate_limited e); unfold random_uniform, bind, sleep, emit;
        cbn [fst snd session llm_calls draws trace ret raise];
        destruct (attempt <? max_retries - 1);
        cbn [fst snd session llm_calls draws trace ret raise];
        try discriminate; apply Next; reflexivity.
Qed.

(** X16: what the LLM call returns.  A response the call returns is never
    empty: it is the content of the last reply it asked for, stripped of
    surrounding white space, and that reply is one of the first
    [max_retries] replies after the call began. *)
Theorem call_llm_returns_stripped_reply w message max_retries m rsp m' :
  call_llm_with_retry w message max_retries m = (Ret rsp, m') ->
  rsp <> "" /\
  exists n content,
    llm_calls m <= n < llm_calls m + max_retries /\
    llm_invoke w n message = Content content /\
    rsp = PyStr.strip content /\
    llm_calls m' = S n.
Proof. apply retry_loop_returns_reply. Qed.

Lemma call_llm_returns_stripped_reply_witness :
  exists n content,
    llm_invoke garbled_world n (AnalysisPrompt "some text") = Content content /\
    "I cannot answer that." = PyStr.strip content.
Proof.
  destruct (call_llm_returns_stripped_reply garbled_world (AnalysisPrompt "some text") 4
              fresh_machine "I cannot answer that."
              (snd (call_llm_with_retry garbled_world (AnalysisPrompt "some text") 4
                      fresh_machine)))
    as (_ & n & content & _ & I & S & _); [reflexivity|].
  exists n, content. split; [exact I | exact S].
Defined.

(** X17: the call recovers from failures.  When the first [k] replies
    (fewer than [max_retries]) are failures and the next one has content
    that is not blank, the call returns that content stripped, after
    [k + 1] calls of the model. *)
Theorem call_llm_recovers_after_failures w message max_retries m k content :
  k < max_retries ->
  (forall i, i < k -> exists e, llm_invoke w (llm_calls m + i) message = Failure e) ->
  llm_invoke w (llm_calls m + k) message = Content content ->
  PyStr.truthy (PyStr.strip content) = true ->
  exists m',
    call_llm_with_retry w message max_retries m = (Ret (PyStr.strip content), m') /\
    llm_calls m' = llm_calls m + k + 1.
Proof.
  unfold call_llm_with_retry.
  assert (G : forall k remaining attempt m,
             k < remaining -> attempt + remaining = max_retries ->
             (forall i, i < k ->
                exists e, llm_invoke w (llm_calls m + i) message = Failure e) ->
             llm_invoke w (llm_calls m + k) message = Content content ->
             PyStr.truthy (PyStr.strip content) = true ->
             exists m',
               retry_loop w message max_retries attempt remaining m
                 = (Ret (PyStr.strip content), m') /\
               llm_calls m' = llm_calls m + k + 1).
  { clear k m. induction k as [|k IH]; intros remaining attempt m L A F C T;
      (destruct remaining as [|remaining]; [lia|]);
      simpl retry_loop; unfold bind at 1, try_except at 1, bind at 1, invoke at 1.
    - rewrite Nat.add_0_r in C. rewrite C, T. cbn [ret].
      eexists. split; [reflexivity|]. cbn [llm_calls]. lia.
    - destruct (F 0) as (e & E); [lia|]. rewrite Nat.add_0_r in E. rewrite E.
      assert (Lt : (attempt <? max_retries - 1) = true) by (apply Nat.ltb_lt; lia).
      assert (Next : forall m1, llm_calls m1 = S (llm_calls m) ->
                exists m',
                  retry_loop w message max_retries (S attempt) remaining m1
                    = (Ret (PyStr.strip content), m') /\
                  llm_calls m' = llm_calls m + S k + 1).
      { intros m1 C1.
        destruct (IH remaining (S attempt) m1) as (m' & R & C'); try lia; try assumption.
        - intros i Hi. destruct (F (S i)) as (e' & E'); [lia|].
          exists e'. rewrite C1. now replace (S (llm_calls m) + i) with (llm_calls m + S i) by lia.
        - rewrite C1. now replace (S (llm_calls m) + k) with (llm_calls m + S k) by lia.
        - exists m'. split; [exact R | lia]. }
      destruct (is_rate_limited e); unfold random_uniform, bind, sleep, emit;
        cbn [fst snd session llm_calls draws trace ret raise];
        rewrite Lt; cbn [fst snd session llm_calls draws trace ret raise];
        apply Next; reflexivity. }
  intros L F C T. apply (G k max_retries 0 m); try assumption; lia.
Qed.

Lemma call_llm_recovers_after_failures_witness :
  exists m',
    call_llm_with_retry
      (mkWorld true
         (fun n _ => if n <? 2 then Failure (mkExn OtherError "429 Too Many Requests")
                     else Content " {} ")
         (fun _ => 0.5%Q) (fun _ => DecodedObject no_analysis)
         (fun _ => DecodeFailed "none") (fun _ => inl []) (fun _ => inl [])
         None 160%Q "2026-01-01 00:00:00")
      (AnalysisPrompt "some text") 4 fresh_machine = (Ret "{}", m') /\
    llm_calls m' = 3.
Proof.
  apply (call_llm_recovers_after_failures
           (mkWorld true
              (fun n _ => if n <? 2 then Failure (mkExn OtherError "429 Too Many Requests")
                          else Content " {} ")
              (fun _ => 0.5%Q) (fun _ => DecodedObject no_analysis)
              (fun _ => DecodeFailed "none") (fun _ => inl []) (fun _ => inl [])
              None 160%Q "2026-01-01 00:00:00")
           (AnalysisPrompt "some text") 4 fresh_machine 2 " {} ").
  - lia.
  - intros i Hi. eexists. simpl.
    destruct i as [|[|i]]; [reflexivity | reflexivity | lia].
  - reflexivity.
  - reflexivity.
Defined.

(** ** More on routing *)

Lemma lower_app a b : PyStr.lower (a ++ b) = PyStr.lower a ++ PyStr.lower b.
Proof.
  unfold PyStr.lower. induction a as [|c a IH]; simpl; [reflexivity | now rewrite IH].
Qed.

Lemma contains_app needle pre post :
  PyStr.contains needle (pre ++ needle ++ post) = true.
Proof.
  induction pre as [|c pre IH].
  - change ("" ++ needle ++ post) with (needle ++ post).
    apply prefix_contains, prefix_app.
  - change (String c pre ++ needle ++ post) with (String c (pre ++ needle ++ post)).
    now apply contains_tail.
Qed.

(** X18: the high-risk keywords are matched anywhere in the text and in
    any letter case.  Unless the input opts out of external verification, a
    text holding a word whose lower-case form is one of "breaking",
    "exclusive", "leaked", "secret" and "shocking" is routed to the
    verification stage, entities or not. *)
Theorem keyword_routes_to_verification state pre word post :
  get (include_external_verification (st_input state)) true = true ->
  text (st_input state) = Some (pre ++ word ++ post) ->
  In (PyStr.lower word) high_risk_keywords ->
  should_include_verification state = "verification".
Proof.
  intros O T K. unfold should_include_verification. rewrite O, T. simpl negb.
  cbv iota. simpl get.
  assert (E : existsb (fun keyword => PyStr.contains keyword
                         (PyStr.lower (pre ++ word ++ post))) high_risk_keywords = true).
  { apply existsb_exists. exists (PyStr.lower word). split; [exact K|].
    rewrite !lower_app. apply contains_app. }
  now rewrite E.
Qed.

Lemma keyword_routes_to_verification_witness :
  should_include_verification (initial_state "We have an EXCLUSIVE report" false true)
    = "verification".
Proof.
  apply (keyword_routes_to_verification
           (initial_state "We have an EXCLUSIVE report" false true)
           "We have an " "EXCLUSIVE" " report").
  - reflexivity.
  - reflexivity.
  - simpl. tauto.
Defined.

(** [route_by_content_complexity] decides nothing: forced review or
    not, long or short, research, social media or anything else, every
    State is sent to "verification". *)
Lemma route_by_content_complexity_is_constant state :
  route_by_content_complexity state = "verification".
Proof.
  unfold route_by_content_complexity.
  destruct (get (force_human_review (st_input state)) false); [reflexivity|].
  destruct (_ || _); [reflexivity|].
  destruct (String.eqb _ _); reflexivity.
Qed.

(** ** The error log *)

Lemma last_n_length {A} n (l : list A) : length (last_n n l) = Nat.min n (length l).
Proof. unfold last_n. rewrite length_skipn. lia. Qed.

Lemma last_n_incl {A} n (l : list A) x : In x (last_n n l) -> In x l.
Proof.
  unfold last_n. intros H. rewrite <- (firstn_skipn (length l - n) l).
  apply in_or_app. now right.
Qed.

(** X19: the error log is a window on the last ten errors.  After
    [log_error] the log holds the new entry last, every other entry was in
    the log before, and the log is one entry longer than before, capped at
    ten; nothing else of the machine changes. *)
Theorem error_log_keeps_last_ten e context m :
  fst (log_error e context m) = Ret tt /\
  length (error_log (session (snd (log_error e context m))))
    = Nat.min (S (length (error_log (session m)))) 10 /\
  (exists earlier,
     error_log (session (snd (log_error e context m)))
       = (earlier ++ [mkErrorData (exn_kind e) (exn_msg e) context])%list /\
     forall entry, In entry earlier -> In entry (error_log (session m))) /\
  trace (snd (log_error e context m)) = trace m /\
  review_decision (session (snd (log_error e context m))) = review_decision (session m).
Proof.
  split; [reflexivity|].
  change (session (snd (log_error e context m))) with (logged e context (session m)).
  unfold logged. cbn [error_log review_decision].
  set (old := error_log (session m)).
  set (entry := mkErrorData (exn_kind e) (exn_msg e) context).
  assert (L : length (old ++ [entry]) = S (length old))
    by (rewrite length_app; simpl; lia).
  split; [|split; [|split; reflexivity]].
  - destruct (Nat.ltb_spec 10 (length (old ++ [entry]))) as [H|H].
    + rewrite last_n_length. lia.
    + lia.
  - destruct (Nat.ltb_spec 10 (length (old ++ [entry]))) as [H|H].
    + rewrite last_n_snoc by lia. eexists. split; [reflexivity|].
      intros x. apply last_n_incl.
    + exists old. split; [reflexivity | tauto].
Qed.

(** ** [extract_json] *)

Lemma append_assoc_str (a b c : string) : (a ++ b) ++ c = a ++ (b ++ c).
Proof. induction a as [|x a IH]; simpl; [reflexivity | now rewrite IH]. Qed.

Lemma length_append (a b : string) :
  String.length (a ++ b) = String.length a + String.length b.
Proof. induction a as [|x a IH]; simpl; [reflexivity | now rewrite IH]. Qed.

Lemma find_cons c d r :
  PyStr.find c (String d r)
    = if Ascii.eqb d c then 0%Z
      else if (PyStr.find c r <? 0)%Z then (-1)%Z else (PyStr.find c r + 1)%Z.
Proof. reflexivity. Qed.

Lemma rfind_cons c d r :
  PyStr.rfind c (String d r)
    = if (0 <=? PyStr.rfind c r)%Z then (PyStr.rfind c r + 1)%Z
      else if Ascii.eqb d c then 0%Z else (-1)%Z.
Proof. reflexivity. Qed.

Lemma find_bounds c s : (-1 <= PyStr.find c s < Z.of_nat (String.length s))%Z.
Proof.
  induction s as [|d r IH]; [simpl; lia|].
  rewrite find_cons. cbn [String.length].
  destruct (Ascii.eqb d c); [lia|].
  destruct (Z.ltb_spec (PyStr.find c r) 0); lia.
Qed.

Lemma rfind_bounds c s : (-1 <= PyStr.rfind c s < Z.of_nat (String.length s))%Z.
Proof.
  induction s as [|d r IH]; [simpl; lia|].
  rewrite rfind_cons. cbn [String.length].
  destruct (Z.leb_spec 0 (PyStr.rfind c r)); [lia|].
  destruct (Ascii.eqb d c); lia.
Qed.

Lemma find_app_first c pre rest :
  PyStr.find c pre = (-1)%Z ->
  PyStr.find c (pre ++ String c rest) = Z.of_nat (String.length pre).
Proof.
  induction pre as [|d pre IH]; intros H.
  - simpl append. rewrite find_cons, Ascii.eqb_refl. reflexivity.
  - change (String d pre ++ String c rest) with (String d (pre ++ String c rest)).
    rewrite find_cons in H |- *.
    destruct (Ascii.eqb d c); [discriminate|].
    pose proof (find_bounds c pre) as B.
    destruct (Z.ltb_spec (PyStr.find c pre) 0) as [L|L]; [|lia].
    rewrite IH by lia.
    destruct (Z.ltb_spec (Z.of_nat (String.length pre)) 0); [lia|].
    cbn [String.length]. lia.
Qed.

Lemma rfind_app_last c before post :
  PyStr.rfind c post = (-1)%Z ->
  PyStr.rfind c (before ++ String c post) = Z.of_nat (String.length before).
Proof.
  intros H. induction before as [|d before IH].
  - simpl append. rewrite rfind_cons, H, Ascii.eqb_refl. reflexivity.
  - change (String d before ++ String c post) with (String d (before ++ String c post)).
    rewrite rfind_cons, IH.
    destruct (Z.leb_spec 0 (Z.of_nat (String.length before))); [|lia].
    cbn [String.length]. lia.
Qed.

Lemma substring_skip pre n s :
  String.substring (String.length pre) n (pre ++ s) = String.substring 0 n s.
Proof. induction pre as [|d pre IH]; simpl; [reflexivity | exact IH]. Qed.

Lemma substring_nothing n s : String.substring n 0 s = "".
Proof.
  revert n. induction s as [|d s IH]; intros [|n]; simpl; try reflexivity. apply IH.
Qed.

Lemma substring_through a c b :
  String.substring 0 (S (String.length a)) (a ++ String c b) = a ++ String c "".
Proof.
  induction a as [|d a IH]; simpl; [now rewrite substring_nothing | now rewrite IH].
Qed.

Lemma extract_json_of_wrapped pre mid post :
  PyStr.find "{" pre = (-1)%Z ->
  PyStr.rfind "}" post = (-1)%Z ->
  extract_json (pre ++ "{" ++ mid ++ "}" ++ post) = "{" ++ mid ++ "}".
Proof.
  intros Hpre Hpost.
  change (pre ++ "{" ++ mid ++ "}" ++ post)
    with (pre ++ String "{" (mid ++ String "}" post)).
  unfold extract_json.
  rewrite (find_app_first "{" pre _ Hpre).
  replace (pre ++ String "{" (mid ++ String "}" post))
    with ((pre ++ String "{" mid) ++ String "}" post)
    by (rewrite append_assoc_str; reflexivity).
  rewrite (rfind_app_last "}" _ post Hpost).
  rewrite length_append. cbn [String.length].
  destruct (Z.eqb_spec (Z.of_nat (String.length pre)) (-1)); [lia|].
  destruct (Z.ltb_spec (-1) (Z.of_nat (String.length pre + S (String.length mid))));
    [|lia].
  cbn [negb andb]. unfold PyStr.slice.
  rewrite Nat2Z.id.
  replace (Z.to_nat (Z.of_nat (String.length pre + S (String.length mid)) + 1
                     - Z.of_nat (String.length pre)))
    with (S (S (String.length mid))) by lia.
  rewrite append_assoc_str. rewrite substring_skip.
  change (String "{" mid ++ String "}" post) with (String "{" (mid ++ String "}" post)).
  cbn [String.substring]. now rewrite substring_through.
Qed.

(** X20: [extract_json] removes the prose around the object.  For a text
    made of a lead without an opening brace, an opening brace, anything, a
    closing brace and a tail without a closing brace, the result runs from
    that opening brace to that closing brace. *)
Theorem extract_json_unwraps pre mid post :
  PyStr.find "{" pre = (-1)%Z ->
  PyStr.rfind "}" post = (-1)%Z ->
  extract_json (pre ++ "{" ++ mid ++ "}" ++ post) = "{" ++ mid ++ "}".
Proof. apply extract_json_of_wrapped. Qed.

Lemma extract_json_unwraps_witness :
  extract_json ("Sure, here it is: " ++ "{" ++ "'a': {'b': 1}" ++ "}" ++ " Hope it helps")
    = "{" ++ "'a': {'b': 1}" ++ "}".
Proof.
  apply (extract_json_unwraps "Sure, here it is: " "'a': {'b': 1}" " Hope it helps");
    reflexivity.
Defined.

Lemma find_split c t :
  (0 <= PyStr.find c t)%Z ->
  exists pre rest, t = pre ++ String c rest /\ PyStr.find c pre = (-1)%Z.
Proof.
  induction t as [|d t IH]; [simpl; lia|].
  rewrite find_cons.
  destruct (Ascii.eqb_spec d c) as [->|N].
  - intros _. exists "", t. split; reflexivity.
  - destruct (Z.ltb_spec (PyStr.find c t) 0) as [L|L]; [lia|]. intros _.
    destruct (IH L) as (pre & rest & -> & P).
    exists (String d pre), rest. split; [reflexivity|].
    rewrite find_cons, P.
    destruct (Ascii.eqb_spec d c); [contradiction | reflexivity].
Qed.

Lemma rfind_split c t :
  (0 <= PyStr.rfind c t)%Z ->
  exists before post, t = before ++ String c post /\ PyStr.rfind c post = (-1)%Z.
Proof.
  induction t as [|d t IH]; [simpl; lia|].
  rewrite rfind_cons.
  destruct (Z.leb_spec 0 (PyStr.rfind c t)) as [L|L].
  - intros _. destruct (IH L) as (before & post & -> & P).
    exists (String d before), post. split; [reflexivity | exact P].
  - destruct (Ascii.eqb_spec d c) as [->|N]; [|lia]. intros _.
    pose proof (rfind_bounds c t).
    exists "", t. split; [reflexivity | lia].
Qed.

Lemma rfind_app c a b :
  PyStr.rfind c (a ++ b)
    = if (0 <=? PyStr.rfind c b)%Z
      then (Z.of_nat (String.length a) + PyStr.rfind c b)%Z
      else PyStr.rfind c a.
Proof.
  induction a as [|d a IH].
  - simpl. destruct (Z.leb_spec 0 (PyStr.rfind c b)) as [L|L]; [lia|].
    pose proof (rfind_bounds c b). lia.
  - change (String d a ++ b) with (String d (a ++ b)).
    rewrite !rfind_cons, IH. cbn [String.length].
    pose proof (rfind_bounds c a).
    destruct (Z.leb_spec 0 (PyStr.rfind c b)) as [L|L].
    + destruct (Z.leb_spec 0 (Z.of_nat (String.length a) + PyStr.rfind c b)); lia.
    + reflexivity.
Qed.

(** X21: [extract_json] is idempotent: applied to its own result it changes
    nothing, whatever the text (no brace, braces in the wrong order, nested
    objects). *)
Theorem extract_json_idempotent txt :
  extract_json (extract_json txt) = extract_json txt.
Proof.
  destruct (Z.eqb_spec (PyStr.find "{" txt) (-1)) as [F|F].
  { unfold extract_json at 2. rewrite F. reflexivity. }
  destruct (Z.ltb_spec (-1) (PyStr.rfind "}" txt)) as [R|R].
  2:{ unfold extract_json at 2.
      destruct (Z.ltb_spec (-1) (PyStr.rfind "}" txt)); [lia|].
      now rewrite andb_false_r. }
  pose proof (find_bounds "{" txt) as FB.
  destruct (find_split "{" txt) as (pre & rest & E & P); [lia|].
  destruct (Z.leb_spec 0 (PyStr.rfind "}" (String "{" rest))) as [L|L].
  - (* the last closing brace follows the first opening brace *)
    rewrite rfind_cons in L.
    destruct (Z.leb_spec 0 (PyStr.rfind "}" rest)) as [L'|L'];
      [|simpl in L; lia].
    destruct (rfind_split "}" rest L') as (mid & post & -> & Q).
    subst txt.
    change (pre ++ String "{" (mid ++ String "}" post))
      with (pre ++ "{" ++ mid ++ "}" ++ post).
    rewrite (extract_json_of_wrapped pre mid post P Q).
    change ("{" ++ mid ++ "}") with ("" ++ "{" ++ mid ++ "}" ++ "").
    apply extract_json_of_wrapped; reflexivity.
  - (* the last closing brace comes before the first opening brace *)
    assert (Z' : extract_json txt = "").
    { unfold extract_json.
      destruct (Z.eqb_spec (PyStr.find "{" txt) (-1)); [contradiction|].
      destruct (Z.ltb_spec (-1) (PyStr.rfind "}" txt)); [|lia].
      cbn [negb andb]. unfold PyStr.slice.
      assert (J : (PyStr.rfind "}" txt < PyStr.find "{" txt)%Z).
      { rewrite E at 1. rewrite rfind_app.
        destruct (Z.leb_spec 0 (PyStr.rfind "}" (String "{" rest))); [lia|].
        rewrite E, (find_app_first "{" pre rest P).
        apply rfind_bounds. }
      replace (Z.to_nat (PyStr.rfind "}" txt + 1 - PyStr.find "{" txt)) with 0 by lia.
      apply substring_nothing. }
    rewrite Z'. reflexivity.
Qed.

(** ** More on the report *)

(** X22: the sections of the report include the Human Review heading
    exactly when the State holds a [human_approval] other than
    "auto_approved"; no other section, whatever the entities, topics, flags
    or verification results, is that heading. *)
Theorem human_review_section_iff w sess state :
  In "### 👤 **Human Review**" (report_sections w sess state) <->
  get (human_approval (st_review state)) "auto_approved" <> "auto_approved".
Proof.
  unfold report_sections, verification_score_line.
  set (approval := get (human_approval (st_review state)) "auto_approved").
  split.
  - intros H E. rewrite E in H. cbn [String.eqb Ascii.eqb Bool.eqb negb] in H.
    repeat (apply in_app_or in H; destruct H as [H|H]).
    + cbn [In] in H.
      repeat (destruct H as [H|H]; [simpl in H; discriminate H|]). exact H.
    + destruct (firstn 5 _); cbn [In] in H; [exact H|].
      repeat (destruct H as [H|H]; [simpl in H; discriminate H|]). exact H.
    + destruct (firstn 3 _); cbn [In] in H; [exact H|].
      repeat (destruct H as [H|H]; [simpl in H; discriminate H|]). exact H.
    + destruct (get (misinformation_flags (st_risk state)) []) as [|flag flags];
        [exact H|].
      apply in_app_or in H. destruct H as [H|H].
      * cbn [In] in H. destruct H as [H|H]; [simpl in H; discriminate H | exact H].
      * apply in_app_or in H. destruct H as [H|H].
        -- apply in_map_iff in H. destruct H as (x & H & _). simpl in H. discriminate H.
        -- cbn [In] in H. destruct H as [H|H]; [discriminate H | exact H].
    + destruct (get (similar_articles (st_verification state)) []),
               (get (fact_check_results (st_verification state)) []);
        cbn [In] in H; try exact H;
        repeat (destruct H as [H|H]; [simpl in H; discriminate H|]); exact H.
    + exact H.
  - intros N.
    destruct (String.eqb_spec approval "auto_approved") as [E|_]; [contradiction|].
    cbn [negb].
    repeat (apply in_or_app; right).
    left. reflexivity.
Qed.

Lemma human_review_section_iff_witness :
  In "### 👤 **Human Review**"
     (report_sections (calm_world "high") fresh_session
        (assessed_state "high" (Some "skipped"))).
Proof.
  apply (proj2 (human_review_section_iff (calm_world "high") fresh_session
                  (assessed_state "high" (Some "skipped")))).
  discriminate.
Defined.

(** ** The HTTP client *)

Module HttpFacts.
Import Http.




Lemma request_loop_returns request :
  forall remaining attempt last r,
    outcome (request_loop request attempt remaining last) = inl r ->
    exists n,
      attempt <= n < attempt + remaining /\
      request n = Answer r /\
      status_code r <> 429%Z /\
      ~ (400 <= status_code r < 600)%Z /\
      requests (request_loop request attempt remaining last) = S (n - attempt).
Proof.
  induction remaining as [|remaining IH]; intros attempt last r.
  - simpl. discriminate.
  - simpl request_loop.
    destruct (iteration attempt last (request attempt)) as [r'|slept last'] eqn:I.
    + simpl. intros H. injection H as ->.
      exists attempt. split; [lia|].
      unfold iteration in I.
      destruct (request attempt) as [r0| |e]; cycle 1.
      { unfold on_timeout in I. destruct (_ <? _); discriminate. }
      { unfold on_exception in I. destruct (_ <? _); discriminate. }
      destruct (Z.eqb_spec (status_code r0) 429) as [E|E].
      { destruct (get _ _) as [seconds|e].
        - destruct (checked_sleep _); [discriminate|].
          unfold on_exception in I. destruct (_ <? _); discriminate.
        - unfold on_exception in I. destruct (_ <? _); discriminate. }
      destruct (Z.leb_spec 400 (status_code r0)) as [L|L];
        destruct (Z.ltb_spec (status_code r0) 600) as [U|U];
        cbn [andb] in I;
        try (unfold on_exception in I; destruct (_ <? _); discriminate);
        injection I as <-;
        (split; [reflexivity|]); (split; [exact E|]); (split; [lia|]);
        rewrite Nat.sub_diag; reflexivity.
    + cbn [outcome requests]. intros H.
      destruct (IH (S attempt) last' r H) as (n & B & Rq & S1 & S2 & C).
      exists n. split; [lia|]. split; [exact Rq|]. split; [exact S1|].
      split; [exact S2|]. rewrite C. f_equal. lia.
Qed.

(** X24: the HTTP client returns successes only.  A response it returns is
    the reply to the last request it sent, and its status is neither 429
    nor any other code from 400 to 599. *)
Theorem make_request_returns_success request r :
  outcome (make_request_with_retry request) = inl r ->
  exists n,
    n < 3 /\
    request n = Answer r /\
    status_code r <> 429%Z /\
    ~ (400 <= status_code r < 600)%Z /\
    requests (make_request_with_retry request) = S n.
Proof.
  intros H. unfold make_request_with_retry in *.
  destruct (request_loop_returns request MAX_RETRIES 0 None r H)
    as (n & B & Rq & S1 & S2 & C).
  exists n. unfold MAX_RETRIES in B.
  split; [lia|]. split; [exact Rq|]. split; [exact S1|]. split; [exact S2|].
  rewrite C. f_equal. lia.
Qed.

Lemma make_request_returns_success_witness :
  exists n,
    n < 3 /\
    (fun k => if k <? 1 then Timeout
              else Answer (mkResponse 200 None (mkExn OtherError "n/a") "{}")) n
      = Answer (mkResponse 200 None (mkExn OtherError "n/a") "{}") /\
    requests (make_request_with_retry
                (fun k => if k <? 1 then Timeout
                          else Answer (mkResponse 200 None (mkExn OtherError "n/a") "{}")))
      = S n.
Proof.
  destruct (make_request_returns_success
              (fun k => if k <? 1 then Timeout
                        else Answer (mkResponse 200 None (mkExn OtherError "n/a") "{}"))
              (mkResponse 200 None (mkExn OtherError "n/a") "{}"))
    as (n & B & Rq & _ & _ & C); [reflexivity|].
  exists n. split; [exact B|]. split; [exact Rq | exact C].
Defined.



End HttpFacts.
